(** * django_ses.views: a shallow embedding and its verified properties

    The module [django_ses/views.py] holds the statistics helpers of the
    dashboard ([stats_to_list], [quota_parse], [emails_parse], [sum_stats]),
    the view [dashboard] with its guard [superuser_only], and the webhook
    view [handle_bounce].  This development embeds them in Rocq and proves
    the properties the specification states about them, and more that the
    code shows.

    Python values are modelled in two ways, by what the code does to them:
    - the helpers that only read their argument work on immutable trees
      ([pyval]);
    - [stats_to_list] copies its argument and then assigns into the
      dictionaries of the copy, so it runs on a store of mutable objects
      ([heap]) addressed by references, with explicit state passing.

    Library code the views call (the [int] and [float] builtins on
    strings, [datetime.strptime], [json.loads], the [pytz] zone database,
    the [logging] configuration and the Django setting [TIME_ZONE]) is taken
    as section variables: every theorem holds whatever these compute.  Reference
    implementations are given at the end of the definitions, so that the
    views can be run on concrete inputs. *)

From stdpp Require Import gmap strings list fin_maps sorting.
From Stdlib Require Import ZArith Ascii.
From Stdlib Require OrderedTypeEx.

#[local] Open Scope Z_scope.
#[local] Set Warnings "-register-all".

(** ** Exceptions and the result of a call *)

(** The exception classes that the views and the library calls they make
    can raise.  [Unmodelled] is not a Python exception: it marks the two
    places where the embedding stops (the rich comparison of two containers
    and a reference to an object that the store does not hold). *)
Inductive exn :=
| KeyError | TypeError | ValueError | AttributeError | OverflowError
| UnknownTimeZoneError | Unmodelled.

Inductive outcome (A : Type) :=
| Ret (a : A)
| Raise (e : exn).
Arguments Ret {A} a.
Arguments Raise {A} e.

#[global] Instance outcome_ret : MRet outcome := @Ret.
#[global] Instance outcome_bind : MBind outcome := fun A B f m =>
  match m with
  | Ret a => f a
  | Raise e => Raise e
  end.

(** [of_option e o]: a library call that either gives a value or raises [e]. *)
Definition of_option {A} (e : exn) (o : option A) : outcome A :=
  match o with
  | Some a => Ret a
  | None => Raise e
  end.

(** A computation over a state [S] that may raise: the state reached when the
    exception was raised is kept, as the objects mutated so far stay
    mutated in Python. *)
Definition st (S A : Type) : Type := S -> outcome A * S.

#[global] Instance st_ret S : MRet (st S) := fun A a s => (Ret a, s).
#[global] Instance st_bind S : MBind (st S) := fun A B f m s =>
  match m s with
  | (Ret a, s') => f a s'
  | (Raise e, s') => (Raise e, s')
  end.

Definition lift {S A} (o : outcome A) : st S A := fun s => (o, s).

(** ** Scalars *)

(** A [datetime.datetime]: the wall-clock reading, counted in seconds from
    0001-01-01T00:00:00, and the UTC offset of its [tzinfo] in seconds
    ([None] for a naive datetime). *)
Record datetime := DateTime { wall : Z; tzoffset : option Z }.

Inductive atom :=
| ANone
| ABool (b : bool)
| AInt (z : Z)
| AStr (s : string)
| ADate (d : datetime).

(** [datetime.min] and [datetime.max] at the resolution of one second:
    0001-01-01T00:00:00 and 9999-12-31T23:59:59. *)
Definition dt_min : Z := 0.
Definition dt_max : Z := 3652059 * 86400 - 1.

Definition in_range (w : Z) : bool := (dt_min <=? w) && (w <=? dt_max).

(** [datetime + timedelta]: [OverflowError] outside [dt_min .. dt_max]. *)
Definition dt_add (w delta : Z) : outcome Z :=
  if in_range (w + delta) then Ret (w + delta) else Raise OverflowError.

(** The instant an aware datetime denotes, as a UTC wall-clock reading. *)
Definition utc_instant (d : datetime) : option Z :=
  match tzoffset d with
  | Some off => Some (wall d - off)
  | None => None
  end.

(** [a < b] in Python 2.  Datetimes compare with datetimes only, and naive
    ones with naive ones only; elsewhere [None] is below everything,
    numbers are below strings, and a [bool] counts as 0 or 1. *)
Definition atom_lt (a b : atom) : outcome bool :=
  match a, b with
  | ADate x, ADate y =>
      match tzoffset x, tzoffset y with
      | None, None => Ret (wall x <? wall y)
      | Some ox, Some oy => Ret (wall x - ox <? wall y - oy)
      | _, _ => Raise TypeError
      end
  | ADate _, _ | _, ADate _ => Raise TypeError
  | ANone, ANone => Ret false
  | ANone, _ => Ret true
  | _, ANone => Ret false
  | AStr s, AStr t => Ret (String.ltb s t)
  | AStr _, _ => Ret false
  | _, AStr _ => Ret true
  | ABool x, ABool y => Ret (Z.b2z x <? Z.b2z y)
  | ABool x, AInt y => Ret (Z.b2z x <? y)
  | AInt x, ABool y => Ret (x <? Z.b2z y)
  | AInt x, AInt y => Ret (x <? y)
  end.

(** ** Sorting *)

(** [list.sort] and [sorted] are stable and use [<] only.  The model is the
    insertion sort that places each element behind the elements of the
    sorted prefix that are not greater; a comparison that raises ends the
    sort. *)
Section Sorting.
Context {A : Type}.

Section Raising.
Variable lt : A -> A -> outcome bool.

Fixpoint py_insert (x : A) (l : list A) : outcome (list A) :=
  match l with
  | [] => Ret [x]
  | y :: l' =>
      b ← lt x y;
      if b : bool then Ret (x :: y :: l')
      else r ← py_insert x l'; Ret (y :: r)
  end.

Fixpoint py_sort_from (acc l : list A) : outcome (list A) :=
  match l with
  | [] => Ret acc
  | x :: l' => acc' ← py_insert x acc; py_sort_from acc' l'
  end.

Definition py_sort (l : list A) : outcome (list A) := py_sort_from [] l.
End Raising.

(** The same sort for a comparison that cannot raise. *)
Section Pure.
Variable ltb : A -> A -> bool.

Fixpoint insert_pure (x : A) (l : list A) : list A :=
  match l with
  | [] => [x]
  | y :: l' => if ltb x y then x :: y :: l' else y :: insert_pure x l'
  end.

Fixpoint isort_from (acc l : list A) : list A :=
  match l with
  | [] => acc
  | x :: l' => isort_from (insert_pure x acc) l'
  end.

Definition isort (l : list A) : list A := isort_from [] l.
End Pure.
End Sorting.

(** ** Immutable values: what the read-only helpers see *)

Inductive pyval :=
| PAtom (a : atom)
| PList (l : list pyval)
| PDict (d : gmap string pyval).

Definition PNone : pyval := PAtom ANone.
Definition PStr (s : string) : pyval := PAtom (AStr s).
Definition PInt (z : Z) : pyval := PAtom (AInt z).

(** [x[k]] for a string key [k]. *)
Definition py_getitem (x : pyval) (k : string) : outcome pyval :=
  match x with
  | PDict d => of_option KeyError (d !! k)
  | _ => Raise TypeError
  end.

(** [x.get(k, dflt)]: only a dict has the method. *)
Definition py_get (x : pyval) (k : string) (dflt : pyval) : outcome pyval :=
  match x with
  | PDict d => Ret (default dflt (d !! k))
  | _ => Raise AttributeError
  end.

(** The elements a [for] loop or a comprehension draws from [x]. *)
Definition py_iter (x : pyval) : outcome (list pyval) :=
  match x with
  | PList l => Ret l
  | PDict d => Ret (PStr <$> (map_to_list d).*1)
  | PAtom (AStr s) =>
      Ret ((fun c => PStr (String c EmptyString))
             <$> String.list_ascii_of_string s)
  | PAtom _ => Raise TypeError
  end.

(** [x < y]; comparing two containers is outside the model. *)
Definition py_lt (x y : pyval) : outcome bool :=
  match x, y with
  | PAtom a, PAtom b => atom_lt a b
  | _, _ => Raise Unmodelled
  end.

(** [x == s] for a string literal [s]. *)
Definition py_eq_str (x : pyval) (s : string) : bool :=
  match x with
  | PAtom (AStr t) => String.eqb t s
  | _ => false
  end.

(** ** The read-only helpers of the dashboard *)

(** [quota_parse(quota_dict)]. *)
Definition quota_parse (quota_dict : pyval) : outcome pyval :=
  r ← py_getitem quota_dict "GetSendQuotaResponse";
  py_getitem r "GetSendQuotaResult".

(** [emails_parse(emails_dict)]: the comprehension copies the elements of
    [result['VerifiedEmailAddresses']] into a new list, [sorted] orders it. *)
Definition emails_parse (emails_dict : pyval) : outcome (list pyval) :=
  r ← py_getitem emails_dict "ListVerifiedEmailAddressesResponse";
  result ← py_getitem r "ListVerifiedEmailAddressesResult";
  addresses ← py_getitem result "VerifiedEmailAddresses";
  emails ← py_iter addresses;
  py_sort py_lt emails.

(** The four running totals of [sum_stats]. *)
Record totals := Totals {
  t_bounces : Z;
  t_complaints : Z;
  t_delivery_attempts : Z;
  t_rejects : Z
}.

Definition totals_zero : totals := Totals 0 0 0 0.

Definition totals_add (s t : totals) : totals :=
  Totals (t_bounces s + t_bounces t) (t_complaints s + t_complaints t)
         (t_delivery_attempts s + t_delivery_attempts t)
         (t_rejects s + t_rejects t).

(** The dict that [sum_stats] returns. *)
Definition summary_dict (t : totals) : gmap string Z :=
  <["Bounces" := t_bounces t]>
    (<["Complaints" := t_complaints t]>
       (<["DeliveryAttempts" := t_delivery_attempts t]>
          (<["Rejects" := t_rejects t]> ∅))).

(** Field-wise addition of two summaries. *)
Definition summary_add (s t : gmap string Z) : gmap string Z :=
  union_with (fun x y => Some (x + y)) s t.

Section Summary.
(** The builtin [int] on a string: the integer it denotes, [None] where
    [int] raises [ValueError]. *)
Variable int_of_string : string -> option Z.

(** [int(x)]. *)
Definition py_int (x : pyval) : outcome Z :=
  match x with
  | PAtom (AStr s) => of_option ValueError (int_of_string s)
  | PAtom (AInt z) => Ret z
  | PAtom (ABool b) => Ret (Z.b2z b)
  | _ => Raise TypeError
  end.

(** [int(dp[k])]. *)
Definition int_field (dp : pyval) (k : string) : outcome Z :=
  x ← py_getitem dp k; py_int x.

(** One turn of the loop of [sum_stats]. *)
Definition sum_stats_step (t : totals) (dp : pyval) : outcome totals :=
  b ← int_field dp "Bounces";
  c ← int_field dp "Complaints";
  d ← int_field dp "DeliveryAttempts";
  r ← int_field dp "Rejects";
  Ret (Totals (t_bounces t + b) (t_complaints t + c)
              (t_delivery_attempts t + d) (t_rejects t + r)).

Fixpoint sum_stats_loop (t : totals) (stats_data : list pyval)
  : outcome totals :=
  match stats_data with
  | [] => Ret t
  | dp :: rest => t' ← sum_stats_step t dp; sum_stats_loop t' rest
  end.

(** [sum_stats(stats_data)]. *)
Definition sum_stats (stats_data : list pyval) : outcome (gmap string Z) :=
  t ← sum_stats_loop totals_zero stats_data;
  Ret (summary_dict t).
End Summary.

(** ** The webhook view *)

Inductive level := INFO | WARNING.

(** A request has [body] (Django 1.4) or only [raw_post_data]. *)
Inductive request :=
| WithBody (body : string)
| WithRawPostData (raw_post_data : string).

Inductive response := HttpResponse | HttpResponseBadRequest.

Definition status_code (r : response) : Z :=
  match r with
  | HttpResponse => 200
  | HttpResponseBadRequest => 400
  end.

(** What the view does to the outside: the records its logger takes and the
    signals it sends, in order. *)
Inductive event :=
| Logged (lv : level) (msg : string) (args : list pyval)
         (extra : list (string * pyval))
| bounce_received (mail_obj bounce_obj : pyval)
| complaint_received (mail_obj complaint_obj : pyval).

Definition is_signal (e : event) : bool :=
  match e with
  | Logged _ _ _ _ => false
  | _ => true
  end.

(** The signals sent along a trace. *)
Definition signals (tr : list event) : list event := filter is_signal tr.

(** The keys that [Logger.makeRecord] refuses in [extra]: "message",
    "asctime" and the attributes a [LogRecord] has already. *)
Definition record_keys : list string :=
  ["message"; "asctime"; "name"; "msg"; "args"; "levelname"; "levelno";
   "pathname"; "filename"; "module"; "exc_info"; "exc_text"; "lineno";
   "funcName"; "created"; "msecs"; "relativeCreated"; "thread";
   "threadName"; "processName"; "process"]%string.

Definition clashes (extra : list (string * pyval)) : bool :=
  existsb (fun k => bool_decide (k ∈ record_keys)) extra.*1.

Definition dquote : string := String (ascii_of_nat 34) EmptyString.

Section Webhook.
(** [json.loads]: the decoded value, [None] where it raises [ValueError]. *)
Variable json_loads : string -> option pyval.
(** [logger.isEnabledFor]. *)
Variable isEnabledFor : level -> bool.

(** [logger.info] and [logger.warning]: nothing happens below the level
    of the logger; above it the record is made, and making it raises
    [KeyError] when [extra] would overwrite an attribute of the record. *)
Definition logger_log (lv : level) (msg : string) (args : list pyval)
    (extra : list (string * pyval)) : st (list event) unit :=
  fun tr =>
    if isEnabledFor lv then
      if clashes extra then (Raise KeyError, tr)
      else (Ret tt, tr ++ [Logged lv msg args extra])
    else (Ret tt, tr).

Definition send (s : event) : st (list event) unit :=
  fun tr => (Ret tt, tr ++ [s]).

(** [handle_bounce(request)]. *)
Definition handle_bounce (request : request) : st (list event) response :=
  let raw_json :=
    match request with
    | WithBody body => body
    | WithRawPostData raw_post_data => raw_post_data
    end in
  match json_loads raw_json with
  | None =>
      _ ← logger_log WARNING
            ("Recieved bounce with bad JSON: " +:+ dquote +:+ "%s" +:+ dquote)
            [] [];
      mret HttpResponseBadRequest
  | Some hook_data =>
      mail_obj ← lift (py_get hook_data "mail" PNone);
      notification_type ← lift (py_get hook_data "notificationType" PNone);
      if py_eq_str notification_type "Bounce" then
        bounce_obj ← lift (py_get hook_data "bounce" (PDict ∅));
        feedback_id ← lift (py_get bounce_obj "feedbackId" PNone);
        bounce_type ← lift (py_get bounce_obj "bounceType" PNone);
        bounce_subtype ← lift (py_get bounce_obj "bounceSubType" PNone);
        _ ← logger_log INFO
              "Recieved bounce notification: feedbackId: %s, bounceType: %s, bounceSubType: %s"
              [feedback_id; bounce_type; bounce_subtype]
              [("message"%string, hook_data)];
        _ ← send (bounce_received mail_obj bounce_obj);
        mret HttpResponse
      else if py_eq_str notification_type "Complaint" then
        complaint_obj ← lift (py_get hook_data "complaint" (PDict ∅));
        feedback_id ← lift (py_get complaint_obj "feedbackId" PNone);
        feedback_type ←
          lift (py_get complaint_obj "complaintFeedbackType" PNone);
        _ ← logger_log INFO
              "Recieved complaint notification: feedbackId: %s, feedbackType: %s"
              [feedback_id; feedback_type]
              [("message"%string, hook_data)];
        _ ← send (complaint_received mail_obj complaint_obj);
        mret HttpResponse
      else
        _ ← logger_log WARNING
              ("Recieved bounce with invalid notificationType: "
                 +:+ dquote +:+ "%s" +:+ dquote)
              [notification_type]
              [("message"%string, hook_data)];
        mret HttpResponseBadRequest
  end.
End Webhook.

(** ** The store of mutable objects *)

(** A value is a scalar or a reference to a dict or a list of the store. *)
Inductive val :=
| VAtom (a : atom)
| VRef (l : nat).

Definition VStr (s : string) : val := VAtom (AStr s).
Definition VDate (d : datetime) : val := VAtom (ADate d).

Inductive obj :=
| ODict (d : gmap string val)
| OList (vs : list val).

(** The store: the object of reference [l] is at index [l]. *)
Abbreviation heap := (list obj).

(** [x[k]] for a string key [k]. *)
Definition getitem (x : val) (k : string) : st heap val := fun h =>
  match x with
  | VRef l =>
      match h !! l with
      | Some (ODict d) => (of_option KeyError (d !! k), h)
      | Some (OList _) => (Raise TypeError, h)
      | None => (Raise Unmodelled, h)
      end
  | VAtom _ => (Raise TypeError, h)
  end.

(** [x[k] = v] for a string key [k]: only a dict takes the assignment, and
    the dict is updated in place. *)
Definition setitem (x : val) (k : string) (v : val) : st heap unit := fun h =>
  match x with
  | VRef l =>
      match h !! l with
      | Some (ODict d) => (Ret tt, <[l := ODict (<[k := v]> d)]> h)
      | Some (OList _) => (Raise TypeError, h)
      | None => (Raise Unmodelled, h)
      end
  | VAtom _ => (Raise TypeError, h)
  end.

(** The elements a [for] loop draws from [x]. *)
Definition iter (x : val) : st heap (list val) := fun h =>
  match x with
  | VRef l =>
      match h !! l with
      | Some (OList vs) => (Ret vs, h)
      | Some (ODict d) => (Ret (VStr <$> (map_to_list d).*1), h)
      | None => (Raise Unmodelled, h)
      end
  | VAtom (AStr s) =>
      (Ret ((fun c => VStr (String c EmptyString))
              <$> String.list_ascii_of_string s), h)
  | VAtom _ => (Raise TypeError, h)
  end.

(** [copy.deepcopy] returns an object graph of new objects that has the
    shape of the graph its argument reaches: scalars are kept, sharing and
    cycles are reproduced.  The model gives every object of the store a twin
    at the same distance behind it, [length h] places further, and lets the
    references of the twins point to twins.  The twins of the objects that
    the argument reaches are the copy; the other twins are objects that
    nothing refers to. *)
Definition shift_val (n : nat) (v : val) : val :=
  match v with
  | VRef l => VRef (n + l)
  | VAtom a => VAtom a
  end.

Definition shift_obj (n : nat) (o : obj) : obj :=
  match o with
  | ODict d => ODict (shift_val n <$> d)
  | OList vs => OList (shift_val n <$> vs)
  end.

Definition deepcopy (x : val) : st heap val := fun h =>
  (Ret (shift_val (length h) x), h ++ (shift_obj (length h) <$> h)).

(** [x < y] on sort keys; comparing two containers is outside the model. *)
Definition val_lt (x y : val) : outcome bool :=
  match x, y with
  | VAtom a, VAtom b => atom_lt a b
  | _, _ => Raise Unmodelled
  end.

(** ** Time zones *)

(** A [pytz] zone: the UTC offset, in seconds, that it has at a UTC
    instant. *)
Record tzinfo := TzInfo { utcoffset : Z -> Z }.

(** The [pytz] module: [timezone(name)] is [None] where it raises
    [UnknownTimeZoneError]. *)
Record pytz_module := Pytz { timezone : string -> option tzinfo }.

(** [pytz.utc.localize(dt)]. *)
Definition utc_localize (dt : datetime) : outcome datetime :=
  match tzoffset dt with
  | None => Ret (DateTime (wall dt) (Some 0))
  | Some _ => Raise ValueError
  end.

(** [tz.fromutc]: the wall clock of the zone at the UTC reading [u]. *)
Definition fromutc (tz : tzinfo) (u : Z) : outcome datetime :=
  w ← dt_add u (utcoffset tz u);
  Ret (DateTime w (Some (utcoffset tz u))).

(** [dt.astimezone(tz)]: back to UTC by the offset of [dt], then [fromutc]. *)
Definition astimezone (dt : datetime) (tz : tzinfo) : outcome datetime :=
  match tzoffset dt with
  | None => Raise ValueError
  | Some off => u ← dt_add (wall dt) (- off); fromutc tz u
  end.

(** [tz.normalize(dt)]: the same two steps, as [pytz] writes them. *)
Definition normalize (tz : tzinfo) (dt : datetime) : outcome datetime :=
  match tzoffset dt with
  | None => Raise ValueError
  | Some off => u ← dt_add (wall dt) (- off); fromutc tz u
  end.

(** ** The statistics normalizer *)

Section Stats.
(** [datetime.strptime(s, '%Y-%m-%dT%H:%M:%SZ')]: the wall-clock reading
    of the parsed datetime, [None] where it raises [ValueError]. *)
Variable strptime : string -> option Z.
(** [settings.TIME_ZONE]. *)
Variable TIME_ZONE : string.

Definition py_strptime (x : val) : outcome datetime :=
  match x with
  | VAtom (AStr s) =>
      w ← of_option ValueError (strptime s); Ret (DateTime w None)
  | _ => Raise TypeError
  end.

(** The zone of the loop: [localize.timezone(settings.TIME_ZONE)] when
    [localize] is truthy, [None] otherwise. *)
Definition current_timezone (localize : option pytz_module)
  : outcome (option tzinfo) :=
  match localize with
  | Some m =>
      tz ← of_option UnknownTimeZoneError (timezone m TIME_ZONE);
      Ret (Some tz)
  | None => Ret None
  end.

(** The body of the [if current_tz:] of the loop. *)
Definition localize_timestamp (current_tz : tzinfo) (dp : val)
  : st heap unit :=
  ts ← getitem dp "Timestamp";
  utc_dt ← lift (py_strptime ts);
  utc_dt ← lift (utc_localize utc_dt);
  local_dt ← lift (astimezone utc_dt current_tz);
  local_dt ← lift (normalize current_tz local_dt);
  setitem dp "Timestamp" (VDate local_dt).

(** The [for dp in result['SendDataPoints']] loop, [datapoints] being the
    list built so far. *)
Fixpoint stats_loop (current_tz : option tzinfo) (dps datapoints : list val)
  : st heap (list val) :=
  match dps with
  | [] => mret datapoints
  | dp :: rest =>
      _ ← match current_tz with
          | Some tz => localize_timestamp tz dp
          | None => mret tt
          end;
      stats_loop current_tz rest (datapoints ++ [dp])
  end.

(** The keys [x['Timestamp']] that [datapoints.sort] computes first. *)
Fixpoint decorate (datapoints : list val) : st heap (list (val * val)) :=
  match datapoints with
  | [] => mret []
  | x :: rest =>
      k ← getitem x "Timestamp";
      keyed ← decorate rest;
      mret ((k, x) :: keyed)
  end.

Definition key_lt (p q : val * val) : outcome bool := val_lt p.1 q.1.

(** [datapoints.sort(key=lambda x: x['Timestamp'])]. *)
Definition sort_by_timestamp (datapoints : list val) : st heap (list val) :=
  keyed ← decorate datapoints;
  sorted ← lift (py_sort key_lt keyed);
  mret (sorted.*2).

(** [stats_to_list(stats_dict, localize)]. *)
Definition stats_to_list (stats_dict : val) (localize : option pytz_module)
  : st heap (list val) :=
  response ← getitem stats_dict "GetSendStatisticsResponse";
  result ← getitem response "GetSendStatisticsResult";
  result ← deepcopy result;
  current_tz ← lift (current_timezone localize);
  dps ← getitem result "SendDataPoints";
  dps ← iter dps;
  datapoints ← stats_loop current_tz dps [];
  sort_by_timestamp datapoints.
End Stats.

(** ** The words of the properties *)

(** *** Orders *)

(** [x] is not above [y]: [y] is not less than [x] by [ltb]. *)
Definition not_above {A : Type} (ltb : A -> A -> bool) (x y : A) : Prop :=
  ltb y x = false.

(** *** Datapoints of a summary *)

Definition summary_fields : list string :=
  ["Bounces"; "Complaints"; "DeliveryAttempts"; "Rejects"]%string.

(** The field [k] of [dp] is the string [s]. *)
Definition field_is (dp : pyval) (k s : string) : Prop :=
  py_getitem dp k = Ret (PStr s).

(** The four fields of [dp] are strings. *)
Definition string_fields (dp : pyval) : Prop :=
  forall k, k ∈ summary_fields -> exists s, field_is dp k s.

Definition nonneg_totals (t : totals) : Prop :=
  0 <= t_bounces t /\ 0 <= t_complaints t /\ 0 <= t_delivery_attempts t
  /\ 0 <= t_rejects t.

Section SummaryWords.
Variable int_of_string : string -> option Z.

(** The four fields of [dp] are strings that [int] reads as integers that
  are not negative. *)
Definition nonneg_fields (dp : pyval) : Prop :=
forall k, k ∈ summary_fields ->
  exists s n, field_is dp k s /\ int_of_string s = Some n /\ 0 <= n.

(** One of the four fields of [dp] is a string that [int] does not read. *)
Definition malformed_field (dp : pyval) : Prop :=
exists k s, k ∈ summary_fields /\ field_is dp k s /\ int_of_string s = None.

End SummaryWords.

(** *** Requests *)

(** The bytes that the view decodes. *)
Definition raw_json (r : request) : string :=
  match r with
  | WithBody body => body
  | WithRawPostData raw_post_data => raw_post_data
  end.

(** *** Stores *)

#[global] Instance datetime_eq_dec : EqDecision datetime.
Proof. solve_decision. Defined.
#[global] Instance atom_eq_dec : EqDecision atom.
Proof. solve_decision. Defined.
#[global] Instance val_eq_dec : EqDecision val.
Proof. solve_decision. Defined.

(** What [x] refers to. *)
Definition is_dict (h : heap) (x : val) (d : gmap string val) : Prop :=
  exists l, x = VRef l /\ h !! l = Some (ODict d).

Definition is_list (h : heap) (x : val) (vs : list val) : Prop :=
  exists l, x = VRef l /\ h !! l = Some (OList vs).

(** [x] is a scalar, or a reference to an object at [n] or behind it. *)
Definition behind (n : nat) (x : val) : Prop :=
  match x with
  | VRef l => (n <= l)%nat
  | VAtom _ => True
  end.

Definition obj_behind (n : nat) (o : obj) : Prop :=
  match o with
  | ODict d => map_Forall (fun _ => behind n) d
  | OList vs => Forall (behind n) vs
  end.

(** Every object at [n] or behind it holds references behind [n] only. *)
Definition closed_behind (n : nat) (h : heap) : Prop :=
  forall l o, (n <= l)%nat -> h !! l = Some o -> obj_behind n o.

(** The value under "Timestamp" in the dict that [x] refers to. *)
Definition timestamp_of (h : heap) (x : val) : option val :=
  match x with
  | VRef l =>
      match h !! l with
      | Some (ODict d) => d !! "Timestamp"
      | _ => None
      end
  | VAtom _ => None
  end.

(** [stats_dict] leads through the two envelope keys to [result]. *)
Definition statistics_result (h : heap) (stats_dict result : val) : Prop :=
  exists d0 response d1,
    is_dict h stats_dict d0
    /\ d0 !! "GetSendStatisticsResponse" = Some response
    /\ is_dict h response d1
    /\ d1 !! "GetSendStatisticsResult" = Some result.

(** [stats_dict] is a send-statistics response whose "SendDataPoints" is
    the list [items]. *)
Definition send_statistics (h : heap) (stats_dict : val) (items : list val)
  : Prop :=
  exists result d sdp,
    statistics_result h stats_dict result
    /\ is_dict h result d
    /\ d !! "SendDataPoints" = Some sdp
    /\ is_list h sdp items.

(** The datapoints [xs] have the timestamp strings [tss], in order. *)
Definition timestamps (h : heap) (xs : list val) (tss : list string) : Prop :=
  Forall2 (fun x s => timestamp_of h x = Some (VStr s)) xs tss.

(** [x] comes before [y]: to Python, the timestamp of [y] is not less
    than the timestamp of [x]. *)
Definition ascending (h : heap) (x y : val) : Prop :=
  exists a b,
    timestamp_of h x = Some (VAtom a) /\ timestamp_of h y = Some (VAtom b)
    /\ atom_lt b a = Ret false.

(** The wall clock of the zone [tz] at the UTC reading [u]. *)
Definition local_time (tz : tzinfo) (u : Z) : datetime :=
  DateTime (u + utcoffset tz u) (Some (utcoffset tz u)).

(** Both the UTC reading [u] and the reading of the zone at [u] are
    datetimes of the years 1 to 9999. *)
Definition representable (tz : tzinfo) (u : Z) : Prop :=
  in_range u = true /\ in_range (u + utcoffset tz u) = true.

Section StatsWords.
Variable strptime : string -> option Z.

(** [strptime] reads [s], and the zone can show what it reads. *)
Definition well_formed (tz : tzinfo) (s : string) : Prop :=
exists u, strptime s = Some u /\ representable tz u.

(** The timestamp of [x] is the zone's wall clock at the instant that
  [s] denotes in UTC. *)
Definition localized (tz : tzinfo) (h : heap) (x : val) (s : string) : Prop :=
exists u, strptime s = Some u
          /\ timestamp_of h x = Some (VDate (local_time tz u)).

End StatsWords.

(** ** Reference implementations of the library calls *)

(** These run the views on concrete inputs.  Each one covers a part of what
    the library accepts, stated with it; no theorem depends on them. *)

Module Reference.

Definition is_digit (c : ascii) : bool :=
let n := nat_of_ascii c in (48 <=? n)%nat && (n <=? 57)%nat.

Definition digit_value (c : ascii) : Z := Z.of_nat (nat_of_ascii c) - 48.

(** Space, tab, line feed, vertical tab, form feed and carriage return. *)
Definition is_space (c : ascii) : bool :=
let n := nat_of_ascii c in
(n =? 32)%nat || ((9 <=? n)%nat && (n <=? 13)%nat).

(** The value of a run of decimal digits, [None] if another character is
  among them. *)
Fixpoint digits_value (acc : Z) (cs : list ascii) : option Z :=
match cs with
| [] => Some acc
| c :: rest =>
    if is_digit c then digits_value (10 * acc + digit_value c) rest
    else None
end.

Fixpoint drop_spaces (cs : list ascii) : list ascii :=
match cs with
| c :: rest => if is_space c then drop_spaces rest else cs
| [] => []
end.

Definition strip (cs : list ascii) : list ascii :=
reverse (drop_spaces (reverse (drop_spaces cs))).

(** [int(s)] in base 10: white space around an optional sign and at least
  one digit. *)
Definition int_of_string (s : string) : option Z :=
match strip (String.list_ascii_of_string s) with
| [] => None
| c :: rest =>
    if Ascii.eqb c "-" then
      match rest with
      | [] => None
      | _ => Z.opp <$> digits_value 0 rest
      end
    else if Ascii.eqb c "+" then
      match rest with
      | [] => None
      | _ => digits_value 0 rest
      end
    else digits_value 0 (c :: rest)
end.

(** *** [datetime.strptime] for the format of the statistics *)

Definition is_leap (y : Z) : bool :=
(y mod 4 =? 0) && (negb (y mod 100 =? 0) || (y mod 400 =? 0)).

Definition days_in_month (y m : Z) : Z :=
if m =? 2 then (if is_leap y then 29 else 28)
else if (m =? 4) || (m =? 6) || (m =? 9) || (m =? 11) then 30
else 31.

Definition days_before_year (y : Z) : Z :=
(y - 1) * 365 + (y - 1) / 4 - (y - 1) / 100 + (y - 1) / 400.

Definition days_before_month (y m : Z) : Z :=
nth (Z.to_nat (m - 1))
    [0; 31; 59; 90; 120; 151; 181; 212; 243; 273; 304; 334] 0
+ (if (2 <? m) && is_leap y then 1 else 0).

(** The ordinal of a date, 1 for 0001-01-01. *)
Definition ymd2ord (y m d : Z) : Z :=
days_before_year y + days_before_month y m + d.

(** [datetime(y, m, d, hh, mm, ss)] as a wall-clock reading, [None] where the
  constructor raises [ValueError]. *)
Definition make_datetime (y m d hh mm ss : Z) : option Z :=
if (1 <=? y) && (y <=? 9999) && (1 <=? m) && (m <=? 12)
   && (1 <=? d) && (d <=? days_in_month y m)
   && (0 <=? hh) && (hh <=? 23) && (0 <=? mm) && (mm <=? 59)
   && (0 <=? ss) && (ss <=? 59)
then Some ((ymd2ord y m d - 1) * 86400 + hh * 3600 + mm * 60 + ss)
else None.

(** A field of digits in front of the first character that is no digit:
  the field and what follows it. *)
Fixpoint span_digits (cs : list ascii) : list ascii * list ascii :=
match cs with
| c :: rest =>
    if is_digit c then
      let '(ds, tl) := span_digits rest in (c :: ds, tl)
    else ([], cs)
| [] => ([], [])
end.

(** A field of one or two digits whose value is between [lo1] and 9 when
  it has one digit and between [lo2] and [hi] when it has two: the
  alternatives that [strptime] compiles the directives into. *)
Definition field (lo1 lo2 hi : Z) (cs : list ascii) : option (Z * list ascii) :=
let '(ds, tl) := span_digits cs in
v ← digits_value 0 ds;
match length ds with
| 1%nat => if lo1 <=? v then Some (v, tl) else None
| 2%nat => if (lo2 <=? v) && (v <=? hi) then Some (v, tl) else None
| _ => None
end.

(** The day may also be a space and a digit from 1 to 9. *)
Definition day_field (cs : list ascii) : option (Z * list ascii) :=
match cs with
| c :: d :: tl =>
    if Ascii.eqb c " " then
      if is_digit d && negb (Ascii.eqb d "0")
      then Some (digit_value d, tl) else None
    else field 1 1 31 cs
| _ => field 1 1 31 cs
end.

Definition year_field (cs : list ascii) : option (Z * list ascii) :=
let '(ds, tl) := span_digits cs in
if (length ds =? 4)%nat then v ← digits_value 0 ds; Some (v, tl) else None.

(** A literal of the format; the pattern is matched without regard to case. *)
Definition literal (lower upper : ascii) (cs : list ascii)
: option (list ascii) :=
match cs with
| c :: tl => if Ascii.eqb c lower || Ascii.eqb c upper then Some tl else None
| [] => None
end.

Definition strptime (s : string) : option Z :=
'(y, cs) ← year_field (String.list_ascii_of_string s);
cs ← literal "-" "-" cs;
'(m, cs) ← field 1 1 12 cs;
cs ← literal "-" "-" cs;
'(d, cs) ← day_field cs;
cs ← literal "t" "T" cs;
'(hh, cs) ← field 0 0 23 cs;
cs ← literal ":" ":" cs;
'(mm, cs) ← field 0 0 59 cs;
cs ← literal ":" ":" cs;
'(ss, cs) ← field 0 0 61 cs;
cs ← literal "z" "Z" cs;
match cs with
| [] => make_datetime y m d hh mm ss
| _ => None
end.

(** *** [json.loads] for documents without escapes and fractions *)

(** The decoder reads objects, arrays, strings without a backslash,
  integers, [true], [false] and [null].  Documents with escape sequences,
  fractions or exponents are valid JSON that it gives [None] for; it
  should be used on other documents only. *)

Definition quote_char : ascii := ascii_of_nat 34.
Definition backslash_char : ascii := ascii_of_nat 92.

Definition is_json_space (c : ascii) : bool :=
let n := nat_of_ascii c in
(n =? 32)%nat || (n =? 9)%nat || (n =? 10)%nat || (n =? 13)%nat.

Fixpoint drop_json_spaces (cs : list ascii) : list ascii :=
match cs with
| c :: rest => if is_json_space c then drop_json_spaces rest else cs
| [] => []
end.

(** The characters up to the closing quote, and what follows the quote. *)
Fixpoint string_body (cs : list ascii) : option (string * list ascii) :=
match cs with
| [] => None
| c :: rest =>
    if Ascii.eqb c quote_char then Some (EmptyString, rest)
    else if Ascii.eqb c backslash_char || (nat_of_ascii c <? 32)%nat then None
    else '(s, tl) ← string_body rest; Some (String c s, tl)
end.

(** The characters of [lit] in front of [cs]. *)
Fixpoint expect (lit cs : list ascii) : option (list ascii) :=
match lit, cs with
| [], _ => Some cs
| a :: lit', c :: rest => if Ascii.eqb a c then expect lit' rest else None
| _ :: _, [] => None
end.

Definition integer (cs : list ascii) : option (Z * list ascii) :=
let '(negative, cs) :=
  match cs with
  | c :: rest => if Ascii.eqb c "-" then (true, rest) else (false, cs)
  | [] => (false, cs)
  end in
let '(ds, tl) := span_digits cs in
let continues :=
  match tl with
  | c :: _ => Ascii.eqb c "." || Ascii.eqb c "e" || Ascii.eqb c "E"
  | [] => false
  end in
match ds with
| [] => None
| d :: more =>
    if continues || (Ascii.eqb d "0" && negb (length more =? 0)%nat)
    then None
    else v ← digits_value 0 ds; Some (if negative : bool then - v else v, tl)
end.

(** A later member of an object replaces an earlier one of the same name. *)
Definition dict_of_members (kvs : list (string * pyval)) : gmap string pyval :=
foldl (fun d kv => <[kv.1 := kv.2]> d) ∅ kvs.

Fixpoint decode_value (fuel : nat) (cs : list ascii)
: option (pyval * list ascii) :=
match fuel with
| O => None
| S fuel =>
    match drop_json_spaces cs with
    | [] => None
    | c :: rest =>
        if Ascii.eqb c quote_char then
          '(s, tl) ← string_body rest; Some (PStr s, tl)
        else if Ascii.eqb c "[" then
          match drop_json_spaces rest with
          | c' :: tl =>
              if Ascii.eqb c' "]" then Some (PList [], tl)
              else '(vs, tl') ← decode_items fuel rest; Some (PList vs, tl')
          | [] => None
          end
        else if Ascii.eqb c "{" then
          match drop_json_spaces rest with
          | c' :: tl =>
              if Ascii.eqb c' "}" then Some (PDict ∅, tl)
              else
                '(kvs, tl') ← decode_members fuel rest;
                Some (PDict (dict_of_members kvs), tl')
          | [] => None
          end
        else if Ascii.eqb c "n" then
          tl ← expect (String.list_ascii_of_string "ull") rest;
          Some (PNone, tl)
        else if Ascii.eqb c "t" then
          tl ← expect (String.list_ascii_of_string "rue") rest;
          Some (PAtom (ABool true), tl)
        else if Ascii.eqb c "f" then
          tl ← expect (String.list_ascii_of_string "alse") rest;
          Some (PAtom (ABool false), tl)
        else '(z, tl) ← integer (c :: rest); Some (PInt z, tl)
    end
end
with decode_items (fuel : nat) (cs : list ascii)
: option (list pyval * list ascii) :=
match fuel with
| O => None
| S fuel =>
    '(v, tl) ← decode_value fuel cs;
    match drop_json_spaces tl with
    | c :: tl' =>
        if Ascii.eqb c "," then
          '(vs, tl'') ← decode_items fuel tl'; Some (v :: vs, tl'')
        else if Ascii.eqb c "]" then Some ([v], tl')
        else None
    | [] => None
    end
end
with decode_members (fuel : nat) (cs : list ascii)
: option (list (string * pyval) * list ascii) :=
match fuel with
| O => None
| S fuel =>
    match drop_json_spaces cs with
    | c :: rest =>
        if Ascii.eqb c quote_char then
          '(k, tl) ← string_body rest;
          match drop_json_spaces tl with
          | c2 :: tl2 =>
              if Ascii.eqb c2 ":" then
                '(v, tl3) ← decode_value fuel tl2;
                match drop_json_spaces tl3 with
                | c3 :: tl4 =>
                    if Ascii.eqb c3 "," then
                      '(kvs, tl5) ← decode_members fuel tl4;
                      Some ((k, v) :: kvs, tl5)
                    else if Ascii.eqb c3 "}" then Some ([(k, v)], tl4)
                    else None
                | [] => None
                end
              else None
          | [] => None
          end
        else None
    | [] => None
    end
end.

Definition json_loads (s : string) : option pyval :=
let cs := String.list_ascii_of_string s in
'(v, tl) ← decode_value (S (length cs)) cs;
match drop_json_spaces tl with
| [] => Some v
| _ => None
end.

(** A document written with the apostrophe in place of the double quote. *)
Definition json_text (s : string) : string :=
String.string_of_list_ascii
  ((fun c => if Ascii.eqb c "'" then quote_char else c)
     <$> String.list_ascii_of_string s).

(** *** Three zones of [pytz] and the logging of an unconfigured project *)

Definition fixed_zone (seconds : Z) : tzinfo := TzInfo (fun _ => seconds).

(** [pytz] with the zones "UTC", "Etc/GMT-1" (one hour east of Greenwich)
  and "Etc/GMT+5" (five hours west). *)
Definition pytz : pytz_module :=
Pytz (fun name =>
  if String.eqb name "UTC" then Some (fixed_zone 0)
  else if String.eqb name "Etc/GMT-1" then Some (fixed_zone 3600)
  else if String.eqb name "Etc/GMT+5" then Some (fixed_zone (-18000))
  else None).

(** Without a logging configuration a logger is enabled for [WARNING] and
  not for [INFO]. *)
Definition unconfigured (lv : level) : bool :=
match lv with
| WARNING => true
| INFO => false
end.

End Reference.

(** ** Sample inputs *)

Import Reference.

(** *** Responses of the statistics API *)

Definition datapoint (timestamp bounces complaints attempts rejects : string)
  : obj :=
  ODict (<["Timestamp" := VStr timestamp]>
          (<["Bounces" := VStr bounces]>
            (<["Complaints" := VStr complaints]>
              (<["DeliveryAttempts" := VStr attempts]>
                (<["Rejects" := VStr rejects]> ∅))))).

(** A store that holds a send-statistics response and nothing else: the
    response at 0, the list of datapoints at 3, the datapoints behind it. *)
Definition statistics (datapoints : list obj) : heap :=
  [ODict {["GetSendStatisticsResponse" := VRef 1]};
   ODict {["GetSendStatisticsResult" := VRef 2]};
   ODict {["SendDataPoints" := VRef 3]};
   OList (VRef <$> seq 4 (length datapoints))] ++ datapoints.

Definition three_points : heap :=
  statistics [datapoint "2012-05-02T10:15:00Z" "1" "0" "12" "0";
              datapoint "2012-05-01T10:00:00Z" "0" "0" "7" "1";
              datapoint "2012-05-01T23:45:00Z" "2" "1" "30" "0"].

Definition three_timestamps : list string :=
  ["2012-05-02T10:15:00Z"; "2012-05-01T10:00:00Z";
   "2012-05-01T23:45:00Z"]%string.

Definition garbage_point : heap :=
  statistics [datapoint "yesterday" "1" "0" "12" "0"].

Definition last_second : heap :=
  statistics [datapoint "9999-12-31T23:59:59Z" "1" "0" "12" "0"].

(** A response whose result has no "SendDataPoints". *)
Definition no_datapoints : heap :=
  [ODict {["GetSendStatisticsResponse" := VRef 1]};
   ODict {["GetSendStatisticsResult" := VRef 2]};
   ODict ∅].

Definition emails_example : gmap string pyval :=
  {[ "ListVerifiedEmailAddressesResponse" :=
       PDict {[ "ListVerifiedEmailAddressesResult" :=
         PDict {[ "VerifiedEmailAddresses" :=
           PList [PStr "b@x"; PStr "a@x"; PStr "b@x"] ]} ]} ]}.

(** A datapoint as [sum_stats] reads it. *)
Definition summed (bounces complaints attempts rejects : string) : pyval :=
  PDict (<["Bounces" := PStr bounces]>
          (<["Complaints" := PStr complaints]>
            (<["DeliveryAttempts" := PStr attempts]>
              (<["Rejects" := PStr rejects]> ∅)))).

(** *** Bodies of webhook requests *)

Definition bounce_full : string :=
  json_text
    ("{'notificationType':'Bounce','mail':{'m':1},"
     +:+ "'bounce':{'feedbackId':'f1','bounceType':'Permanent',"
     +:+ "'bounceSubType':'General'}}").
Definition bounce_null : string :=
  json_text "{'notificationType':'Bounce','bounce':null}".
Definition bounce_bare : string := json_text "{'notificationType':'Bounce'}".
Definition complaint_bare : string :=
  json_text "{'notificationType':'Complaint'}".
Definition other_type : string := json_text "{'notificationType':'Other'}".
Definition cut_short : string := json_text "{'notificationType':".

Definition bounce_details : gmap string pyval :=
  <["feedbackId" := PStr "f1"]>
    (<["bounceType" := PStr "Permanent"]>
      (<["bounceSubType" := PStr "General"]> ∅)).

Definition bounce_full_payload : gmap string pyval :=
  <["notificationType" := PStr "Bounce"]>
    (<["mail" := PDict {["m" := PInt 1]}]>
      (<["bounce" := PDict bounce_details]> ∅)).

(** A logger that [logging.disable] has silenced. *)
Definition silent (lv : level) : bool := false.

(** ** The dashboard view *)

(** [superuser_only] looks at [request.user.is_superuser] and at nothing
    else of the request. *)
Record dashboard_request := DashboardRequest { is_superuser : bool }.

(** How a call of a view that [superuser_only] wraps ends: with
    [PermissionDenied], raised before the view is entered, or as the view
    ends. *)
Inductive guarded (A : Type) :=
| PermissionDenied
| Allowed (a : A).
Arguments PermissionDenied {A}.
Arguments Allowed {A} a.

(** [superuser_only(view_func)], called with [request] in the state [s]. *)
Definition superuser_only {S A : Type}
    (view_func : dashboard_request -> st S A)
    (request : dashboard_request) (s : S) : guarded (outcome A * S) :=
  if negb (is_superuser request) then PermissionDenied
  else Allowed (view_func request s).

(** [dashboard] hands the datapoints that [stats_to_list] returns, which
    are objects of the store, to [sum_stats], which only reads them.  What
    [sum_stats] sees of a value of the store: the scalars of a dict or a
    list as they are; a container below them as an empty list, since
    [int] raises [TypeError] on every list and dict. *)
Definition snapshot_field (v : val) : pyval :=
  match v with
  | VAtom a => PAtom a
  | VRef _ => PList []
  end.

Definition snapshot (h : heap) (x : val) : outcome pyval :=
  match x with
  | VAtom a => Ret (PAtom a)
  | VRef l =>
      match h !! l with
      | Some (ODict d) => Ret (PDict (snapshot_field <$> d))
      | Some (OList vs) => Ret (PList (snapshot_field <$> vs))
      | None => Raise Unmodelled
      end
  end.

Fixpoint snapshots (h : heap) (xs : list val) : outcome (list pyval) :=
  match xs with
  | [] => Ret []
  | x :: rest => t ← snapshot h x; ts ← snapshots h rest; Ret (t :: ts)
  end.

Definition cache_key : string := "vhash:django_ses_stats".

Section Dashboard.
(** The floats of Python, [float(x)] and the difference of two floats. *)
Context {float : Type}.
Variable py_float : pyval -> outcome float.
Variable float_sub : float -> float -> float.
(** The other library calls, as the helpers take them. *)
Variable int_of_string : string -> option Z.
Variable strptime : string -> option Z.
Variable TIME_ZONE : string.
(** The module global [pytz]: [None] when the import failed. *)
Variable pytz : option pytz_module.

(** [extra_context], key by key. *)
Record context := ExtraContext {
  c_title : string;
  c_datapoints : list val;
  c_24hour_quota : pyval;
  c_24hour_sent : pyval;
  c_24hour_remaining : float;
  c_persecond_rate : pyval;
  c_verified_emails : list pyval;
  c_summary : gmap string Z;
  c_access_key : string;
  c_local_time : bool
}.

(** The response that [render_to_response] makes of a template, a context
    and the [RequestContext] of a request. *)
Inductive page :=
| Rendered (template : string) (extra_context : context)
           (request : dashboard_request).

(** What the view asks of its collaborators, in order. *)
Inductive call :=
| cache_get (key : string)
| get_send_quota
| list_verified_email_addresses
| get_send_statistics
| render_to_response (template : string) (extra_context : context)
| cache_set (key : string) (value : page) (timeout : Z).

(** What the collaborators answer during one request: the cache to
    [cache.get], the connection to its three calls (the send statistics
    are objects of the store) and to [gs_access_key_id].  [RegionInfo]
    and [SESConnection] are built from the settings before the three
    calls; building them asks nothing of the API and is left out.  A
    request during which a collaborator raises is outside the model. *)
Record answers := Answers {
  cached_view : option page;
  quota_dict : pyval;
  verified_emails_dict : pyval;
  stats : val;
  gs_access_key_id : string
}.

(** The state of a request: the store and the calls made so far. *)
Record world := World { store : heap; calls : list call }.

Definition ask (c : call) : st world unit :=
  fun w => (Ret tt, World (store w) (calls w ++ [c])).

(** A computation on the store, within a request. *)
Definition on_store {A} (m : st heap A) : st world A :=
  fun w => let '(r, h) := m (store w) in (r, World h (calls w)).

(** A reading of the store. *)
Definition reading {A} (f : heap -> outcome A) : st world A :=
  fun w => (f (store w), w).

(** The body of [dashboard]. *)
Definition dashboard_view (env : answers) (request : dashboard_request)
  : st world page :=
  _ ← ask (cache_get cache_key);
  match cached_view env with
  | Some cached_view => mret cached_view
  | None =>
      _ ← ask get_send_quota;
      _ ← ask list_verified_email_addresses;
      _ ← ask get_send_statistics;
      quota ← lift (quota_parse (quota_dict env));
      verified_emails ← lift (emails_parse (verified_emails_dict env));
      ordered_data ← on_store (stats_to_list strptime TIME_ZONE (stats env)
                                 pytz);
      stats_data ← reading (fun h => snapshots h ordered_data);
      summary ← lift (sum_stats int_of_string stats_data);
      quota_24 ← lift (py_getitem quota "Max24HourSend");
      sent_24 ← lift (py_getitem quota "SentLast24Hours");
      max_send ← lift (x ← py_getitem quota "Max24HourSend"; py_float x);
      sent ← lift (x ← py_getitem quota "SentLast24Hours"; py_float x);
      rate ← lift (py_getitem quota "MaxSendRate");
      let extra_context :=
        ExtraContext "SES Statistics" ordered_data quota_24 sent_24
                (float_sub max_send sent) rate verified_emails summary
                (gs_access_key_id env)
                (match pytz with Some _ => true | None => false end) in
      _ ← ask (render_to_response "django_ses/send_stats.html"
                 extra_context);
      let response :=
        Rendered "django_ses/send_stats.html" extra_context request in
      _ ← ask (cache_set cache_key response (60 * 15));
      mret response
  end.

(** [dashboard(request)]. *)
Definition dashboard (env : answers) (request : dashboard_request)
    (w : world) : guarded (outcome page * world) :=
  superuser_only (dashboard_view env) request w.
End Dashboard.

(** ** More words of the properties *)

(** *** Payloads *)

(** [x] is a dict, the one kind of value that has [get]. *)
Definition is_mapping (x : pyval) : bool :=
  match x with
  | PDict _ => true
  | _ => false
  end.

(** The notification type that the view dispatches on. *)
Definition notification_type (d : gmap string pyval) : pyval :=
  default PNone (d !! "notificationType").

(** *** Responses of the other two calls *)

(** [emails_dict] is a response of the verified-addresses call whose list
    holds the strings [emails]. *)
Definition verified_addresses (emails_dict : pyval) (emails : list string)
  : Prop :=
  exists d0 d1 d2,
    emails_dict = PDict d0
    /\ d0 !! "ListVerifiedEmailAddressesResponse" = Some (PDict d1)
    /\ d1 !! "ListVerifiedEmailAddressesResult" = Some (PDict d2)
    /\ d2 !! "VerifiedEmailAddresses" = Some (PList (PStr <$> emails)).

(** [quota_dict] is a response of the send-quota call with the result
    [quota]. *)
Definition send_quota (quota_dict : pyval) (quota : gmap string pyval)
  : Prop :=
  exists d0 d1,
    quota_dict = PDict d0
    /\ d0 !! "GetSendQuotaResponse" = Some (PDict d1)
    /\ d1 !! "GetSendQuotaResult" = Some (PDict quota).

(** *** Counters *)

(** [dp] is a dict that has no key [k]. *)
Definition lacks_field (dp : pyval) (k : string) : Prop :=
  exists d, dp = PDict d /\ d !! k = None.

(** One of the four fields of [dp] is missing. *)
Definition missing_field (dp : pyval) : Prop :=
  exists k, k ∈ summary_fields /\ lacks_field dp k.

(** The sum of a list of integers. *)
Definition total (zs : list Z) : Z := foldr Z.add 0 zs.

(** The summary of the field-wise totals of [rows]. *)
Definition summary_of (rows : list totals) : gmap string Z :=
  <["Bounces" := total (t_bounces <$> rows)]>
    (<["Complaints" := total (t_complaints <$> rows)]>
      (<["DeliveryAttempts" := total (t_delivery_attempts <$> rows)]>
        (<["Rejects" := total (t_rejects <$> rows)]> ∅))).

Section CounterWords.
Variable int_of_string : string -> option Z.

(** The four fields of [dp] are strings that [int] reads as the four
    numbers of [row]. *)
Definition reads_as (dp : pyval) (row : totals) : Prop :=
  exists b c d r,
    field_is dp "Bounces" b /\ int_of_string b = Some (t_bounces row)
    /\ field_is dp "Complaints" c /\ int_of_string c = Some (t_complaints row)
    /\ field_is dp "DeliveryAttempts" d
    /\ int_of_string d = Some (t_delivery_attempts row)
    /\ field_is dp "Rejects" r /\ int_of_string r = Some (t_rejects row).

(** Each of the four fields of [dp] is missing or a string that [int]
    reads. *)
Definition readable_or_missing (dp : pyval) : Prop :=
  forall k, k ∈ summary_fields ->
    lacks_field dp k
    \/ exists s n, field_is dp k s /\ int_of_string s = Some n.

(** [x] refers to a dict of the store whose four counters are strings
    that [int] reads as the four numbers of [row]. *)
Definition counters (h : heap) (x : val) (row : totals) : Prop :=
  exists dp b c d r,
    is_dict h x dp
    /\ dp !! "Bounces" = Some (VStr b)
    /\ int_of_string b = Some (t_bounces row)
    /\ dp !! "Complaints" = Some (VStr c)
    /\ int_of_string c = Some (t_complaints row)
    /\ dp !! "DeliveryAttempts" = Some (VStr d)
    /\ int_of_string d = Some (t_delivery_attempts row)
    /\ dp !! "Rejects" = Some (VStr r)
    /\ int_of_string r = Some (t_rejects row).
End CounterWords.

(** *** Objects of the store *)

(** [o'] is [o] but for what its dict has under "Timestamp". *)
Definition same_but_timestamp (o o' : obj) : Prop :=
  match o, o' with
  | ODict d, ODict d' => forall k, k <> "Timestamp"%string -> d' !! k = d !! k
  | OList vs, OList vs' => vs' = vs
  | _, _ => False
  end.

(** [x] refers to a dict that the store holds at [n] or behind it. *)
Definition fresh_dict (n : nat) (h : heap) (x : val) : Prop :=
  exists l d, x = VRef l /\ (n <= l)%nat /\ h !! l = Some (ODict d).

(** [x] refers to a dict that has no "Timestamp". *)
Definition no_timestamp (h : heap) (x : val) : Prop :=
  exists d, is_dict h x d /\ d !! "Timestamp" = None.

(** ** More sample inputs *)

(** *** Bodies of webhook requests *)

Definition complaint_full : string :=
  json_text
    ("{'notificationType':'Complaint','mail':{'m':1},'bounce':null,"
     +:+ "'complaint':{'feedbackId':'f2',"
     +:+ "'complaintFeedbackType':'abuse'}}").

Definition complaint_details : gmap string pyval :=
  <["feedbackId" := PStr "f2"]>
    (<["complaintFeedbackType" := PStr "abuse"]> ∅).

Definition complaint_full_payload : gmap string pyval :=
  <["notificationType" := PStr "Complaint"]>
    (<["mail" := PDict {["m" := PInt 1]}]>
      (<["bounce" := PNone]>
        (<["complaint" := PDict complaint_details]> ∅))).

Definition complaint_list : string :=
  json_text "{'notificationType':'Complaint','complaint':[]}".

Definition complaint_list_payload : gmap string pyval :=
  <["notificationType" := PStr "Complaint"]>
    (<["complaint" := PList []]> ∅).

Definition bounce_null_payload : gmap string pyval :=
  <["notificationType" := PStr "Bounce"]> (<["bounce" := PNone]> ∅).

Definition other_type_payload : gmap string pyval :=
  <["notificationType" := PStr "Other"]> ∅.

Definition only_a_string : string := json_text "'Bounce'".

(** A logger at the level [DEBUG]. *)
Definition debugging (lv : level) : bool := true.

(** *** Responses of the other two calls *)

Definition emails_shuffled : gmap string pyval :=
  {[ "ListVerifiedEmailAddressesResponse" :=
       PDict {[ "ListVerifiedEmailAddressesResult" :=
         PDict {[ "VerifiedEmailAddresses" :=
           PList [PStr "b@x"; PStr "b@x"; PStr "a@x"] ]} ]} ]}.

Definition quota_whole : gmap string pyval :=
  <["Max24HourSend" := PStr "200"]>
    (<["SentLast24Hours" := PStr "12"]>
      (<["MaxSendRate" := PStr "1"]> ∅)).

Definition quota_response : pyval :=
  PDict {[ "GetSendQuotaResponse" :=
             PDict {[ "GetSendQuotaResult" := PDict quota_whole ]} ]}.

(** A datapoint without "Rejects", as [sum_stats] reads it. *)
Definition summed_short (bounces complaints attempts : string) : pyval :=
  PDict (<["Bounces" := PStr bounces]>
          (<["Complaints" := PStr complaints]>
            (<["DeliveryAttempts" := PStr attempts]> ∅))).

(** *** More responses of the statistics API *)

(** Two datapoints of the same quarter of an hour around an earlier one. *)
Definition tied_points : heap :=
  statistics [datapoint "2012-05-01T10:00:00Z" "1" "0" "12" "0";
              datapoint "2012-04-30T09:45:00Z" "0" "0" "7" "1";
              datapoint "2012-05-01T10:00:00Z" "2" "1" "30" "0"].

(** A response that lists the same dict twice. *)
Definition listed_twice : heap :=
  [ODict {["GetSendStatisticsResponse" := VRef 1]};
   ODict {["GetSendStatisticsResult" := VRef 2]};
   ODict {["SendDataPoints" := VRef 3]};
   OList [VRef 4; VRef 4];
   datapoint "2012-05-01T10:00:00Z" "1" "0" "12" "0"].

(** A response whose second datapoint has no "Timestamp". *)
Definition unstamped_point : heap :=
  statistics [datapoint "2012-05-01T10:00:00Z" "1" "0" "12" "0";
              ODict (<["Bounces" := VStr "1"]>
                      (<["Complaints" := VStr "0"]>
                        (<["DeliveryAttempts" := VStr "12"]>
                          (<["Rejects" := VStr "0"]> ∅))))].

(** Responses without the first and without the second envelope key. *)
Definition no_response : heap := [ODict ∅].

Definition no_result : heap :=
  [ODict {["GetSendStatisticsResponse" := VRef 1]}; ODict ∅].

(** The counters of [three_points]. *)
Definition three_rows : list totals :=
  [Totals 1 0 12 0; Totals 0 0 7 1; Totals 2 1 30 0].

(** *** Requests of the dashboard *)

(** A stand-in for the floats in the sample runs: the whole numbers, with
    [float] on the strings that [int] reads and the difference of two
    integers, which is what the doubles give below 2^53. *)
Definition whole_float (x : pyval) : outcome Z :=
  match x with
  | PAtom (AStr s) => of_option ValueError (int_of_string s)
  | _ => Raise TypeError
  end.

(** The answers to a request that finds no page in the cache and the
    statistics of [three_points] in the store. *)
Definition sample_answers : @answers Z :=
  Answers None quota_response (PDict emails_example) (VRef 0) "AKIAEXAMPLE".

(** The same with a send-quota response that has no envelope. *)
Definition broken_answers : @answers Z :=
  Answers None (PDict ∅) (PDict emails_example) (VRef 0) "AKIAEXAMPLE".

Definition superuser : dashboard_request := DashboardRequest true.

(** * Properties *)

(** ** The two monads *)

Lemma outcome_bind_ret {A B} (a : A) (f : A -> outcome B) :
  (Ret a ≫= f) = f a.
Proof. reflexivity. Qed.

Lemma outcome_bind_raise {A B} (e : exn) (f : A -> outcome B) :
  (Raise e ≫= f) = Raise e.
Proof. reflexivity. Qed.

(** ** Sorting *)

Lemma StronglySorted_weaken {A} (R1 R2 : A -> A -> Prop) (l : list A) :
  (forall x y, R1 x y -> R2 x y) -> StronglySorted R1 l -> StronglySorted R2 l.
Proof.
  intros HR. induction 1 as [|x l _ IH Hx]; constructor; [done|].
  eapply Forall_impl; [exact Hx|]. auto.
Qed.

Section SortingFacts.
Context {A : Type}.
Implicit Types (l acc : list A) (x : A).

Lemma insert_pure_perm (ltb : A -> A -> bool) x l :
  insert_pure ltb x l ≡ₚ x :: l.
Proof.
  induction l as [|y l IH]; simpl; [done|].
  destruct (ltb x y); [done|].
  rewrite IH. apply Permutation_swap.
Qed.

Lemma isort_from_perm (ltb : A -> A -> bool) acc l :
  isort_from ltb acc l ≡ₚ acc ++ l.
Proof.
  revert acc. induction l as [|x l IH]; intros acc; simpl.
  - by rewrite app_nil_r.
  - rewrite IH, insert_pure_perm. simpl. apply Permutation_middle.
Qed.

Lemma isort_perm (ltb : A -> A -> bool) l : isort ltb l ≡ₚ l.
Proof. apply isort_from_perm. Qed.

Section Ordered.
Variable ltb : A -> A -> bool.
Hypothesis ltb_asym : forall x y, ltb x y = true -> ltb y x = false.
Hypothesis not_above_trans :
  forall x y z,
    not_above ltb x y -> not_above ltb y z -> not_above ltb x z.

Lemma insert_pure_sorted x l :
  StronglySorted (not_above ltb) l ->
  StronglySorted (not_above ltb) (insert_pure ltb x l).
Proof.
  induction 1 as [|y l Hs IH Hy]; simpl.
  - repeat constructor.
  - destruct (ltb x y) eqn:Hxy.
    + constructor; [by constructor|].
      constructor; [by apply ltb_asym|].
      eapply Forall_impl; [exact Hy|].
      intros z Hz. eapply not_above_trans; [|exact Hz]. by apply ltb_asym.
    + constructor; [done|].
      rewrite insert_pure_perm. by constructor.
Qed.

Lemma isort_from_sorted acc l :
  StronglySorted (not_above ltb) acc ->
  StronglySorted (not_above ltb) (isort_from ltb acc l).
Proof.
  revert acc. induction l as [|x l IH]; intros acc Hacc; simpl; [done|].
  by apply IH, insert_pure_sorted.
Qed.

Lemma isort_sorted l : StronglySorted (not_above ltb) (isort ltb l).
Proof. apply isort_from_sorted. constructor. Qed.
End Ordered.

(** A comparison that raises nowhere on the images of [f] sorts as the
    pure comparison it computes there. *)
Section Transport.
Context {B : Type} (f : B -> A).
Variable lt : A -> A -> outcome bool.
Variable ltb : B -> B -> bool.
Hypothesis lt_ltb : forall a b : B, lt (f a) (f b) = Ret (ltb a b).

Lemma py_insert_fmap (b : B) (bs : list B) :
  py_insert lt (f b) (f <$> bs) = Ret (f <$> insert_pure ltb b bs).
Proof.
  induction bs as [|c bs IH]; [done|].
  rewrite fmap_cons. cbn [py_insert insert_pure].
  rewrite lt_ltb, outcome_bind_ret.
  destruct (ltb b c); [done|].
  by rewrite IH, outcome_bind_ret.
Qed.

Lemma py_sort_from_fmap (done_ bs : list B) :
  py_sort_from lt (f <$> done_) (f <$> bs)
  = Ret (f <$> isort_from ltb done_ bs).
Proof.
  revert done_. induction bs as [|b bs IH]; intros done_; [done|].
  rewrite fmap_cons. cbn [py_sort_from isort_from].
  rewrite py_insert_fmap, outcome_bind_ret. apply IH.
Qed.

Lemma py_sort_fmap (bs : list B) :
  py_sort lt (f <$> bs) = Ret (f <$> isort ltb bs).
Proof. apply (py_sort_from_fmap []). Qed.
End Transport.
End SortingFacts.

(** ** The order of strings *)

Lemma string_ltb_lt s t :
  String.ltb s t = true <-> OrderedTypeEx.String_as_OT.lt s t.
Proof.
  rewrite <- OrderedTypeEx.String_as_OT.cmp_lt.
  unfold String.ltb, OrderedTypeEx.String_as_OT.cmp.
  destruct (String.compare s t); split; congruence.
Qed.

Lemma string_ltb_asym s t : String.ltb s t = true -> String.ltb t s = false.
Proof.
  unfold String.ltb. rewrite (String.compare_antisym t s).
  destruct (String.compare s t); simpl; congruence.
Qed.

Lemma string_not_above_trans s t u :
  String.ltb t s = false -> String.ltb u t = false -> String.ltb u s = false.
Proof.
  intros Hst Htu. destruct (String.ltb u s) eqn:Hus; [|done].
  destruct (String.compare s t) eqn:Hc.
  - apply String.compare_eq_iff in Hc as ->. congruence.
  - assert (String.ltb s t = true) as Hlt by (unfold String.ltb; by rewrite Hc).
    apply string_ltb_lt in Hlt, Hus.
    pose proof (OrderedTypeEx.String_as_OT.lt_trans _ _ _ Hus Hlt) as Hut.
    apply string_ltb_lt in Hut. congruence.
  - unfold String.ltb in Hst. rewrite (String.compare_antisym t s), Hc in Hst.
    simpl in Hst. discriminate.
Qed.

Lemma string_leb_not_above s t :
  String.leb s t = true <-> String.ltb t s = false.
Proof.
  unfold String.leb, String.ltb. rewrite (String.compare_antisym s t).
  destruct (String.compare t s); simpl; split; congruence.
Qed.

Lemma isort_strings_sorted (l : list string) :
  StronglySorted (fun s t => String.leb s t = true) (isort String.ltb l).
Proof.
  eapply StronglySorted_weaken; [|apply (isort_sorted String.ltb)].
  - intros s t H. by apply string_leb_not_above.
  - apply string_ltb_asym.
  - intros x y z. apply string_not_above_trans.
Qed.

(** ** The verified addresses *)

Lemma py_lt_strings s t : py_lt (PStr s) (PStr t) = Ret (String.ltb s t).
Proof. reflexivity. Qed.

(** C8.  For every response of the verified-addresses call, that is a
    dict that leads through "ListVerifiedEmailAddressesResponse" and
    "ListVerifiedEmailAddressesResult" to a list of strings under
    "VerifiedEmailAddresses", [emails_parse] returns these strings in
    ascending byte order; the result is a permutation of the list, so an
    address that occurs twice is returned twice. *)
Theorem emails_parse_sorted (d0 d1 d2 : gmap string pyval)
    (emails : list string) :
  d0 !! "ListVerifiedEmailAddressesResponse" = Some (PDict d1) ->
  d1 !! "ListVerifiedEmailAddressesResult" = Some (PDict d2) ->
  d2 !! "VerifiedEmailAddresses" = Some (PList (PStr <$> emails)) ->
  exists sorted : list string,
    emails_parse (PDict d0) = Ret (PStr <$> sorted)
    /\ sorted ≡ₚ emails
    /\ StronglySorted (fun s t => String.leb s t = true) sorted.
Proof.
  intros H0 H1 H2. exists (isort String.ltb emails). split; [|split].
  - unfold emails_parse. cbn [py_getitem]. rewrite H0. cbn [of_option].
    rewrite outcome_bind_ret. cbn [py_getitem]. rewrite H1. cbn [of_option].
    rewrite outcome_bind_ret. cbn [py_getitem]. rewrite H2. cbn [of_option].
    rewrite outcome_bind_ret. cbn [py_iter]. rewrite outcome_bind_ret.
    apply py_sort_fmap, py_lt_strings.
  - apply isort_perm.
  - apply isort_strings_sorted.
Qed.

Lemma emails_parse_sorted_witness :
  exists sorted : list string,
    emails_parse (PDict emails_example) = Ret (PStr <$> sorted)
    /\ sorted ≡ₚ ["b@x"; "a@x"; "b@x"]%string
    /\ StronglySorted (fun s t => String.leb s t = true) sorted.
Proof.
  apply (emails_parse_sorted emails_example
           {[ "ListVerifiedEmailAddressesResult" :=
                PDict {[ "VerifiedEmailAddresses" :=
                  PList [PStr "b@x"; PStr "a@x"; PStr "b@x"] ]} ]}
           {[ "VerifiedEmailAddresses" :=
                PList [PStr "b@x"; PStr "a@x"; PStr "b@x"] ]});
    reflexivity.
Defined.

Example emails_parse_example :
  emails_parse (PDict emails_example)
  = Ret [PStr "a@x"; PStr "b@x"; PStr "b@x"].
Proof. vm_compute. reflexivity. Qed.

(** ** The summary *)

Lemma summary_dict_lookup (t : totals) (k : string) (v : Z) :
  summary_dict t !! k = Some v ->
  v = t_bounces t \/ v = t_complaints t \/ v = t_delivery_attempts t
  \/ v = t_rejects t.
Proof.
  unfold summary_dict. intros H.
  repeat (apply lookup_insert_Some in H as [[_ <-]|[_ H]]; [tauto|]).
  by rewrite lookup_empty in H.
Qed.

Lemma summary_dict_add (s t : totals) :
  summary_dict (totals_add s t) = summary_add (summary_dict s) (summary_dict t).
Proof.
  apply map_eq. intros k. unfold summary_add, summary_dict, totals_add.
  rewrite lookup_union_with.
  cbn [t_bounces t_complaints t_delivery_attempts t_rejects].
  rewrite !lookup_insert, !lookup_empty.
  repeat (case_decide; [done|]). done.
Qed.

Section SummaryFacts.
Variable int_of_string : string -> option Z.

Lemma sum_stats_step_add (t : totals) (dp : pyval) :
  sum_stats_step int_of_string t dp
  = (r ← sum_stats_step int_of_string totals_zero dp; Ret (totals_add t r)).
Proof.
  unfold sum_stats_step.
  destruct (int_field int_of_string dp "Bounces"); [|done].
  destruct (int_field int_of_string dp "Complaints"); [|done].
  destruct (int_field int_of_string dp "DeliveryAttempts"); [|done].
  destruct (int_field int_of_string dp "Rejects"); [|done].
  reflexivity.
Qed.

Lemma totals_add_assoc (r s t : totals) :
  totals_add (totals_add r s) t = totals_add r (totals_add s t).
Proof. unfold totals_add; simpl. f_equal; lia. Qed.

Lemma totals_add_zero_r (t : totals) : totals_add t totals_zero = t.
Proof. destruct t. unfold totals_add; simpl. f_equal; lia. Qed.

Lemma sum_stats_loop_add (t : totals) (stats_data : list pyval) :
  sum_stats_loop int_of_string t stats_data
  = (r ← sum_stats_loop int_of_string totals_zero stats_data;
     Ret (totals_add t r)).
Proof.
  revert t. induction stats_data as [|dp rest IH]; intros t.
  - cbn. by rewrite totals_add_zero_r.
  - cbn [sum_stats_loop]. rewrite (sum_stats_step_add t).
    destruct (sum_stats_step int_of_string totals_zero dp) as [r|e]; [|done].
    rewrite !outcome_bind_ret. rewrite (IH (totals_add t r)), (IH r).
    destruct (sum_stats_loop int_of_string totals_zero rest) as [r'|e]; [|done].
    rewrite !outcome_bind_ret. by rewrite totals_add_assoc.
Qed.

Lemma sum_stats_loop_app (t : totals) (a b : list pyval) :
  sum_stats_loop int_of_string t (a ++ b)
  = (t' ← sum_stats_loop int_of_string t a;
     sum_stats_loop int_of_string t' b).
Proof.
  revert t. induction a as [|dp a IH]; intros t; [done|].
  cbn [app sum_stats_loop].
  destruct (sum_stats_step int_of_string t dp) as [t'|e]; [|done].
  rewrite !outcome_bind_ret. apply IH.
Qed.

(** C7.  [sum_stats] of the empty sequence is the summary of four zeros,
    and [sum_stats] of [a ++ b] is [sum_stats a] and [sum_stats b] added
    field by field; when a field of [a] or of [b] cannot be read, the
    exception of the first such field is raised for [a ++ b] as well. *)
Theorem sum_stats_monoid :
  sum_stats int_of_string []
  = Ret (<["Bounces" := 0]> (<["Complaints" := 0]>
          (<["DeliveryAttempts" := 0]> (<["Rejects" := 0]> ∅))))
  /\ forall a b : list pyval,
       sum_stats int_of_string (a ++ b)
       = (sa ← sum_stats int_of_string a;
          sb ← sum_stats int_of_string b;
          Ret (summary_add sa sb)).
Proof.
  split; [reflexivity|]. intros a b. unfold sum_stats.
  rewrite sum_stats_loop_app.
  destruct (sum_stats_loop int_of_string totals_zero a) as [ta|e]; [|done].
  rewrite !outcome_bind_ret. rewrite (sum_stats_loop_add ta).
  destruct (sum_stats_loop int_of_string totals_zero b) as [tb|e]; [|done].
  rewrite !outcome_bind_ret. by rewrite summary_dict_add.
Qed.
End SummaryFacts.

Section SummaryBounds.
Variable int_of_string : string -> option Z.

Lemma int_field_string dp k s :
  field_is dp k s ->
  int_field int_of_string dp k = of_option ValueError (int_of_string s).
Proof. unfold field_is, int_field. by intros ->. Qed.

Lemma sum_stats_step_nonneg t dp :
  nonneg_totals t -> nonneg_fields int_of_string dp ->
  exists t', sum_stats_step int_of_string t dp = Ret t' /\ nonneg_totals t'.
Proof.
  intros (Hb & Hc & Hd & Hr) Hdp. unfold sum_stats_step.
  destruct (Hdp "Bounces"%string) as (s1 & n1 & F1 & P1 & ?);
    [by repeat constructor|].
  destruct (Hdp "Complaints"%string) as (s2 & n2 & F2 & P2 & ?);
    [by repeat constructor|].
  destruct (Hdp "DeliveryAttempts"%string) as (s3 & n3 & F3 & P3 & ?);
    [by repeat constructor|].
  destruct (Hdp "Rejects"%string) as (s4 & n4 & F4 & P4 & ?);
    [by repeat constructor|].
  rewrite (int_field_string _ _ _ F1), (int_field_string _ _ _ F2),
    (int_field_string _ _ _ F3), (int_field_string _ _ _ F4), P1, P2, P3, P4.
  eexists. split; [reflexivity|]. unfold nonneg_totals; simpl. lia.
Qed.

Lemma sum_stats_loop_nonneg t stats_data :
  nonneg_totals t -> Forall (nonneg_fields int_of_string) stats_data ->
  exists t', sum_stats_loop int_of_string t stats_data = Ret t'
             /\ nonneg_totals t'.
Proof.
  intros Ht Hall. revert t Ht.
  induction Hall as [|dp rest Hdp _ IH]; intros t Ht; [by exists t|].
  destruct (sum_stats_step_nonneg t dp Ht Hdp) as (t' & E & Ht').
  cbn [sum_stats_loop]. rewrite E, outcome_bind_ret. by apply IH.
Qed.

Lemma sum_stats_step_strings t dp :
  string_fields dp ->
  sum_stats_step int_of_string t dp = Raise ValueError
  \/ (exists t', sum_stats_step int_of_string t dp = Ret t')
     /\ ~ malformed_field int_of_string dp.
Proof.
  intros Hdp. unfold sum_stats_step.
  destruct (Hdp "Bounces"%string) as (s1 & F1); [by repeat constructor|].
  destruct (Hdp "Complaints"%string) as (s2 & F2); [by repeat constructor|].
  destruct (Hdp "DeliveryAttempts"%string) as (s3 & F3);
    [by repeat constructor|].
  destruct (Hdp "Rejects"%string) as (s4 & F4); [by repeat constructor|].
  rewrite (int_field_string _ _ _ F1), (int_field_string _ _ _ F2),
    (int_field_string _ _ _ F3), (int_field_string _ _ _ F4).
  destruct (int_of_string s1) eqn:P1; [|by left].
  destruct (int_of_string s2) eqn:P2; [|by left].
  destruct (int_of_string s3) eqn:P3; [|by left].
  destruct (int_of_string s4) eqn:P4; [|by left].
  right. split; [by eexists|].
  intros (k & s & Hk & F & P). unfold summary_fields in Hk.
  unfold field_is, PStr in *.
  repeat (apply elem_of_cons in Hk as [->|Hk]; [congruence|]).
  by apply elem_of_nil in Hk.
Qed.

Lemma sum_stats_loop_malformed t stats_data :
  Forall string_fields stats_data ->
  Exists (malformed_field int_of_string) stats_data ->
  sum_stats_loop int_of_string t stats_data = Raise ValueError.
Proof.
  intros Hall. revert t.
  induction Hall as [|dp rest Hdp _ IH]; intros t Hbad.
  - by apply Exists_nil in Hbad.
  - cbn [sum_stats_loop].
    destruct (sum_stats_step_strings t dp Hdp) as [->|[[t' ->] Hgood]];
      [done|].
    rewrite outcome_bind_ret. apply IH.
    apply Exists_cons in Hbad as [?|?]; [contradiction|done].
Qed.

(** C9.  When the four fields of every datapoint are strings that [int]
    reads as integers that are not negative, [sum_stats] returns a
    summary and none of its fields is negative.  When the four fields of
    every datapoint are strings and [int] does not read one of them,
    [sum_stats] raises [ValueError] and returns no summary. *)
Theorem sum_stats_nonneg_or_fails (stats_data : list pyval) :
  (Forall (nonneg_fields int_of_string) stats_data ->
   exists summary : gmap string Z,
     sum_stats int_of_string stats_data = Ret summary
     /\ forall k v, summary !! k = Some v -> 0 <= v)
  /\ (Forall string_fields stats_data ->
      Exists (malformed_field int_of_string) stats_data ->
      sum_stats int_of_string stats_data = Raise ValueError).
Proof.
  split.
  - intros Hall.
    destruct (sum_stats_loop_nonneg totals_zero stats_data) as (t & E & Ht);
      [unfold nonneg_totals; simpl; lia|done|].
    exists (summary_dict t). unfold sum_stats. rewrite E. split; [done|].
    intros k v Hk. destruct Ht as (? & ? & ? & ?).
    apply summary_dict_lookup in Hk as [->|[->|[->| ->]]]; done.
  - intros Hall Hbad. unfold sum_stats.
    by rewrite (sum_stats_loop_malformed _ _ Hall Hbad).
Qed.
End SummaryBounds.

(** ** The webhook view *)

Lemma st_bind_lift_ret {S A B} (a : A) (f : A -> st S B) (s : S) :
  (lift (Ret a) ≫= f) s = f a s.
Proof. reflexivity. Qed.

Lemma py_eq_str_refl s : py_eq_str (PStr s) s = true.
Proof. unfold py_eq_str, PStr. apply String.eqb_refl. Qed.

Section WebhookFacts.
Variable json_loads : string -> option pyval.
Variable isEnabledFor : level -> bool.

Lemma handle_bounce_bad_json request tr :
  json_loads (raw_json request) = None ->
  exists tr',
    handle_bounce json_loads isEnabledFor request tr
    = (Ret HttpResponseBadRequest, tr')
    /\ signals tr' = signals tr.
Proof.
  intros H. unfold handle_bounce. fold (raw_json request). rewrite H.
  unfold mbind, st_bind, logger_log. cbn [clashes fmap list_fmap existsb].
  destruct (isEnabledFor WARNING); eexists; (split; [reflexivity|]); [|done].
  unfold signals. by rewrite filter_app, app_nil_r.
Qed.

Lemma handle_bounce_bounce request tr d bounce_obj :
  json_loads (raw_json request) = Some (PDict d) ->
  d !! "notificationType" = Some (PStr "Bounce") ->
  default (PDict ∅) (d !! "bounce") = PDict bounce_obj ->
  isEnabledFor INFO = false ->
  handle_bounce json_loads isEnabledFor request tr
  = (Ret HttpResponse,
     tr ++ [bounce_received (default PNone (d !! "mail")) (PDict bounce_obj)]).
Proof.
  intros H Ht Hb Hlog. unfold handle_bounce. fold (raw_json request).
  rewrite H. cbn [py_get]. rewrite Ht.
  change (default PNone (Some ?x)) with x.
  unfold mbind at 1 2. unfold st_bind at 1 2. cbn [lift].
  rewrite py_eq_str_refl, Hb.
  unfold mbind, st_bind, lift, logger_log, send. cbn [py_get].
  by rewrite Hlog.
Qed.

Lemma handle_bounce_complaint request tr d complaint_obj :
  json_loads (raw_json request) = Some (PDict d) ->
  d !! "notificationType" = Some (PStr "Complaint") ->
  default (PDict ∅) (d !! "complaint") = PDict complaint_obj ->
  isEnabledFor INFO = false ->
  handle_bounce json_loads isEnabledFor request tr
  = (Ret HttpResponse,
     tr ++ [complaint_received (default PNone (d !! "mail"))
              (PDict complaint_obj)]).
Proof.
  intros H Ht Hb Hlog. unfold handle_bounce. fold (raw_json request).
  rewrite H. cbn [py_get]. rewrite Ht.
  change (default PNone (Some ?x)) with x.
  unfold mbind at 1 2. unfold st_bind at 1 2. cbn [lift].
  change (py_eq_str (PStr "Complaint") "Bounce") with false.
  rewrite py_eq_str_refl, Hb.
  unfold mbind, st_bind, lift, logger_log, send. cbn [py_get].
  by rewrite Hlog.
Qed.

Lemma handle_bounce_unrecognized request tr d :
  json_loads (raw_json request) = Some (PDict d) ->
  py_eq_str (default PNone (d !! "notificationType")) "Bounce" = false ->
  py_eq_str (default PNone (d !! "notificationType")) "Complaint" = false ->
  isEnabledFor WARNING = false ->
  handle_bounce json_loads isEnabledFor request tr
  = (Ret HttpResponseBadRequest, tr).
Proof.
  intros H Hb Hc Hlog. unfold handle_bounce. fold (raw_json request).
  rewrite H. cbn [py_get].
  unfold mbind at 1 2. unfold st_bind at 1 2. cbn [lift].
  rewrite Hb, Hc. unfold mbind, st_bind, logger_log. by rewrite Hlog.
Qed.

(** C1, as the view has it.  A body that [json.loads] rejects is answered
    with 400 and no signal is sent.  A JSON object whose notificationType
    is "Bounce" and whose "bounce" is missing or an object is answered
    with 200 after exactly one [bounce_received], which carries the value
    under "mail" ([None] when there is none) and the bounce object with
    all it holds, as long as the logger is not enabled for [INFO].  A
    JSON object whose notificationType is missing or neither "Bounce" nor
    "Complaint" is answered with 400 and nothing is sent, as long as the
    logger is not enabled for [WARNING]. *)
Theorem handle_bounce_classifies request tr :
  (json_loads (raw_json request) = None ->
   exists tr',
     handle_bounce json_loads isEnabledFor request tr
     = (Ret HttpResponseBadRequest, tr')
     /\ signals tr' = signals tr)
  /\ (forall d bounce_obj,
        json_loads (raw_json request) = Some (PDict d) ->
        d !! "notificationType" = Some (PStr "Bounce") ->
        default (PDict ∅) (d !! "bounce") = PDict bounce_obj ->
        isEnabledFor INFO = false ->
        handle_bounce json_loads isEnabledFor request tr
        = (Ret HttpResponse,
           tr ++ [bounce_received (default PNone (d !! "mail"))
                    (PDict bounce_obj)]))
  /\ (forall d,
        json_loads (raw_json request) = Some (PDict d) ->
        py_eq_str (default PNone (d !! "notificationType")) "Bounce" = false ->
        py_eq_str (default PNone (d !! "notificationType")) "Complaint"
        = false ->
        isEnabledFor WARNING = false ->
        handle_bounce json_loads isEnabledFor request tr
        = (Ret HttpResponseBadRequest, tr)).
Proof.
  split; [apply handle_bounce_bad_json|].
  split; [apply handle_bounce_bounce|apply handle_bounce_unrecognized].
Qed.

(** C2, as the view has it.  For a "Bounce" object without "bounce" and
    for a "Complaint" object without "complaint" the view answers 200 and
    the signal carries an empty dict in the place of the missing object;
    a missing "mail" is not an error either, and the signal carries
    [None] for it.  (The logger is not enabled for [INFO].) *)
Theorem handle_bounce_missing_objects request tr d :
  json_loads (raw_json request) = Some (PDict d) ->
  isEnabledFor INFO = false ->
  (d !! "notificationType" = Some (PStr "Bounce") ->
   d !! "bounce" = None ->
   handle_bounce json_loads isEnabledFor request tr
   = (Ret HttpResponse,
      tr ++ [bounce_received (default PNone (d !! "mail")) (PDict ∅)]))
  /\ (d !! "notificationType" = Some (PStr "Complaint") ->
      d !! "complaint" = None ->
      handle_bounce json_loads isEnabledFor request tr
      = (Ret HttpResponse,
         tr ++ [complaint_received (default PNone (d !! "mail")) (PDict ∅)])).
Proof.
  intros H Hlog. split; intros Ht Hmiss.
  - apply handle_bounce_bounce; try done. by rewrite Hmiss.
  - apply handle_bounce_complaint; try done. by rewrite Hmiss.
Qed.
End WebhookFacts.

(** ** Stateful computations *)

Lemma st_bind_ret {S A B} (m : st S A) (f : A -> st S B) s a s' :
  m s = (Ret a, s') -> (m ≫= f) s = f a s'.
Proof. unfold mbind, st_bind. by intros ->. Qed.

Lemma st_bind_raise {S A B} (m : st S A) (f : A -> st S B) s e s' :
  m s = (Raise e, s') -> (m ≫= f) s = (Raise e, s').
Proof. unfold mbind, st_bind. by intros ->. Qed.

Lemma st_bind_state {S A B} (m : st S A) (f : A -> st S B) s (P : S -> Prop) :
  P (m s).2 -> (forall a, P (f a (m s).2).2) -> P ((m ≫= f) s).2.
Proof.
  unfold mbind, st_bind. destruct (m s) as [[a|e] s']; simpl; auto.
Qed.

(** ** The store *)

Section Store.
#[local] Open Scope nat_scope.
Implicit Types (h : heap) (x v : val) (l n : nat).

Lemma getitem_dict h x d k :
  is_dict h x d -> getitem x k h = (of_option KeyError (d !! k), h).
Proof. intros (l & -> & H). unfold getitem. by rewrite H. Qed.

Lemma iter_list h x vs : is_list h x vs -> iter x h = (Ret vs, h).
Proof. intros (l & -> & H). unfold iter. by rewrite H. Qed.

Lemma getitem_state x k h : (getitem x k h).2 = h.
Proof.
  unfold getitem. destruct x as [a|l]; [done|].
  destruct (h !! l) as [[d|vs]|]; done.
Qed.

Lemma iter_state x h : (iter x h).2 = h.
Proof.
  unfold iter. destruct x as [[]|l]; try done.
  destruct (h !! l) as [[d|vs]|]; done.
Qed.

(** *** The copy *)

Lemma lookup_original h l o :
  h !! l = Some o -> (h ++ (shift_obj (length h) <$> h)) !! l = Some o.
Proof. intros H. by apply lookup_app_l_Some. Qed.

Lemma lookup_twin h l o :
  h !! l = Some o ->
  (h ++ (shift_obj (length h) <$> h)) !! (length h + l)
  = Some (shift_obj (length h) o).
Proof.
  intros H. rewrite lookup_app_r by lia.
  replace (length h + l - length h) with l by lia.
  by rewrite list_lookup_fmap, H.
Qed.

Lemma is_dict_twin h x d :
  is_dict h x d ->
  is_dict (h ++ (shift_obj (length h) <$> h)) (shift_val (length h) x)
          (shift_val (length h) <$> d).
Proof.
  intros (l & -> & H). exists (length h + l). split; [done|].
  by rewrite (lookup_twin _ _ _ H).
Qed.

Lemma is_list_twin h x vs :
  is_list h x vs ->
  is_list (h ++ (shift_obj (length h) <$> h)) (shift_val (length h) x)
          (shift_val (length h) <$> vs).
Proof.
  intros (l & -> & H). exists (length h + l). split; [done|].
  by rewrite (lookup_twin _ _ _ H).
Qed.

Lemma shift_val_inj n : Inj (=) (=) (shift_val n).
Proof.
  intros [a|l] [b|l']; simpl; intros H; try congruence.
  inversion H. f_equal. lia.
Qed.

(** *** Objects behind a mark refer to objects behind it *)

Lemma behind_shift n x : behind n (shift_val n x).
Proof. destruct x; simpl; [done|lia]. Qed.

Lemma obj_behind_shift n o : obj_behind n (shift_obj n o).
Proof.
  destruct o as [d|vs]; simpl.
  - intros k v. rewrite lookup_fmap. destruct (d !! k); simpl; [|done].
    intros [= <-]. apply behind_shift.
  - apply Forall_fmap, Forall_true. intros x. apply behind_shift.
Qed.

Lemma deepcopy_closed h :
  closed_behind (length h) (h ++ (shift_obj (length h) <$> h)).
Proof.
  intros l o Hl. rewrite lookup_app_r by done. rewrite list_lookup_fmap.
  destruct (h !! (l - length h)); simpl; [|done].
  intros [= <-]. apply obj_behind_shift.
Qed.

Lemma getitem_behind n h x k v h' :
  closed_behind n h -> behind n x -> getitem x k h = (Ret v, h') ->
  behind n v.
Proof.
  intros Hc Hx. unfold getitem. destruct x as [a|l]; [done|].
  destruct (h !! l) as [[d|vs]|] eqn:E; try done.
  destruct (d !! k) as [w|] eqn:Ek; simpl; [|done]. intros [= <- _].
  specialize (Hc l _ Hx E). simpl in Hc. by apply (Hc k).
Qed.

Lemma iter_behind n h x vs h' :
  closed_behind n h -> behind n x -> iter x h = (Ret vs, h') ->
  Forall (behind n) vs.
Proof.
  intros Hc Hx. unfold iter. destruct x as [a|l].
  - destruct a; try done. intros [= <- _].
    apply Forall_fmap, Forall_true. done.
  - destruct (h !! l) as [[d|ws]|] eqn:E; try done; intros [= <- _].
    + apply Forall_fmap, Forall_true. done.
    + apply (Hc l _ Hx E).
Qed.

(** An assignment behind the mark leaves the objects in front of it. *)
Lemma setitem_frame n h x k v :
  behind n x -> take n (setitem x k v h).2 = take n h.
Proof.
  intros Hx. unfold setitem. destruct x as [a|l]; [done|].
  destruct (h !! l) as [[d|vs]|]; try done. simpl.
  by apply take_insert_ge.
Qed.

Lemma setitem_closed n h x k v :
  closed_behind n h -> behind n v -> closed_behind n (setitem x k v h).2.
Proof.
  intros Hc Hv. unfold setitem. destruct x as [a|l]; [done|].
  destruct (h !! l) as [[d|vs]|] eqn:E; try done. simpl.
  intros l' o Hl'. destruct (decide (l = l')) as [<-|Hne].
  - rewrite list_lookup_insert_eq by (by eapply lookup_lt_Some).
    intros [= <-]. simpl. apply map_Forall_insert_2; [done|].
    apply (Hc l _ Hl' E).
  - rewrite list_lookup_insert_ne by done. by apply Hc.
Qed.
End Store.

(** ** The input is kept *)

Section StatsFrame.
Variable strptime : string -> option Z.
Variable TIME_ZONE : string.
Implicit Types (h : heap) (x v dp : val) (n : nat).

Lemma localize_timestamp_frame n tz dp h :
  closed_behind n h -> behind n dp ->
  take n (localize_timestamp strptime tz dp h).2 = take n h
  /\ closed_behind n (localize_timestamp strptime tz dp h).2.
Proof.
  intros Hc Hdp. unfold localize_timestamp, mbind, st_bind, lift.
  pose proof (getitem_state dp "Timestamp" h) as Hs.
  destruct (getitem dp "Timestamp" h) as [[ts|e] h1]; simpl in Hs; subst h1;
    [|done].
  destruct (py_strptime strptime ts) as [d1|e]; [|done].
  destruct (utc_localize d1) as [d2|e]; [|done].
  destruct (astimezone d2 tz) as [d3|e]; [|done].
  destruct (normalize tz d3) as [d4|e]; [|done].
  split; [by apply setitem_frame|by apply setitem_closed].
Qed.

Lemma stats_loop_frame n current_tz dps datapoints h :
  closed_behind n h -> Forall (behind n) dps ->
  take n (stats_loop strptime current_tz dps datapoints h).2 = take n h.
Proof.
  intros Hc Hall. revert datapoints h Hc.
  induction Hall as [|dp rest Hdp _ IH]; intros datapoints h Hc; [done|].
  cbn [stats_loop]. unfold mbind, st_bind.
  destruct current_tz as [tz|].
  - destruct (localize_timestamp_frame n tz dp h Hc Hdp) as [Ht Hc'].
    destruct (localize_timestamp strptime tz dp h) as [[[]|e] h1];
      simpl in *; [|done].
    by rewrite IH.
  - simpl. by apply IH.
Qed.

Lemma decorate_state datapoints h : (decorate datapoints h).2 = h.
Proof.
  revert h. induction datapoints as [|x rest IH]; intros h; [done|].
  cbn [decorate]. unfold mbind, st_bind.
  pose proof (getitem_state x "Timestamp" h) as Hs.
  destruct (getitem x "Timestamp" h) as [[k|e] h1]; simpl in Hs; subst h1;
    [|done].
  specialize (IH h). destruct (decorate rest h) as [[keyed|e] h1];
    simpl in IH; by subst h1.
Qed.

Lemma sort_by_timestamp_state datapoints h :
  (sort_by_timestamp datapoints h).2 = h.
Proof.
  unfold sort_by_timestamp, mbind, st_bind, lift.
  pose proof (decorate_state datapoints h) as Hs.
  destruct (decorate datapoints h) as [[keyed|e] h1]; simpl in Hs; subst h1;
    [|done].
  by destruct (py_sort key_lt keyed).
Qed.

(** C4.  Whatever the arguments and the store are, and whether the call
    returns or raises, every object that the store held before the call
    of [stats_to_list] is the same object after it: the assignments of
    the loop reach the copy only. *)
Theorem stats_to_list_keeps_input stats_dict localize h :
  take (length h) (stats_to_list strptime TIME_ZONE stats_dict localize h).2
  = h.
Proof.
  unfold stats_to_list, mbind at 1 2, st_bind at 1.
  pose proof (getitem_state stats_dict "GetSendStatisticsResponse" h) as Hs.
  destruct (getitem stats_dict "GetSendStatisticsResponse" h)
    as [[response|e] h1]; simpl in Hs; subst h1;
    [|by rewrite firstn_all].
  unfold st_bind at 1.
  pose proof (getitem_state response "GetSendStatisticsResult" h) as Hs.
  destruct (getitem response "GetSendStatisticsResult" h)
    as [[result|e] h1]; simpl in Hs; subst h1;
    [|by rewrite firstn_all].
  unfold mbind at 1, st_bind at 1, deepcopy.
  set (n := length h). set (h1 := h ++ (shift_obj n <$> h)).
  assert (take n h1 = h) as Hh1 by (unfold h1, n; by rewrite take_app_length).
  assert (closed_behind n h1) as Hc by apply deepcopy_closed.
  unfold mbind at 1, st_bind at 1, lift.
  destruct (current_timezone TIME_ZONE localize) as [current_tz|e]; [|done].
  unfold mbind at 1, st_bind at 1.
  pose proof (getitem_state (shift_val n result) "SendDataPoints" h1) as Hs.
  destruct (getitem (shift_val n result) "SendDataPoints" h1)
    as [[sdp|e] h2] eqn:E1; simpl in Hs; subst h2; [|done].
  assert (behind n sdp) as Hsdp
    by (eapply getitem_behind; [exact Hc|apply behind_shift|exact E1]).
  unfold mbind at 1, st_bind at 1.
  pose proof (iter_state sdp h1) as Hs.
  destruct (iter sdp h1) as [[dps|e] h2] eqn:E2; simpl in Hs; subst h2;
    [|done].
  assert (Forall (behind n) dps) as Hdps by (by eapply iter_behind).
  unfold mbind at 1, st_bind at 1.
  pose proof (stats_loop_frame n current_tz dps [] h1 Hc Hdps) as Hl.
  destruct (stats_loop strptime current_tz dps [] h1)
    as [[datapoints|e] h2]; simpl in Hl |- *; [|congruence].
  rewrite sort_by_timestamp_state. congruence.
Qed.
End StatsFrame.

(** ** The sort on timestamps *)

Lemma StronglySorted_fmap_on {A B} (R1 : A -> A -> Prop) (R2 : B -> B -> Prop)
    (P : A -> Prop) (f : A -> B) (l : list A) :
  (forall x y, P x -> P y -> R1 x y -> R2 (f x) (f y)) ->
  Forall P l -> StronglySorted R1 l -> StronglySorted R2 (f <$> l).
Proof.
  intros HR HP Hs. induction Hs as [|x l _ IH Hx]; [constructor|].
  apply Forall_cons in HP as [Px Pl]. rewrite fmap_cons. constructor; [auto|].
  apply Forall_fmap. apply Forall_forall. intros y Hy. simpl.
  rewrite Forall_forall in Pl, Hx. auto.
Qed.

Lemma Forall2_zip_swap {A B} (R : A -> B -> Prop) (xs : list A) (ks : list B) :
  Forall2 R xs ks -> Forall (fun p => R p.2 p.1) (zip ks xs).
Proof. induction 1; simpl; constructor; auto. Qed.

Section Keys.
Implicit Types (h : heap) (x : val).

Lemma getitem_timestamp h x v :
  timestamp_of h x = Some v -> getitem x "Timestamp" h = (Ret v, h).
Proof.
  unfold timestamp_of, getitem. destruct x as [a|l]; [done|].
  destruct (h !! l) as [[d|vs]|]; try done. by intros ->.
Qed.

Lemma getitem_no_timestamp h x d :
  is_dict h x d -> d !! "Timestamp" = None ->
  getitem x "Timestamp" h = (Raise KeyError, h).
Proof. intros Hd Hk. rewrite (getitem_dict _ _ _ _ Hd). by rewrite Hk. Qed.

Lemma decorate_keys h (xs ks : list val) :
  Forall2 (fun x k => timestamp_of h x = Some k) xs ks ->
  decorate xs h = (Ret (zip ks xs), h).
Proof.
  induction 1 as [|x k xs ks Hx _ IH]; [done|].
  cbn [decorate]. rewrite (st_bind_ret _ _ _ _ _ (getitem_timestamp _ _ _ Hx)).
  by rewrite (st_bind_ret _ _ _ _ _ IH).
Qed.

(** Timestamps that Python orders as [ltb] orders the keys [ks] that
    stand for them. *)
Section Ordered.
Context {B : Type} (to_atom : B -> atom) (ltb : B -> B -> bool).
Hypothesis atom_lt_ltb :
  forall a b, atom_lt (to_atom a) (to_atom b) = Ret (ltb a b).
Hypothesis ltb_asym : forall a b, ltb a b = true -> ltb b a = false.
Hypothesis ltb_trans :
  forall a b c, ltb b a = false -> ltb c b = false -> ltb c a = false.

Lemma sort_by_timestamp_ordered h (xs : list val) (ks : list B) :
  Forall2 (fun x k => timestamp_of h x = Some (VAtom (to_atom k))) xs ks ->
  exists sorted,
    sort_by_timestamp xs h = (Ret sorted, h)
    /\ sorted ≡ₚ xs
    /\ StronglySorted (ascending h) sorted.
Proof.
  intros Hks.
  set (f := fun p : B * val => (VAtom (to_atom p.1), p.2)).
  set (ltb' := fun p q : B * val => ltb p.1 q.1).
  assert (length xs = length ks) as Hlen by (by eapply Forall2_length).
  assert (decorate xs h = (Ret (f <$> zip ks xs), h)) as Hdec.
  { rewrite (decorate_keys h xs ((fun k => VAtom (to_atom k)) <$> ks)).
    - f_equal. f_equal. clear Hks. revert xs Hlen.
      induction ks as [|k ks IH]; intros [|x xs] Hlen; try done.
      simpl. f_equal. apply IH. simpl in Hlen. lia.
    - by apply Forall2_fmap_r. }
  exists ((isort ltb' (zip ks xs)).*2). split; [|split].
  - unfold sort_by_timestamp. rewrite (st_bind_ret _ _ _ _ _ Hdec).
    rewrite (py_sort_fmap f key_lt ltb'); [|intros p q; apply atom_lt_ltb].
    unfold mbind, st_bind, lift, mret, st_ret. f_equal. f_equal.
    rewrite <- list_fmap_compose. done.
  - rewrite (isort_perm ltb'). rewrite snd_zip by lia. done.
  - eapply (StronglySorted_fmap_on _ _
              (fun p => timestamp_of h p.2 = Some (VAtom (to_atom p.1)))).
    + intros p q Hp Hq Hpq. exists (to_atom p.1), (to_atom q.1).
      split; [done|]. split; [done|]. rewrite atom_lt_ltb. f_equal. exact Hpq.
    + rewrite (isort_perm ltb').
      apply (Forall2_zip_swap
               (fun x k => timestamp_of h x = Some (VAtom (to_atom k)))).
      exact Hks.
    + apply (isort_sorted ltb').
      * intros p q. apply ltb_asym.
      * intros p q r. apply ltb_trans.
Qed.
End Ordered.
End Keys.

(** ** The loop over the copy *)

Lemma timestamp_of_twin (h : heap) (x v : val) :
  timestamp_of h x = Some v ->
  timestamp_of (h ++ (shift_obj (length h) <$> h)) (shift_val (length h) x)
  = Some (shift_val (length h) v).
Proof.
  unfold timestamp_of. destruct x as [a|l]; [done|].
  destruct (h !! l) as [[d|vs]|] eqn:E; try done. intros Hv. simpl.
  rewrite (lookup_twin _ _ _ E). simpl. by rewrite lookup_fmap, Hv.
Qed.

Lemma timestamps_twin (h : heap) (xs : list val) (tss : list string) :
  timestamps h xs tss ->
  timestamps (h ++ (shift_obj (length h) <$> h))
             (shift_val (length h) <$> xs) tss.
Proof.
  unfold timestamps. intros H. apply Forall2_fmap_l.
  eapply Forall2_impl; [exact H|]. intros x s Hx.
  by apply (timestamp_of_twin h x (VStr s)).
Qed.

Lemma setitem_timestamp (h : heap) (x v0 v : val) :
  timestamp_of h x = Some v0 ->
  exists h', setitem x "Timestamp" v h = (Ret tt, h')
             /\ timestamp_of h' x = Some v
             /\ forall y, y <> x -> timestamp_of h' y = timestamp_of h y.
Proof.
  unfold timestamp_of, setitem. destruct x as [a|l]; [done|].
  destruct (h !! l) as [[d|vs]|] eqn:E; try done. intros _.
  eexists. split; [reflexivity|]. split.
  - rewrite list_lookup_insert_eq by (by eapply lookup_lt_Some).
    by rewrite lookup_insert_eq.
  - intros [b|l'] Hy; [done|].
    rewrite list_lookup_insert_ne; [done|]. congruence.
Qed.

Lemma astimezone_utc (tz : tzinfo) (u : Z) :
  representable tz u ->
  astimezone (DateTime u (Some 0)) tz = Ret (local_time tz u).
Proof.
  intros [Hu Hl]. unfold astimezone, dt_add, fromutc, dt_add.
  cbn [tzoffset wall].
  replace (u + - 0) with u by lia. rewrite Hu. rewrite outcome_bind_ret.
  rewrite Hl. reflexivity.
Qed.

Lemma normalize_local (tz : tzinfo) (u : Z) :
  representable tz u -> normalize tz (local_time tz u) = Ret (local_time tz u).
Proof.
  intros [Hu Hl]. unfold normalize, local_time, dt_add, fromutc, dt_add.
  cbn [tzoffset wall].
  replace (u + utcoffset tz u + - utcoffset tz u) with u by lia.
  rewrite Hu, outcome_bind_ret, Hl. reflexivity.
Qed.

Lemma utc_instant_local (tz : tzinfo) (u : Z) :
  utc_instant (local_time tz u) = Some u.
Proof. unfold utc_instant, local_time. simpl. f_equal. lia. Qed.

Section StatsFacts.
Variable strptime : string -> option Z.
Variable TIME_ZONE : string.
Implicit Types (h : heap) (x v dp : val) (tz : tzinfo) (s : string).

Lemma localize_timestamp_ok tz x s u h :
  timestamp_of h x = Some (VStr s) -> strptime s = Some u ->
  representable tz u ->
  exists h', localize_timestamp strptime tz x h = (Ret tt, h')
             /\ timestamp_of h' x = Some (VDate (local_time tz u))
             /\ forall y, y <> x -> timestamp_of h' y = timestamp_of h y.
Proof.
  intros Hx Hs Hu. unfold localize_timestamp.
  rewrite (st_bind_ret _ _ _ _ _ (getitem_timestamp _ _ _ Hx)).
  unfold VStr, py_strptime. rewrite Hs. cbn [of_option].
  rewrite outcome_bind_ret, st_bind_lift_ret.
  cbn [utc_localize tzoffset wall]. rewrite st_bind_lift_ret.
  rewrite (astimezone_utc _ _ Hu), st_bind_lift_ret.
  rewrite (normalize_local _ _ Hu), st_bind_lift_ret.
  by apply (setitem_timestamp h x (VAtom (AStr s))).
Qed.

Lemma localize_timestamp_malformed tz x s h :
  timestamp_of h x = Some (VStr s) -> strptime s = None ->
  localize_timestamp strptime tz x h = (Raise ValueError, h).
Proof.
  intros Hx Hs. unfold localize_timestamp.
  rewrite (st_bind_ret _ _ _ _ _ (getitem_timestamp _ _ _ Hx)).
  unfold VStr, py_strptime. rewrite Hs. reflexivity.
Qed.

Lemma stats_loop_plain dps datapoints h :
  stats_loop strptime None dps datapoints h = (Ret (datapoints ++ dps), h).
Proof.
  revert datapoints. induction dps as [|dp rest IH]; intros datapoints.
  - by rewrite app_nil_r.
  - cbn [stats_loop]. unfold mbind at 1, st_bind at 1. cbn.
    rewrite IH. by rewrite <- app_assoc.
Qed.

Lemma timestamps_frame h h' (xs : list val) tss x :
  x ∉ xs -> (forall y, y <> x -> timestamp_of h' y = timestamp_of h y) ->
  timestamps h xs tss -> timestamps h' xs tss.
Proof.
  intros Hx Hfr Hts. unfold timestamps in *.
  induction Hts as [|y s ys tss Hy _ IH]; constructor.
  - rewrite Hfr; [done|]. intros ->. apply Hx. by left.
  - apply IH. intros Hin. apply Hx. by right.
Qed.

Lemma stats_loop_localized tz dps tss datapoints h :
  NoDup dps -> timestamps h dps tss -> Forall (well_formed strptime tz) tss ->
  exists h',
    stats_loop strptime (Some tz) dps datapoints h
    = (Ret (datapoints ++ dps), h')
    /\ Forall2 (localized strptime tz h') dps tss
    /\ forall y, y ∉ dps -> timestamp_of h' y = timestamp_of h y.
Proof.
  revert tss datapoints h.
  induction dps as [|dp rest IH]; intros tss datapoints h Hnd Hts Hwf.
  - apply Forall2_nil_inv_l in Hts as ->. exists h. rewrite app_nil_r.
    split; [done|]. split; [constructor|done].
  - apply Forall2_cons_inv_l in Hts as (s & tss' & Hdp & Hrest & ->).
    apply NoDup_cons in Hnd as [Hnotin Hnd].
    apply Forall_cons in Hwf as [(u & Hs & Hu) Hwf].
    destruct (localize_timestamp_ok tz dp s u h Hdp Hs Hu)
      as (h1 & E1 & Hdp1 & Hfr1).
    destruct (IH tss' (datapoints ++ [dp]) h1) as (h' & E & Hloc & Hfr);
      [done|by eapply timestamps_frame|done|].
    exists h'. split; [|split].
    + cbn [stats_loop]. rewrite (st_bind_ret _ _ _ _ _ E1), E.
      by rewrite <- app_assoc.
    + constructor; [|done]. exists u. split; [done|].
      by rewrite (Hfr dp Hnotin).
    + intros y Hy. apply not_elem_of_cons in Hy as [Hne Hy].
      rewrite (Hfr y Hy). by apply Hfr1.
Qed.

Lemma stats_loop_malformed tz dps tss datapoints h :
  NoDup dps -> timestamps h dps tss ->
  Forall (fun s => well_formed strptime tz s \/ strptime s = None) tss ->
  Exists (fun s => strptime s = None) tss ->
  exists h',
    stats_loop strptime (Some tz) dps datapoints h = (Raise ValueError, h').
Proof.
  revert tss datapoints h.
  induction dps as [|dp rest IH]; intros tss datapoints h Hnd Hts Hall Hbad.
  - apply Forall2_nil_inv_l in Hts as ->. by apply Exists_nil in Hbad.
  - apply Forall2_cons_inv_l in Hts as (s & tss' & Hdp & Hrest & ->).
    apply NoDup_cons in Hnd as [Hnotin Hnd].
    apply Forall_cons in Hall as [Hs Hall].
    destruct Hs as [(u & Hs & Hu)|Hs].
    + apply Exists_cons in Hbad as [Hbad|Hbad]; [congruence|].
      destruct (localize_timestamp_ok tz dp s u h Hdp Hs Hu)
        as (h1 & E1 & Hdp1 & Hfr1).
      destruct (IH tss' (datapoints ++ [dp]) h1) as (h' & E);
        [done|by eapply timestamps_frame|done|done|].
      exists h'. cbn [stats_loop]. by rewrite (st_bind_ret _ _ _ _ _ E1).
    + exists h. cbn [stats_loop].
      by rewrite (st_bind_raise _ _ _ _ _
                    (localize_timestamp_malformed tz dp s h Hdp Hs)).
Qed.

(** The run up to the loop. *)
Lemma stats_to_list_result h stats_dict result localize current_tz :
  statistics_result h stats_dict result ->
  current_timezone TIME_ZONE localize = Ret current_tz ->
  stats_to_list strptime TIME_ZONE stats_dict localize h
  = (dps ← getitem (shift_val (length h) result) "SendDataPoints";
     dps ← iter dps;
     datapoints ← stats_loop strptime current_tz dps [];
     sort_by_timestamp datapoints)
      (h ++ (shift_obj (length h) <$> h)).
Proof.
  intros (d0 & response & d1 & H0 & K0 & H1 & K1) Htz. unfold stats_to_list.
  rewrite (st_bind_ret _ _ h response h);
    [|by rewrite (getitem_dict _ _ _ _ H0), K0].
  rewrite (st_bind_ret _ _ h result h);
    [|by rewrite (getitem_dict _ _ _ _ H1), K1].
  rewrite (st_bind_ret _ _ h (shift_val (length h) result)
             (h ++ (shift_obj (length h) <$> h))); [|done].
  rewrite Htz. by rewrite st_bind_lift_ret.
Qed.

Lemma stats_to_list_loop h stats_dict items localize current_tz :
  send_statistics h stats_dict items ->
  current_timezone TIME_ZONE localize = Ret current_tz ->
  stats_to_list strptime TIME_ZONE stats_dict localize h
  = (datapoints ←
       stats_loop strptime current_tz (shift_val (length h) <$> items) [];
     sort_by_timestamp datapoints)
      (h ++ (shift_obj (length h) <$> h)).
Proof.
  intros (result & d & sdp & Hres & Hd & Hk & Hl) Htz.
  rewrite (stats_to_list_result h stats_dict result localize current_tz)
    by done.
  rewrite (st_bind_ret _ _ _ (shift_val (length h) sdp)
             (h ++ (shift_obj (length h) <$> h))).
  - by rewrite (st_bind_ret _ _ _ _ _
                  (iter_list _ _ _ (is_list_twin _ _ _ Hl))).
  - rewrite (getitem_dict _ _ _ _ (is_dict_twin _ _ _ Hd)).
    by rewrite lookup_fmap, Hk.
Qed.
End StatsFacts.

(** ** The normalizer on well-formed responses *)

Lemma atom_lt_strings (s t : string) :
  atom_lt (AStr s) (AStr t) = Ret (String.ltb s t).
Proof. reflexivity. Qed.

Lemma atom_lt_local_times (tz : tzinfo) (a b : Z) :
  atom_lt (ADate (local_time tz a)) (ADate (local_time tz b)) = Ret (a <? b).
Proof.
  unfold atom_lt, local_time. cbn [tzoffset wall]. do 2 f_equal; lia.
Qed.

Section StatsTheorems.
Variable strptime : string -> option Z.
Variable TIME_ZONE : string.
Implicit Types (h : heap) (x v dp : val) (tz : tzinfo) (s : string).

Lemma stats_to_list_plain h stats_dict items tss :
  send_statistics h stats_dict items -> timestamps h items tss ->
  exists datapoints,
    stats_to_list strptime TIME_ZONE stats_dict None h
    = (Ret datapoints, h ++ (shift_obj (length h) <$> h))
    /\ datapoints ≡ₚ shift_val (length h) <$> items
    /\ StronglySorted (ascending (h ++ (shift_obj (length h) <$> h))) datapoints
    /\ timestamps (h ++ (shift_obj (length h) <$> h))
                  (shift_val (length h) <$> items) tss.
Proof.
  intros Hshape Hts.
  pose proof (timestamps_twin h items tss Hts) as Hts'.
  destruct (sort_by_timestamp_ordered AStr String.ltb atom_lt_strings
              string_ltb_asym string_not_above_trans
              (h ++ (shift_obj (length h) <$> h))
              (shift_val (length h) <$> items) tss Hts')
    as (sorted & E & Hperm & Hsorted).
  exists sorted. repeat split; try done.
  rewrite (stats_to_list_loop strptime TIME_ZONE h stats_dict items None None)
    by done.
  by rewrite (st_bind_ret _ _ _ _ _ (stats_loop_plain strptime _ [] _)).
Qed.

Lemma stats_to_list_localized h stats_dict items tss localize tz :
  send_statistics h stats_dict items -> timestamps h items tss ->
  NoDup items ->
  current_timezone TIME_ZONE localize = Ret (Some tz) ->
  Forall (well_formed strptime tz) tss ->
  exists datapoints h',
    stats_to_list strptime TIME_ZONE stats_dict localize h
    = (Ret datapoints, h')
    /\ datapoints ≡ₚ shift_val (length h) <$> items
    /\ StronglySorted (ascending h') datapoints
    /\ Forall2 (localized strptime tz h') (shift_val (length h) <$> items) tss.
Proof.
  intros Hshape Hts Hnd Htz Hwf.
  destruct (stats_loop_localized strptime tz
              (shift_val (length h) <$> items) tss []
              (h ++ (shift_obj (length h) <$> h))) as (h' & E & Hloc & _).
  { apply NoDup_fmap_2; [apply shift_val_inj|done]. }
  { by apply timestamps_twin. }
  { done. }
  destruct (sort_by_timestamp_ordered (fun u => ADate (local_time tz u))
              Z.ltb (atom_lt_local_times tz)
              ltac:(intros a b; lia) ltac:(intros a b c; lia)
              h' (shift_val (length h) <$> items)
              ((fun s => default 0 (strptime s)) <$> tss))
    as (sorted & Es & Hperm & Hsorted).
  { apply Forall2_fmap_r. eapply Forall2_impl; [exact Hloc|].
    intros x s (u & Hs & Hx). unfold compose. by rewrite Hs. }
  exists sorted, h'. repeat split; try done.
  rewrite (stats_to_list_loop strptime TIME_ZONE h stats_dict items localize
             (Some tz)) by done.
  by rewrite (st_bind_ret _ _ _ _ _ E).
Qed.

(** C5, as the function has it.  When the result has no
    "SendDataPoints", [stats_to_list] raises [KeyError], with or without
    a zone.  When there is a zone and [strptime] rejects the timestamp of
    a datapoint, [stats_to_list] raises [ValueError].  An exception comes
    without a list of datapoints. *)
Theorem stats_to_list_errors h stats_dict result d localize :
  statistics_result h stats_dict result ->
  is_dict h result d ->
  (forall current_tz,
      current_timezone TIME_ZONE localize = Ret current_tz ->
      d !! "SendDataPoints" = None ->
      stats_to_list strptime TIME_ZONE stats_dict localize h
      = (Raise KeyError, h ++ (shift_obj (length h) <$> h)))
  /\ (forall tz sdp items tss,
        current_timezone TIME_ZONE localize = Ret (Some tz) ->
        d !! "SendDataPoints" = Some sdp ->
        is_list h sdp items ->
        NoDup items ->
        timestamps h items tss ->
        Forall (fun s => well_formed strptime tz s \/ strptime s = None) tss ->
        Exists (fun s => strptime s = None) tss ->
        exists h',
          stats_to_list strptime TIME_ZONE stats_dict localize h
          = (Raise ValueError, h')).
Proof.
  intros Hres Hd. split.
  - intros current_tz Htz Hk.
    rewrite (stats_to_list_result strptime TIME_ZONE h stats_dict result
               localize current_tz) by done.
    apply st_bind_raise.
    rewrite (getitem_dict _ _ _ _ (is_dict_twin _ _ _ Hd)).
    by rewrite lookup_fmap, Hk.
  - intros tz sdp items tss Htz Hk Hl Hnd Hts Hall Hbad.
    destruct (stats_loop_malformed strptime tz
                (shift_val (length h) <$> items) tss []
                (h ++ (shift_obj (length h) <$> h))) as (h' & E); try done.
    { apply NoDup_fmap_2; [apply shift_val_inj|done]. }
    { by apply timestamps_twin. }
    exists h'.
    rewrite (stats_to_list_loop strptime TIME_ZONE h stats_dict items localize
               (Some tz)); [|by exists result, d, sdp|done].
    by apply st_bind_raise.
Qed.
End StatsTheorems.

Lemma stats_to_list_none_independent (strptime strptime' : string -> option Z)
    (TIME_ZONE : string) (stats_dict : val) (h : heap) :
  stats_to_list strptime' TIME_ZONE stats_dict None h
  = stats_to_list strptime TIME_ZONE stats_dict None h.
Proof.
  unfold stats_to_list, mbind, st_bind.
  destruct (getitem stats_dict "GetSendStatisticsResponse" h)
    as [[response|e] h1]; [|done].
  destruct (getitem response "GetSendStatisticsResult" h1)
    as [[result|e] h2]; [|done].
  destruct (deepcopy result h2) as [[result'|e] h3]; [|done].
  cbn [current_timezone lift].
  destruct (getitem result' "SendDataPoints" h3) as [[sdp|e] h4]; [|done].
  destruct (iter sdp h4) as [[dps|e] h5]; [|done].
  by rewrite !stats_loop_plain.
Qed.

(** C10.  When [localize] is [None], the call does not depend on what
    [strptime] computes, and for a send-statistics response whose
    datapoints have timestamp strings, whatever these strings are, it
    returns the copies of the datapoints with the same strings under
    "Timestamp". *)
Theorem stats_to_list_unlocalized (strptime : string -> option Z)
    (TIME_ZONE : string) (stats_dict : val) (h : heap) :
  (forall strptime' : string -> option Z,
      stats_to_list strptime' TIME_ZONE stats_dict None h
      = stats_to_list strptime TIME_ZONE stats_dict None h)
  /\ (forall items tss,
        send_statistics h stats_dict items ->
        timestamps h items tss ->
        exists datapoints,
          stats_to_list strptime TIME_ZONE stats_dict None h
          = (Ret datapoints, h ++ (shift_obj (length h) <$> h))
          /\ datapoints ≡ₚ shift_val (length h) <$> items
          /\ timestamps (h ++ (shift_obj (length h) <$> h))
                        (shift_val (length h) <$> items) tss).
Proof.
  split.
  - intros strptime'. apply stats_to_list_none_independent.
  - intros items tss Hshape Hts.
    destruct (stats_to_list_plain strptime TIME_ZONE h stats_dict items tss)
      as (datapoints & E & Hperm & _ & Hts'); try done.
    by exists datapoints.
Qed.

(** ** A sort that returns has sorted *)

Section SortReturns.
Context {A : Type} (lt : A -> A -> outcome bool).
Hypothesis lt_asym : forall x y, lt x y = Ret true -> lt y x = Ret false.
Hypothesis lt_trans :
  forall x y z, lt y x = Ret false -> lt z y = Ret false -> lt z x = Ret false.

Lemma py_insert_perm (x : A) (l r : list A) :
  py_insert lt x l = Ret r -> r ≡ₚ x :: l.
Proof.
  revert r. induction l as [|y l IH]; intros r; cbn [py_insert].
  - by intros [= <-].
  - destruct (lt x y) as [[]|e]; cbn; [by intros [= <-]| |done].
    destruct (py_insert lt x l) as [r'|e]; cbn; [|done].
    intros [= <-]. rewrite (IH r' eq_refl). apply Permutation_swap.
Qed.

Lemma py_insert_sorted (x : A) (l r : list A) :
  StronglySorted (fun a b => lt b a = Ret false) l ->
  py_insert lt x l = Ret r ->
  StronglySorted (fun a b => lt b a = Ret false) r.
Proof.
  intros Hs. revert r. induction Hs as [|y l Hs IH Hy]; intros r;
    cbn [py_insert].
  - intros [= <-]. repeat constructor.
  - destruct (lt x y) as [[]|e] eqn:Hxy; cbn; [| |done].
    + intros [= <-]. constructor; [by constructor|].
      constructor; [by apply lt_asym|].
      eapply Forall_impl; [exact Hy|]. intros z Hz. cbv beta in *.
      eapply lt_trans; [|exact Hz]. by apply lt_asym.
    + destruct (py_insert lt x l) as [r'|e] eqn:E; cbn; [|done].
      intros [= <-]. constructor; [by apply IH|].
      rewrite (py_insert_perm _ _ _ E). by constructor.
Qed.

Lemma py_sort_from_returns (acc l r : list A) :
  StronglySorted (fun a b => lt b a = Ret false) acc ->
  py_sort_from lt acc l = Ret r ->
  r ≡ₚ acc ++ l /\ StronglySorted (fun a b => lt b a = Ret false) r.
Proof.
  revert acc r. induction l as [|x l IH]; intros acc r Hacc;
    cbn [py_sort_from].
  - intros [= <-]. by rewrite app_nil_r.
  - destruct (py_insert lt x acc) as [acc'|e] eqn:E; cbn; [|done].
    intros Hr. destruct (IH acc' r) as [Hperm Hs];
      [by eapply py_insert_sorted|done|].
    split; [|done]. rewrite Hperm, (py_insert_perm _ _ _ E).
    cbn. apply Permutation_middle.
Qed.

Lemma py_sort_returns (l r : list A) :
  py_sort lt l = Ret r ->
  r ≡ₚ l /\ StronglySorted (fun a b => lt b a = Ret false) r.
Proof. apply py_sort_from_returns. constructor. Qed.
End SortReturns.

(** ** The order of scalars *)

Lemma atom_lt_asym (a b : atom) :
  atom_lt a b = Ret true -> atom_lt b a = Ret false.
Proof.
  destruct a as [|[|]|x|s|[w [o|]]], b as [|[|]|y|t|[w' [o'|]]]; cbn;
    try congruence; intros [= H]; f_equal;
    first [done | by apply string_ltb_asym | lia].
Qed.

Lemma atom_lt_not_above_trans (a b c : atom) :
  atom_lt b a = Ret false -> atom_lt c b = Ret false ->
  atom_lt c a = Ret false.
Proof.
  destruct a as [|[|]|x|s|[w [o|]]], b as [|[|]|y|t|[w' [o'|]]],
    c as [|[|]|z|u|[w'' [o''|]]]; cbn;
    try congruence; intros [=] [=]; f_equal;
    first [done | by eapply string_not_above_trans | lia].
Qed.

Lemma val_lt_atoms (x y : val) (b : bool) :
  val_lt x y = Ret b ->
  exists a c, x = VAtom a /\ y = VAtom c /\ atom_lt a c = Ret b.
Proof. destruct x, y; cbn; try done. eauto. Qed.

Lemma key_lt_asym (p q : val * val) :
  key_lt p q = Ret true -> key_lt q p = Ret false.
Proof.
  unfold key_lt. intros (a & c & -> & -> & H)%val_lt_atoms.
  cbn. by apply atom_lt_asym.
Qed.

Lemma key_lt_not_above_trans (p q r : val * val) :
  key_lt q p = Ret false -> key_lt r q = Ret false -> key_lt r p = Ret false.
Proof.
  unfold key_lt. intros (b & a & Hq & Hp & H1)%val_lt_atoms
                        (c & b' & Hr & Hq' & H2)%val_lt_atoms.
  rewrite Hp, Hr. rewrite Hq in Hq'. injection Hq' as <-. cbn.
  by eapply atom_lt_not_above_trans.
Qed.

(** ** What a call that returns has done *)

Lemma st_bind_ret_inv {S A B} (m : st S A) (f : A -> st S B) s b s' :
  (m ≫= f) s = (Ret b, s') ->
  exists a s1, m s = (Ret a, s1) /\ f a s1 = (Ret b, s').
Proof.
  unfold mbind, st_bind. destruct (m s) as [[a|e] s1]; [eauto|done].
Qed.

Lemma getitem_ret_timestamp (h h' : heap) (x v : val) :
  getitem x "Timestamp" h = (Ret v, h') -> timestamp_of h x = Some v /\ h' = h.
Proof.
  unfold getitem, timestamp_of. destruct x as [a|l]; [done|].
  destruct (h !! l) as [[d|vs]|]; try done.
  destruct (d !! "Timestamp"); cbn; [|done]. by intros [= <- <-].
Qed.

Lemma timestamp_of_twin_inv (h : heap) (x : val) (s : string) :
  timestamp_of (h ++ (shift_obj (length h) <$> h)) (shift_val (length h) x)
  = Some (VStr s) ->
  timestamp_of h x = Some (VStr s).
Proof.
  unfold timestamp_of. destruct x as [a|l]; [done|]. cbn.
  rewrite lookup_app_r by lia.
  replace (length h + l - length h)%nat with l by lia.
  rewrite list_lookup_fmap. destruct (h !! l) as [[d|vs]|]; try done. cbn.
  rewrite lookup_fmap. destruct (d !! "Timestamp") as [[a|l']|]; try done.
Qed.

Lemma decorate_ret (h h' : heap) (xs : list val) (keyed : list (val * val)) :
  decorate xs h = (Ret keyed, h') ->
  h' = h /\ keyed.*2 = xs
  /\ Forall (fun p => timestamp_of h p.2 = Some p.1) keyed.
Proof.
  revert keyed h'. induction xs as [|x xs IH]; intros keyed h'; cbn [decorate].
  - intros [= <- <-]. by repeat split.
  - intros (k & h1 & Hk & Hrest)%st_bind_ret_inv.
    apply getitem_ret_timestamp in Hk as [Hk ->].
    apply st_bind_ret_inv in Hrest as (keyed' & h2 & Hd & Hret).
    destruct (IH _ _ Hd) as (-> & Hsnd & Hall).
    injection Hret as <- <-. split; [done|].
    split; [by rewrite fmap_cons, Hsnd|].
    by constructor.
Qed.

Lemma sort_by_timestamp_ret (h h' : heap) (xs sorted : list val) :
  sort_by_timestamp xs h = (Ret sorted, h') ->
  h' = h /\ sorted ≡ₚ xs /\ StronglySorted (ascending h) sorted.
Proof.
  unfold sort_by_timestamp.
  intros (keyed & h1 & Hd & Hrest)%st_bind_ret_inv.
  apply decorate_ret in Hd as (-> & Hsnd & Hall).
  apply st_bind_ret_inv in Hrest as (r & h2 & Hs & Hret).
  unfold lift in Hs. injection Hs as Hs <-.
  cbv [mret st_ret] in Hret. injection Hret as Hr Hh. subst sorted h'.
  destruct (py_sort_returns key_lt key_lt_asym key_lt_not_above_trans _ _ Hs)
    as [Hperm Hsorted].
  split; [done|]. split; [rewrite <- Hsnd; by apply fmap_Permutation|].
  eapply (StronglySorted_fmap_on _ _
            (fun p => timestamp_of h p.2 = Some p.1)); [|by rewrite Hperm|done].
  intros p q Hp Hq (b & a & Hb & Ha & Hlt)%val_lt_atoms.
  exists a, b. by rewrite Hp, Hq, Ha, Hb.
Qed.

Lemma astimezone_utc_overflow (tz : tzinfo) (u : Z) :
  ~ representable tz u ->
  astimezone (DateTime u (Some 0)) tz = Raise OverflowError.
Proof.
  intros Hn. unfold astimezone, dt_add, fromutc, dt_add. cbn [tzoffset wall].
  replace (u + - 0) with u by lia.
  destruct (in_range u) eqn:Hu; [|done]. rewrite outcome_bind_ret.
  destruct (in_range (u + utcoffset tz u)) eqn:Hl; [|done].
  destruct Hn. by split.
Qed.

Section StatsReturns.
Variable strptime : string -> option Z.
Variable TIME_ZONE : string.
Implicit Types (h : heap) (x v dp : val) (tz : tzinfo) (s : string).

Lemma stats_loop_ret current_tz dps datapoints h result h' :
  stats_loop strptime current_tz dps datapoints h = (Ret result, h') ->
  result = datapoints ++ dps.
Proof.
  revert datapoints h. induction dps as [|dp rest IH]; intros datapoints h;
    cbn [stats_loop].
  - intros [= <- <-]. by rewrite app_nil_r.
  - intros (u & h1 & _ & Hrest)%st_bind_ret_inv.
    rewrite (IH _ _ Hrest). by rewrite <- app_assoc.
Qed.

Lemma localize_timestamp_ret tz x h h' :
  localize_timestamp strptime tz x h = (Ret tt, h') ->
  exists s u,
    timestamp_of h x = Some (VStr s) /\ strptime s = Some u
    /\ representable tz u
    /\ timestamp_of h' x = Some (VDate (local_time tz u))
    /\ forall y, y <> x -> timestamp_of h' y = timestamp_of h y.
Proof.
  intros Hrun. pose proof Hrun as Hrun'. unfold localize_timestamp in Hrun'.
  apply st_bind_ret_inv in Hrun' as (ts & h1 & Hts & Hrest).
  apply getitem_ret_timestamp in Hts as [Hts ->].
  apply st_bind_ret_inv in Hrest as (d1 & h1 & Hd1 & Hrest).
  unfold lift in Hd1. injection Hd1 as Hd1 <-.
  destruct ts as [[| | |s|]|]; try done. unfold py_strptime in Hd1.
  destruct (strptime s) as [u|] eqn:Hs; [|done]. injection Hd1 as <-.
  apply st_bind_ret_inv in Hrest as (d2 & h1 & Hd2 & Hrest).
  unfold lift in Hd2. injection Hd2 as <- <-.
  apply st_bind_ret_inv in Hrest as (d3 & h1 & Hd3 & _).
  unfold lift in Hd3. injection Hd3 as Hd3 <-.
  cbn [utc_localize tzoffset wall] in Hd3.
  assert (representable tz u) as Hu.
  { destruct (decide (in_range u = true)) as [H1|H1];
      [destruct (decide (in_range (u + utcoffset tz u) = true)) as [H2|H2]|];
      [by split|..];
      rewrite astimezone_utc_overflow in Hd3 by (by intros [? ?]); done. }
  exists s, u. split; [done|]. split; [done|]. split; [done|].
  destruct (localize_timestamp_ok strptime tz x s u h Hts Hs Hu)
    as (h'' & E & Hx & Hfr).
  rewrite Hrun in E. by injection E as <-.
Qed.

Lemma stats_loop_localized_ret tz dps datapoints h result h' :
  stats_loop strptime (Some tz) dps datapoints h = (Ret result, h') ->
  NoDup dps
  /\ Forall (fun x =>
               exists s u,
                 timestamp_of h x = Some (VStr s) /\ strptime s = Some u
                 /\ representable tz u
                 /\ timestamp_of h' x = Some (VDate (local_time tz u))) dps
  /\ forall y, y ∉ dps -> timestamp_of h' y = timestamp_of h y.
Proof.
  revert datapoints h. induction dps as [|dp rest IH]; intros datapoints h;
    cbn [stats_loop].
  - intros [= <- <-]. split; [constructor|]. split; [constructor|done].
  - intros ([] & h1 & Hdp & Hrest)%st_bind_ret_inv.
    apply localize_timestamp_ret in Hdp as (s & u & Hs & Hu & Hrep & Hdp & Hfr).
    destruct (IH _ _ Hrest) as (Hnd & Hall & Hfr').
    assert (dp ∉ rest) as Hnotin.
    { intros Hin. rewrite Forall_forall in Hall.
      destruct (Hall dp Hin) as (s' & u' & Hs' & _).
      unfold VStr, VDate in *. congruence. }
    split; [by constructor|]. split.
    + constructor.
      * exists s, u. rewrite (Hfr' dp Hnotin). by split_and!.
      * rewrite Forall_forall in Hall |- *. intros x Hx.
        destruct (Hall x Hx) as (s' & u' & Hs' & Hu' & Hrep' & Hx').
        exists s', u'. rewrite <- (Hfr x); [by split_and!|].
        intros ->. contradiction.
    + intros y Hy. apply not_elem_of_cons in Hy as [Hne Hy].
      rewrite (Hfr' y Hy). by apply Hfr.
Qed.

Lemma stats_to_list_no_zone h stats_dict result localize e :
  statistics_result h stats_dict result ->
  current_timezone TIME_ZONE localize = Raise e ->
  stats_to_list strptime TIME_ZONE stats_dict localize h
  = (Raise e, h ++ (shift_obj (length h) <$> h)).
Proof.
  intros (d0 & response & d1 & H0 & K0 & H1 & K1) Htz. unfold stats_to_list.
  rewrite (st_bind_ret _ _ h response h);
    [|by rewrite (getitem_dict _ _ _ _ H0), K0].
  rewrite (st_bind_ret _ _ h result h);
    [|by rewrite (getitem_dict _ _ _ _ H1), K1].
  rewrite (st_bind_ret _ _ h (shift_val (length h) result)
             (h ++ (shift_obj (length h) <$> h))); [|done].
  by rewrite Htz.
Qed.

(** What a call that returns has returned. *)
Lemma stats_to_list_ret h stats_dict items localize datapoints h' :
  send_statistics h stats_dict items ->
  stats_to_list strptime TIME_ZONE stats_dict localize h
  = (Ret datapoints, h') ->
  exists current_tz h1,
    current_timezone TIME_ZONE localize = Ret current_tz
    /\ stats_loop strptime current_tz (shift_val (length h) <$> items) []
         (h ++ (shift_obj (length h) <$> h))
       = (Ret (shift_val (length h) <$> items), h1)
    /\ sort_by_timestamp (shift_val (length h) <$> items) h1
       = (Ret datapoints, h').
Proof.
  intros Hshape Hrun.
  destruct (current_timezone TIME_ZONE localize) as [current_tz|e] eqn:Htz.
  - rewrite (stats_to_list_loop strptime TIME_ZONE h stats_dict items localize
               current_tz Hshape Htz) in Hrun.
    apply st_bind_ret_inv in Hrun as (dl & h1 & Hloop & Hsort).
    pose proof (stats_loop_ret _ _ _ _ _ _ Hloop) as Hdl. cbn in Hdl.
    subst dl. by exists current_tz, h1.
  - destruct Hshape as (result & d & sdp & Hres & _).
    by rewrite (stats_to_list_no_zone h stats_dict result localize e) in Hrun.
Qed.

(** C3.  For a send-statistics response whose "SendDataPoints" lists N
    datapoints, in any order: whenever [stats_to_list] returns, it
    returns N datapoints, the copies of the N it was given, in ascending
    order of their "Timestamp" as Python compares them (the strings when
    nothing was converted, the aware datetimes when a zone converted
    them).  And it does return when the timestamps are strings and, if
    there is a zone, the datapoints are distinct dicts whose timestamps
    [strptime] reads and the zone can show. *)
Theorem stats_to_list_sorted h stats_dict items localize :
  send_statistics h stats_dict items ->
  (forall datapoints h',
      stats_to_list strptime TIME_ZONE stats_dict localize h
      = (Ret datapoints, h') ->
      length datapoints = length items
      /\ datapoints ≡ₚ shift_val (length h) <$> items
      /\ StronglySorted (ascending h') datapoints)
  /\ (forall tss current_tz,
        timestamps h items tss ->
        current_timezone TIME_ZONE localize = Ret current_tz ->
        (forall tz, current_tz = Some tz ->
                    NoDup items /\ Forall (well_formed strptime tz) tss) ->
        exists datapoints h',
          stats_to_list strptime TIME_ZONE stats_dict localize h
          = (Ret datapoints, h')).
Proof.
  intros Hshape. split.
  - intros datapoints h' Hrun.
    destruct (stats_to_list_ret h stats_dict items localize datapoints h'
                Hshape Hrun) as (current_tz & h1 & _ & _ & Hsort).
    apply sort_by_timestamp_ret in Hsort as (-> & Hperm & Hsorted).
    split; [by rewrite Hperm, length_fmap|done].
  - intros tss current_tz Hts Htz Hok. destruct current_tz as [tz|].
    + destruct (Hok tz eq_refl) as [Hnd Hwf].
      destruct (stats_to_list_localized strptime TIME_ZONE h stats_dict items
                  tss localize tz)
        as (datapoints & h' & E & _); try done. by exists datapoints, h'.
    + destruct localize as [m|]; [|clear Htz].
      { unfold current_timezone in Htz. by destruct (timezone m TIME_ZONE). }
      destruct (stats_to_list_plain strptime TIME_ZONE h stats_dict items tss)
        as (datapoints & E & _); try done.
      by exists datapoints, (h ++ (shift_obj (length h) <$> h)).
Qed.

(** C6.  With a zone: whenever [stats_to_list] returns, every datapoint
    of the input had a timestamp string that [strptime] read, and the
    copy of the datapoint holds an aware datetime of the zone whose UTC
    instant is the instant that [strptime] read.  And it does return
    when the datapoints are distinct dicts whose timestamps [strptime]
    reads and the zone can show. *)
Theorem stats_to_list_lossless h stats_dict items localize tz :
  send_statistics h stats_dict items ->
  current_timezone TIME_ZONE localize = Ret (Some tz) ->
  (forall datapoints h',
      stats_to_list strptime TIME_ZONE stats_dict localize h
      = (Ret datapoints, h') ->
      Forall (fun x =>
                exists s u dt,
                  timestamp_of h x = Some (VStr s)
                  /\ strptime s = Some u
                  /\ timestamp_of h' (shift_val (length h) x)
                     = Some (VDate dt)
                  /\ tzoffset dt = Some (utcoffset tz u)
                  /\ utc_instant dt = Some u) items)
  /\ (forall tss,
        timestamps h items tss -> NoDup items ->
        Forall (well_formed strptime tz) tss ->
        exists datapoints h',
          stats_to_list strptime TIME_ZONE stats_dict localize h
          = (Ret datapoints, h')).
Proof.
  intros Hshape Htz. split.
  - intros datapoints h' Hrun.
    destruct (stats_to_list_ret h stats_dict items localize datapoints h'
                Hshape Hrun) as (current_tz & h1 & Htz' & Hloop & Hsort).
    rewrite Htz in Htz'. injection Htz' as <-.
    apply sort_by_timestamp_ret in Hsort as (-> & _ & _).
    apply stats_loop_localized_ret in Hloop as (_ & Hall & _).
    rewrite Forall_fmap in Hall. eapply Forall_impl; [exact Hall|].
    intros x (s & u & Hs & Hu & _ & Hx). cbn in Hs, Hx.
    exists s, u, (local_time tz u).
    split; [by apply timestamp_of_twin_inv|]. split; [done|].
    split; [done|]. split; [done|]. apply utc_instant_local.
  - intros tss Hts Hnd Hwf.
    destruct (stats_to_list_localized strptime TIME_ZONE h stats_dict items
                tss localize tz)
      as (datapoints & h' & E & _); try done. by exists datapoints, h'.
Qed.
End StatsReturns.

(** ** The statistics on samples *)

Lemma three_points_shape :
  send_statistics three_points (VRef 0) [VRef 4; VRef 5; VRef 6].
Proof.
  exists (VRef 2), {["SendDataPoints" := VRef 3]}, (VRef 3).
  split; [|split; [|split]].
  - exists {["GetSendStatisticsResponse" := VRef 1]}, (VRef 1),
      {["GetSendStatisticsResult" := VRef 2]}.
    split; [by exists 0%nat|]. split; [reflexivity|].
    split; [by exists 1%nat|reflexivity].
  - by exists 2%nat.
  - reflexivity.
  - by exists 3%nat.
Defined.

Lemma three_points_timestamps :
  timestamps three_points [VRef 4; VRef 5; VRef 6]
    three_timestamps.
Proof. repeat constructor. Defined.

Lemma three_points_well_formed :
  Forall (well_formed strptime (fixed_zone 3600))
    three_timestamps.
Proof.
  repeat constructor; eexists; (split; [vm_compute; reflexivity|]);
    split; vm_compute; reflexivity.
Defined.

Lemma three_points_distinct : NoDup [VRef 4; VRef 5; VRef 6].
Proof.
  apply (bool_decide_unpack (NoDup [VRef 4; VRef 5; VRef 6])).
  vm_compute. exact I.
Defined.

Example stats_to_list_three_points :
  (stats_to_list strptime "Etc/GMT-1" (VRef 0) (Some pytz) three_points).1
  = Ret [VRef 12; VRef 13; VRef 11].
Proof. vm_compute. reflexivity. Qed.

Example stats_to_list_three_points_timestamp :
  timestamp_of
    (stats_to_list strptime "Etc/GMT-1" (VRef 0) (Some pytz) three_points).2
    (VRef 12)
  = Some (VDate (DateTime (63471463200 + 3600) (Some 3600)))
  /\ strptime "2012-05-01T10:00:00Z" = Some 63471463200
  /\ timestamp_of
       (stats_to_list strptime "Etc/GMT-1" (VRef 0) (Some pytz) three_points).2
       (VRef 5)
     = Some (VStr "2012-05-01T10:00:00Z").
Proof. vm_compute. repeat split. Qed.

Example stats_to_list_overflow :
  strptime "9999-12-31T23:59:59Z" = Some dt_max
  /\ (stats_to_list strptime "Etc/GMT-1" (VRef 0) (Some pytz) last_second).1
     = Raise OverflowError.
Proof. vm_compute. split; reflexivity. Qed.

Lemma stats_to_list_sorted_witness :
  (length [VRef 12; VRef 13; VRef 11] = length [VRef 4; VRef 5; VRef 6]
   /\ [VRef 12; VRef 13; VRef 11]
      ≡ₚ shift_val (length three_points) <$> [VRef 4; VRef 5; VRef 6]
   /\ StronglySorted
        (ascending
           (stats_to_list strptime "Etc/GMT-1" (VRef 0) (Some pytz)
              three_points).2)
        [VRef 12; VRef 13; VRef 11])
  /\ exists datapoints h',
       stats_to_list strptime "Etc/GMT-1" (VRef 0) (Some pytz) three_points
       = (Ret datapoints, h').
Proof.
  pose proof (stats_to_list_sorted strptime "Etc/GMT-1" three_points (VRef 0)
                [VRef 4; VRef 5; VRef 6] (Some pytz) three_points_shape)
    as [Hreturned Hreturns].
  split.
  - apply Hreturned. vm_compute. reflexivity.
  - apply (Hreturns three_timestamps (Some (fixed_zone 3600))
             three_points_timestamps eq_refl).
    intros tz [= <-].
    split; [apply three_points_distinct|apply three_points_well_formed].
Defined.

Lemma stats_to_list_lossless_witness :
  Forall (fun x =>
            exists s u dt,
              timestamp_of three_points x = Some (VStr s)
              /\ strptime s = Some u
              /\ timestamp_of
                   (stats_to_list strptime "Etc/GMT-1" (VRef 0) (Some pytz)
                      three_points).2
                   (shift_val (length three_points) x)
                 = Some (VDate dt)
              /\ tzoffset dt = Some (utcoffset (fixed_zone 3600) u)
              /\ utc_instant dt = Some u)
    [VRef 4; VRef 5; VRef 6]
  /\ exists datapoints h',
       stats_to_list strptime "Etc/GMT-1" (VRef 0) (Some pytz) three_points
       = (Ret datapoints, h').
Proof.
  pose proof (stats_to_list_lossless strptime "Etc/GMT-1" three_points (VRef 0)
                [VRef 4; VRef 5; VRef 6] (Some pytz) (fixed_zone 3600)
                three_points_shape eq_refl)
    as [Hreturned Hreturns].
  split.
  - apply (Hreturned [VRef 12; VRef 13; VRef 11]). vm_compute. reflexivity.
  - apply (Hreturns three_timestamps three_points_timestamps
             three_points_distinct three_points_well_formed).
Defined.

Lemma garbage_point_result :
  statistics_result garbage_point (VRef 0) (VRef 2).
Proof.
  exists {["GetSendStatisticsResponse" := VRef 1]}, (VRef 1),
    {["GetSendStatisticsResult" := VRef 2]}.
  split; [by exists 0%nat|]. split; [reflexivity|].
  split; [by exists 1%nat|reflexivity].
Defined.

Lemma no_datapoints_result :
  statistics_result no_datapoints (VRef 0) (VRef 2).
Proof.
  exists {["GetSendStatisticsResponse" := VRef 1]}, (VRef 1),
    {["GetSendStatisticsResult" := VRef 2]}.
  split; [by exists 0%nat|]. split; [reflexivity|].
  split; [by exists 1%nat|reflexivity].
Defined.

(** Against C5 as stated: without [pytz] a timestamp that [strptime]
    rejects raises nothing and comes back as it was. *)
Lemma stats_to_list_garbage_passes :
  strptime "yesterday" = None
  /\ timestamp_of garbage_point (VRef 4) = Some (VStr "yesterday")
  /\ stats_to_list strptime "UTC" (VRef 0) None garbage_point
     = (Ret [VRef 9],
        garbage_point ++ (shift_obj (length garbage_point) <$> garbage_point)).
Proof. vm_compute. repeat split. Qed.

Lemma stats_to_list_errors_witness :
  stats_to_list strptime "UTC" (VRef 0) (Some pytz) no_datapoints
  = (Raise KeyError,
     no_datapoints ++ (shift_obj (length no_datapoints) <$> no_datapoints))
  /\ exists h',
       stats_to_list strptime "UTC" (VRef 0) (Some pytz) garbage_point
       = (Raise ValueError, h').
Proof.
  split.
  - apply (proj1 (stats_to_list_errors strptime "UTC" no_datapoints (VRef 0)
                    (VRef 2) ∅ (Some pytz) no_datapoints_result
                    ltac:(by exists 2%nat))
             (Some (fixed_zone 0)) eq_refl eq_refl).
  - apply (proj2 (stats_to_list_errors strptime "UTC" garbage_point (VRef 0)
                    (VRef 2) {["SendDataPoints" := VRef 3]} (Some pytz)
                    garbage_point_result ltac:(by exists 2%nat))
             (fixed_zone 0) (VRef 3) [VRef 4] ["yesterday"%string]
             eq_refl eq_refl ltac:(by exists 3%nat)).
    + apply (bool_decide_unpack (NoDup [VRef 4])). vm_compute. exact I.
    + repeat constructor.
    + constructor; [right; vm_compute; reflexivity|constructor].
    + constructor. vm_compute. reflexivity.
Defined.

Lemma garbage_point_shape : send_statistics garbage_point (VRef 0) [VRef 4].
Proof.
  exists (VRef 2), {["SendDataPoints" := VRef 3]}, (VRef 3).
  split; [apply garbage_point_result|].
  split; [by exists 2%nat|]. split; [reflexivity|by exists 3%nat].
Defined.

Lemma stats_to_list_unlocalized_witness :
  exists datapoints,
    stats_to_list strptime "UTC" (VRef 0) None garbage_point
    = (Ret datapoints,
       garbage_point ++ (shift_obj (length garbage_point) <$> garbage_point))
    /\ datapoints ≡ₚ [VRef 9]
    /\ timestamps
         (garbage_point ++ (shift_obj (length garbage_point) <$> garbage_point))
         [VRef 9] ["yesterday"%string].
Proof.
  apply (proj2 (stats_to_list_unlocalized strptime "UTC" (VRef 0) garbage_point)
           [VRef 4] ["yesterday"%string] garbage_point_shape).
  repeat constructor.
Defined.

(** ** The summary on samples *)

Lemma summed_nonneg : nonneg_fields int_of_string (summed "1" "0" "12" "3").
Proof.
  intros k Hk. unfold summary_fields in Hk.
  repeat (apply elem_of_cons in Hk as [->|Hk];
          [eexists; eexists; split; [reflexivity|];
           split; [vm_compute; reflexivity|lia]|]).
  by apply elem_of_nil in Hk.
Defined.

Lemma summed_strings b c d r : string_fields (summed b c d r).
Proof.
  intros k Hk. unfold summary_fields in Hk.
  repeat (apply elem_of_cons in Hk as [->|Hk]; [eexists; reflexivity|]).
  by apply elem_of_nil in Hk.
Defined.

Lemma sum_stats_nonneg_or_fails_witness :
  (exists summary : gmap string Z,
     sum_stats int_of_string [summed "1" "0" "12" "3"; summed "1" "0" "12" "3"]
     = Ret summary
     /\ forall k v, summary !! k = Some v -> 0 <= v)
  /\ sum_stats int_of_string [summed "1" "0" "12" "3"; summed "1" "x" "12" "3"]
     = Raise ValueError.
Proof.
  split.
  - apply (proj1 (sum_stats_nonneg_or_fails int_of_string _)).
    repeat constructor; apply summed_nonneg.
  - apply (proj2 (sum_stats_nonneg_or_fails int_of_string _)).
    + repeat constructor; apply summed_strings.
    + apply Exists_cons_tl, Exists_cons_hd.
      exists "Complaints"%string, "x"%string.
      split; [by repeat constructor|]. split; [reflexivity|].
      vm_compute. reflexivity.
Defined.

Example sum_stats_example :
  sum_stats int_of_string [summed "1" "0" "12" "3"; summed "2" "1" "30" "0"]
  = Ret (summary_dict (Totals 3 1 42 3)).
Proof. vm_compute. reflexivity. Qed.

(** ** The webhook on samples *)

Example json_loads_bounce_full :
  json_loads bounce_full = Some (PDict bounce_full_payload).
Proof. vm_compute. reflexivity. Qed.

(** Against C1 as stated: a "Bounce" whose "bounce" is [null] is valid
    JSON with that notificationType, and the view raises [AttributeError]
    instead of answering. *)
Lemma handle_bounce_null_details :
  json_loads bounce_null
  = Some (PDict (<["notificationType" := PStr "Bounce"]>
                   (<["bounce" := PNone]> ∅)))
  /\ handle_bounce json_loads unconfigured (WithBody bounce_null) []
     = (Raise AttributeError, []).
Proof. vm_compute. split; reflexivity. Qed.

Example handle_bounce_not_an_object :
  json_loads (json_text "[]") = Some (PList [])
  /\ handle_bounce json_loads unconfigured (WithBody (json_text "[]")) []
     = (Raise AttributeError, []).
Proof. vm_compute. split; reflexivity. Qed.

(** With the logging of an unconfigured project the record of the warning
    cannot be made, and the view raises instead of answering 400. *)
Example handle_bounce_other_type_unconfigured :
  handle_bounce json_loads unconfigured (WithBody other_type) []
  = (Raise KeyError, []).
Proof. vm_compute. reflexivity. Qed.

Example handle_bounce_full :
  handle_bounce json_loads unconfigured (WithBody bounce_full) []
  = (Ret HttpResponse,
     [bounce_received (PDict {["m" := PInt 1]}) (PDict bounce_details)]).
Proof. vm_compute. reflexivity. Qed.

Lemma handle_bounce_classifies_witness :
  (exists tr',
     handle_bounce json_loads silent (WithBody cut_short) []
     = (Ret HttpResponseBadRequest, tr')
     /\ signals tr' = signals [])
  /\ handle_bounce json_loads silent (WithRawPostData bounce_full) []
     = (Ret HttpResponse,
        [] ++ [bounce_received
                 (default PNone (bounce_full_payload !! "mail"))
                 (PDict bounce_details)])
  /\ handle_bounce json_loads silent (WithBody other_type) []
     = (Ret HttpResponseBadRequest, []).
Proof.
  split; [|split].
  - apply (proj1 (handle_bounce_classifies json_loads silent
                    (WithBody cut_short) [])).
    vm_compute. reflexivity.
  - apply (proj1 (proj2 (handle_bounce_classifies json_loads silent
                           (WithRawPostData bounce_full) []))
             bounce_full_payload bounce_details);
      vm_compute; reflexivity.
  - apply (proj2 (proj2 (handle_bounce_classifies json_loads silent
                           (WithBody other_type) []))
             (<["notificationType" := PStr "Other"]> ∅));
      vm_compute; reflexivity.
Defined.

(** Against C2 as stated: for a "Bounce" without "mail" the signal
    carries [None], which is not an empty dict. *)
Lemma handle_bounce_missing_mail_is_none :
  json_loads bounce_bare
  = Some (PDict (<["notificationType" := PStr "Bounce"]> ∅))
  /\ handle_bounce json_loads unconfigured (WithBody bounce_bare) []
     = (Ret HttpResponse, [bounce_received PNone (PDict ∅)])
  /\ PNone <> PDict ∅.
Proof. split; [|split]; [vm_compute; reflexivity..|discriminate]. Qed.

Lemma handle_bounce_missing_objects_witness :
  handle_bounce json_loads unconfigured (WithBody bounce_bare) []
  = (Ret HttpResponse, [] ++ [bounce_received PNone (PDict ∅)])
  /\ handle_bounce json_loads unconfigured (WithBody complaint_bare) []
     = (Ret HttpResponse, [] ++ [complaint_received PNone (PDict ∅)]).
Proof.
  split.
  - refine (proj1 (handle_bounce_missing_objects json_loads unconfigured
                     (WithBody bounce_bare) []
                     (<["notificationType" := PStr "Bounce"]> ∅) _ _) _ _);
      vm_compute; reflexivity.
  - refine (proj2 (handle_bounce_missing_objects json_loads unconfigured
                     (WithBody complaint_bare) []
                     (<["notificationType" := PStr "Complaint"]> ∅) _ _) _ _);
      vm_compute; reflexivity.
Defined.

(** * More properties *)

(** ** More on the webhook view *)

Lemma py_get_not_mapping x k dflt :
  is_mapping x = false -> py_get x k dflt = Raise AttributeError.
Proof. by destruct x. Qed.

#[local] Ltac nothing_new :=
  cbn; intros [= <- <-]; exists []; rewrite app_nil_r;
  split_and!; [reflexivity | intros [=] | reflexivity].

#[local] Ltac one_signal :=
  intros [= <- <-]; eexists [_];
  split_and!; [reflexivity | intros _; by eexists | done].

Section WebhookMore.
Variable json_loads : string -> option pyval.
Variable isEnabledFor : level -> bool.

(** X1.  A JSON object whose notificationType is "Complaint" and whose
    "complaint" is missing or an object is answered with 200 after exactly
    one [complaint_received], which carries the value under "mail" ([None]
    when there is none) and the complaint object with all it holds;
    nothing else of the payload, a "bounce" member included, matters.
    (The logger is not enabled for [INFO].) *)
Theorem handle_bounce_complaint_sent request tr d complaint_obj :
  json_loads (raw_json request) = Some (PDict d) ->
  d !! "notificationType" = Some (PStr "Complaint") ->
  default (PDict ∅) (d !! "complaint") = PDict complaint_obj ->
  isEnabledFor INFO = false ->
  handle_bounce json_loads isEnabledFor request tr
  = (Ret HttpResponse,
     tr ++ [complaint_received (default PNone (d !! "mail"))
              (PDict complaint_obj)]).
Proof. apply handle_bounce_complaint. Qed.

Lemma handle_bounce_trace request tr out tr' :
  handle_bounce json_loads isEnabledFor request tr = (out, tr') ->
  exists new,
    tr' = tr ++ new
    /\ (out = Ret HttpResponse ->
        exists s, signals new = [s] /\ last new = Some s)
    /\ (out <> Ret HttpResponse -> signals new = []).
Proof.
  unfold handle_bounce. fold (raw_json request).
  destruct (json_loads (raw_json request)) as [hook_data|].
  - destruct hook_data as [a|l|d]; [nothing_new..|].
    cbn [py_get]. unfold mbind at 1 2. unfold st_bind at 1 2. cbn [lift].
    destruct (py_eq_str _ "Bounce").
    + destruct (default (PDict ∅) (d !! "bounce")) as [a|l|b];
        [nothing_new..|].
      unfold mbind, st_bind, lift, logger_log, send. cbn [py_get clashes].
      cbn. destruct (isEnabledFor INFO); [nothing_new|one_signal].
    + destruct (py_eq_str _ "Complaint").
      * destruct (default (PDict ∅) (d !! "complaint")) as [a|l|b];
          [nothing_new..|].
        unfold mbind, st_bind, lift, logger_log, send. cbn [py_get clashes].
        cbn. destruct (isEnabledFor INFO); [nothing_new|one_signal].
      * unfold mbind, st_bind, lift, logger_log. cbn.
        destruct (isEnabledFor WARNING); nothing_new.
  - unfold mbind, st_bind, logger_log. cbn.
    destruct (isEnabledFor WARNING); [|nothing_new].
    intros [= <- <-]. eexists [_]. by split_and!.
Qed.

(** X2.  Whatever the request, the decoder and the configuration of
    the logger are: the view only adds to the trace; when it answers 200
    it has sent exactly one signal, and the signal is the last thing it
    did; when it answers 400 or raises it has sent no signal. *)
Theorem handle_bounce_one_signal request tr :
  exists new,
    (handle_bounce json_loads isEnabledFor request tr).2 = tr ++ new
    /\ ((handle_bounce json_loads isEnabledFor request tr).1
        = Ret HttpResponse ->
        exists s, signals new = [s] /\ last new = Some s)
    /\ ((handle_bounce json_loads isEnabledFor request tr).1
        <> Ret HttpResponse ->
        signals new = []).
Proof.
  destruct (handle_bounce json_loads isEnabledFor request tr)
    as [out tr'] eqn:E.
  apply (handle_bounce_trace _ _ _ _ E).
Qed.

(** X3.  The view does not check the shape of what it decodes.  A
    body that is valid JSON but no object (a string, a number, a list,
    null) makes it raise [AttributeError]; so does a "Bounce" whose
    "bounce", and a "Complaint" whose "complaint", is present and no
    object.  In each case nothing is logged and nothing is sent, whatever
    the configuration of the logger. *)
Theorem handle_bounce_not_a_mapping request tr hook_data :
  json_loads (raw_json request) = Some hook_data ->
  (is_mapping hook_data = false ->
   handle_bounce json_loads isEnabledFor request tr
   = (Raise AttributeError, tr))
  /\ (forall d,
        hook_data = PDict d ->
        py_eq_str (notification_type d) "Bounce" = true ->
        is_mapping (default (PDict ∅) (d !! "bounce")) = false ->
        handle_bounce json_loads isEnabledFor request tr
        = (Raise AttributeError, tr))
  /\ (forall d,
        hook_data = PDict d ->
        py_eq_str (notification_type d) "Bounce" = false ->
        py_eq_str (notification_type d) "Complaint" = true ->
        is_mapping (default (PDict ∅) (d !! "complaint")) = false ->
        handle_bounce json_loads isEnabledFor request tr
        = (Raise AttributeError, tr)).
Proof.
  intros H. unfold handle_bounce. fold (raw_json request). rewrite H.
  split_and!.
  - intros Hm. by rewrite (py_get_not_mapping hook_data "mail" PNone Hm).
  - intros d -> Hb Hm. cbn [py_get].
    unfold mbind at 1 2. unfold st_bind at 1 2. cbn [lift].
    fold (notification_type d). rewrite Hb.
    unfold mbind at 1. unfold st_bind at 1. cbn [lift].
    by rewrite (py_get_not_mapping _ "feedbackId" PNone Hm).
  - intros d -> Hb Hc Hm. cbn [py_get].
    unfold mbind at 1 2. unfold st_bind at 1 2. cbn [lift].
    fold (notification_type d). rewrite Hb, Hc.
    unfold mbind at 1. unfold st_bind at 1. cbn [lift].
    by rewrite (py_get_not_mapping _ "feedbackId" PNone Hm).
Qed.

(** X4.  The three calls of the logger that pass
    [extra={'message': hook_data}] cannot make their record: "message" is
    a key that [Logger.makeRecord] refuses.  So when the logger is enabled
    for [INFO], a well-formed "Bounce" or "Complaint" makes the view raise
    [KeyError] before the signal is sent; and when it is enabled for
    [WARNING], an object of any other notification type makes it raise
    [KeyError] instead of answering 400. *)
Theorem handle_bounce_record_clash request tr d :
  json_loads (raw_json request) = Some (PDict d) ->
  (py_eq_str (notification_type d) "Bounce" = true ->
   is_mapping (default (PDict ∅) (d !! "bounce")) = true ->
   isEnabledFor INFO = true ->
   handle_bounce json_loads isEnabledFor request tr = (Raise KeyError, tr))
  /\ (py_eq_str (notification_type d) "Bounce" = false ->
      py_eq_str (notification_type d) "Complaint" = true ->
      is_mapping (default (PDict ∅) (d !! "complaint")) = true ->
      isEnabledFor INFO = true ->
      handle_bounce json_loads isEnabledFor request tr = (Raise KeyError, tr))
  /\ (py_eq_str (notification_type d) "Bounce" = false ->
      py_eq_str (notification_type d) "Complaint" = false ->
      isEnabledFor WARNING = true ->
      handle_bounce json_loads isEnabledFor request tr = (Raise KeyError, tr)).
Proof.
  intros H. unfold handle_bounce, notification_type.
  fold (raw_json request). rewrite H. cbn [py_get].
  split_and!.
  - intros Hb Hm Hlog.
    unfold mbind at 1 2. unfold st_bind at 1 2. cbn [lift]. rewrite Hb.
    destruct (default (PDict ∅) (d !! "bounce")) as [| |b]; [done..|].
    unfold mbind, st_bind, lift, logger_log. cbn [py_get]. by rewrite Hlog.
  - intros Hb Hc Hm Hlog.
    unfold mbind at 1 2. unfold st_bind at 1 2. cbn [lift]. rewrite Hb, Hc.
    destruct (default (PDict ∅) (d !! "complaint")) as [| |b]; [done..|].
    unfold mbind, st_bind, lift, logger_log. cbn [py_get]. by rewrite Hlog.
  - intros Hb Hc Hlog.
    unfold mbind at 1 2. unfold st_bind at 1 2. cbn [lift]. rewrite Hb, Hc.
    unfold mbind, st_bind, logger_log. by rewrite Hlog.
Qed.
End WebhookMore.

Lemma handle_bounce_complaint_sent_witness :
  handle_bounce json_loads unconfigured (WithBody complaint_full) []
  = (Ret HttpResponse,
     [] ++ [complaint_received
              (default PNone (complaint_full_payload !! "mail"))
              (PDict complaint_details)]).
Proof.
  apply (handle_bounce_complaint_sent json_loads unconfigured
           (WithBody complaint_full) [] complaint_full_payload
           complaint_details);
    vm_compute; reflexivity.
Defined.

Lemma handle_bounce_not_a_mapping_witness :
  handle_bounce json_loads unconfigured (WithBody only_a_string) []
  = (Raise AttributeError, [])
  /\ handle_bounce json_loads debugging (WithBody bounce_null) []
     = (Raise AttributeError, [])
  /\ handle_bounce json_loads debugging (WithRawPostData complaint_list) []
     = (Raise AttributeError, []).
Proof.
  split; [|split].
  - apply (proj1 (handle_bounce_not_a_mapping json_loads unconfigured
                    (WithBody only_a_string) [] (PStr "Bounce")
                    ltac:(vm_compute; reflexivity)));
      reflexivity.
  - apply (proj1 (proj2 (handle_bounce_not_a_mapping json_loads debugging
                           (WithBody bounce_null) []
                           (PDict bounce_null_payload)
                           ltac:(vm_compute; reflexivity)))
             bounce_null_payload);
      vm_compute; reflexivity.
  - apply (proj2 (proj2 (handle_bounce_not_a_mapping json_loads debugging
                           (WithRawPostData complaint_list) []
                           (PDict complaint_list_payload)
                           ltac:(vm_compute; reflexivity)))
             complaint_list_payload);
      vm_compute; reflexivity.
Defined.

Lemma handle_bounce_record_clash_witness :
  handle_bounce json_loads debugging (WithBody bounce_full) []
  = (Raise KeyError, [])
  /\ handle_bounce json_loads debugging (WithBody complaint_full) []
     = (Raise KeyError, [])
  /\ handle_bounce json_loads unconfigured (WithBody other_type) []
     = (Raise KeyError, []).
Proof.
  split; [|split].
  - apply (proj1 (handle_bounce_record_clash json_loads debugging
                    (WithBody bounce_full) [] bounce_full_payload
                    ltac:(vm_compute; reflexivity)));
      vm_compute; reflexivity.
  - apply (proj1 (proj2 (handle_bounce_record_clash json_loads debugging
                           (WithBody complaint_full) []
                           complaint_full_payload
                           ltac:(vm_compute; reflexivity))));
      vm_compute; reflexivity.
  - apply (proj2 (proj2 (handle_bounce_record_clash json_loads unconfigured
                           (WithBody other_type) []
                           other_type_payload
                           ltac:(vm_compute; reflexivity))));
      vm_compute; reflexivity.
Defined.

(** ** More on the read-only helpers *)

(** *** The quota *)

Lemma py_getitem_ret x k v :
  py_getitem x k = Ret v <-> exists d, x = PDict d /\ d !! k = Some v.
Proof.
  split.
  - destruct x as [a|l|d]; [done..|]. cbn. destruct (d !! k) eqn:E; [|done].
    intros [= ->]. by exists d.
  - intros (d & -> & H). cbn. by rewrite H.
Qed.

Lemma py_getitem_key_error x k :
  py_getitem x k = Raise KeyError <-> lacks_field x k.
Proof.
  split.
  - destruct x as [a|l|d]; [done..|]. cbn. destruct (d !! k) eqn:E; [done|].
    intros _. by exists d.
  - intros (d & -> & H). cbn. by rewrite H.
Qed.

Lemma py_getitem_type_error x k :
  py_getitem x k = Raise TypeError <-> is_mapping x = false.
Proof.
  destruct x as [a|l|d]; cbn; [done..|].
  destruct (d !! k); split; done.
Qed.

(** X5.  [quota_parse] returns a value exactly when its argument is a
    dict that leads through "GetSendQuotaResponse" to a dict with a
    "GetSendQuotaResult", and then it returns what is stored there,
    unchanged.  It raises [KeyError] exactly when one of the two dicts
    lacks its key, [TypeError] exactly when the argument or the value
    under the first key is no dict, and nothing else. *)
Theorem quota_parse_envelope (quota_dict : pyval) :
  (forall quota,
     quota_parse quota_dict = Ret quota
     <-> exists d0 d1,
           quota_dict = PDict d0
           /\ d0 !! "GetSendQuotaResponse" = Some (PDict d1)
           /\ d1 !! "GetSendQuotaResult" = Some quota)
  /\ (quota_parse quota_dict = Raise KeyError
      <-> lacks_field quota_dict "GetSendQuotaResponse"
          \/ exists d0 r,
               quota_dict = PDict d0
               /\ d0 !! "GetSendQuotaResponse" = Some r
               /\ lacks_field r "GetSendQuotaResult")
  /\ (quota_parse quota_dict = Raise TypeError
      <-> is_mapping quota_dict = false
          \/ exists d0 r,
               quota_dict = PDict d0
               /\ d0 !! "GetSendQuotaResponse" = Some r
               /\ is_mapping r = false)
  /\ (forall e,
        quota_parse quota_dict = Raise e -> e = KeyError \/ e = TypeError).
Proof.
  unfold quota_parse. split_and!.
  - intros quota. split.
    + destruct (py_getitem quota_dict _) as [r|e] eqn:E0; [|done].
      rewrite outcome_bind_ret. intros E1.
      apply py_getitem_ret in E0 as (d0 & -> & H0).
      apply py_getitem_ret in E1 as (d1 & -> & H1). by exists d0, d1.
    + intros (d0 & d1 & -> & H0 & H1). cbn. rewrite H0. cbn. by rewrite H1.
  - split.
    + destruct (py_getitem quota_dict _) as [r|e] eqn:E0.
      * rewrite outcome_bind_ret. intros E1. right.
        apply py_getitem_ret in E0 as (d0 & -> & H0).
        apply py_getitem_key_error in E1. by exists d0, r.
      * intros [= ->]. left. by apply py_getitem_key_error.
    + intros [H|(d0 & r & -> & H0 & H1)].
      * apply py_getitem_key_error in H. by rewrite H.
      * cbn. rewrite H0. cbn [of_option]. rewrite outcome_bind_ret.
        by apply py_getitem_key_error.
  - split.
    + destruct (py_getitem quota_dict _) as [r|e] eqn:E0.
      * rewrite outcome_bind_ret. intros E1. right.
        apply py_getitem_ret in E0 as (d0 & -> & H0).
        apply py_getitem_type_error in E1. by exists d0, r.
      * intros [= ->]. left. by apply py_getitem_type_error in E0.
    + intros [H|(d0 & r & -> & H0 & H1)].
      * apply (py_getitem_type_error _ "GetSendQuotaResponse") in H.
        by rewrite H.
      * cbn. rewrite H0. cbn [of_option]. rewrite outcome_bind_ret.
        by apply py_getitem_type_error.
  - intros e. destruct quota_dict as [a|l|d0]; cbn; [intros [= <-]; tauto..|].
    destruct (d0 !! _) as [r|]; cbn; [|intros [= <-]; tauto].
    destruct r as [a|l|d1]; cbn; [intros [= <-]; tauto..|].
    destruct (d1 !! _); cbn; [done|intros [= <-]; tauto].
Qed.

(** *** The verified addresses *)

#[local] Instance string_leb_antisym :
  AntiSymm eq (fun s t => String.leb s t = true).
Proof. intros s t. apply String.leb_antisym. Qed.

Lemma isort_strings_perm (l1 l2 : list string) :
  l1 ≡ₚ l2 -> isort String.ltb l1 = isort String.ltb l2.
Proof.
  intros H.
  apply (StronglySorted_unique (fun s t => String.leb s t = true));
    [apply isort_strings_sorted..|].
  by rewrite !isort_perm.
Qed.

Lemma emails_parse_addresses emails_dict emails :
  verified_addresses emails_dict emails ->
  emails_parse emails_dict = Ret (PStr <$> isort String.ltb emails).
Proof.
  intros (d0 & d1 & d2 & -> & H0 & H1 & H2).
  unfold emails_parse. cbn [py_getitem]. rewrite H0. cbn [of_option].
  rewrite outcome_bind_ret. cbn [py_getitem]. rewrite H1. cbn [of_option].
  rewrite outcome_bind_ret. cbn [py_getitem]. rewrite H2. cbn [of_option].
  rewrite outcome_bind_ret. cbn [py_iter]. rewrite outcome_bind_ret.
  apply py_sort_fmap, py_lt_strings.
Qed.

(** X6.  The list that [emails_parse] returns does not depend on the
    order in which the response lists the addresses: two responses whose
    lists of strings are permutations of each other give the same list. *)
Theorem emails_parse_order_independent emails_dict emails_dict'
    (emails emails' : list string) :
  verified_addresses emails_dict emails ->
  verified_addresses emails_dict' emails' ->
  emails ≡ₚ emails' ->
  emails_parse emails_dict = emails_parse emails_dict'
  /\ exists sorted, emails_parse emails_dict = Ret sorted.
Proof.
  intros H H' Hp.
  rewrite (emails_parse_addresses _ _ H), (emails_parse_addresses _ _ H').
  rewrite (isort_strings_perm _ _ Hp). split; [done|by eexists].
Qed.

(** *** The summary *)

Lemma totals_add_comm (s t : totals) : totals_add s t = totals_add t s.
Proof. unfold totals_add. f_equal; lia. Qed.

Section SummaryMore.
Variable int_of_string : string -> option Z.

Lemma sum_stats_step_swap t x y t1 t2 :
  sum_stats_step int_of_string t y = Ret t1 ->
  sum_stats_step int_of_string t1 x = Ret t2 ->
  exists t1',
    sum_stats_step int_of_string t x = Ret t1'
    /\ sum_stats_step int_of_string t1' y = Ret t2.
Proof.
  rewrite (sum_stats_step_add _ t y), (sum_stats_step_add _ t1 x),
    (sum_stats_step_add _ t x).
  destruct (sum_stats_step int_of_string totals_zero y) as [ry|] eqn:Ey;
    [|done].
  destruct (sum_stats_step int_of_string totals_zero x) as [rx|]; [|done].
  rewrite !outcome_bind_ret. intros [= <-] [= <-].
  eexists. split; [reflexivity|].
  rewrite (sum_stats_step_add _ _ y), Ey, outcome_bind_ret. f_equal.
  rewrite !totals_add_assoc. f_equal. apply totals_add_comm.
Qed.

Lemma sum_stats_loop_perm t t' a b :
  a ≡ₚ b ->
  sum_stats_loop int_of_string t a = Ret t' ->
  sum_stats_loop int_of_string t b = Ret t'.
Proof.
  intros Hp. revert t t'.
  induction Hp as [|x a b _ IH|x y a|a b c _ IH1 _ IH2]; intros t t'.
  - done.
  - cbn [sum_stats_loop].
    destruct (sum_stats_step int_of_string t x) as [t1|]; [|done].
    rewrite !outcome_bind_ret. apply IH.
  - cbn [sum_stats_loop].
    destruct (sum_stats_step int_of_string t y) as [t1|] eqn:Ey; [|done].
    rewrite outcome_bind_ret.
    destruct (sum_stats_step int_of_string t1 x) as [t2|] eqn:Ex; [|done].
    rewrite outcome_bind_ret.
    destruct (sum_stats_step_swap _ _ _ _ _ Ey Ex) as (t1' & -> & E).
    by rewrite outcome_bind_ret, E, outcome_bind_ret.
  - intros H. by apply IH2, IH1.
Qed.

(** X7.  The summary does not depend on the order of the datapoints:
    when [sum_stats] returns a summary for a sequence, it returns the
    same summary for every permutation of the sequence. *)
Theorem sum_stats_order_independent (a b : list pyval)
    (summary : gmap string Z) :
  a ≡ₚ b ->
  sum_stats int_of_string a = Ret summary ->
  sum_stats int_of_string b = Ret summary.
Proof.
  intros Hp. unfold sum_stats.
  destruct (sum_stats_loop int_of_string totals_zero a) as [t|] eqn:E;
    [|done].
  by rewrite (sum_stats_loop_perm _ _ _ _ Hp E).
Qed.

Lemma sum_stats_step_reads t dp row :
  reads_as int_of_string dp row ->
  sum_stats_step int_of_string t dp = Ret (totals_add t row).
Proof.
  intros (b & c & d & r & F1 & P1 & F2 & P2 & F3 & P3 & F4 & P4).
  unfold sum_stats_step.
  by rewrite (int_field_string _ _ _ _ F1), (int_field_string _ _ _ _ F2),
    (int_field_string _ _ _ _ F3), (int_field_string _ _ _ _ F4),
    P1, P2, P3, P4.
Qed.

Lemma sum_stats_loop_reads t stats_data rows :
  Forall2 (reads_as int_of_string) stats_data rows ->
  sum_stats_loop int_of_string t stats_data
  = Ret (totals_add t
           (Totals (total (t_bounces <$> rows))
                   (total (t_complaints <$> rows))
                   (total (t_delivery_attempts <$> rows))
                   (total (t_rejects <$> rows)))).
Proof.
  intros Hall. revert t.
  induction Hall as [|dp row rest rows Hdp _ IH]; intros t.
  - cbn. f_equal. apply symmetry, totals_add_zero_r.
  - cbn [sum_stats_loop]. rewrite (sum_stats_step_reads _ _ _ Hdp).
    rewrite outcome_bind_ret, IH. f_equal.
    rewrite totals_add_assoc. f_equal.
Qed.

(** X8.  When the four fields of every datapoint are strings that
    [int] reads, each field of the summary that [sum_stats] returns is
    the sum of the numbers read in that field, negative ones included. *)
Theorem sum_stats_totals (stats_data : list pyval) (rows : list totals) :
  Forall2 (reads_as int_of_string) stats_data rows ->
  sum_stats int_of_string stats_data = Ret (summary_of rows).
Proof.
  intros Hall. unfold sum_stats.
  rewrite (sum_stats_loop_reads _ _ _ Hall), outcome_bind_ret.
  unfold summary_dict, totals_add; cbn. reflexivity.
Qed.

Lemma int_field_missing dp k :
  lacks_field dp k -> int_field int_of_string dp k = Raise KeyError.
Proof.
  intros (d & -> & H). unfold int_field. cbn. by rewrite H.
Qed.

Lemma sum_stats_step_missing t dp :
  readable_or_missing int_of_string dp ->
  (missing_field dp /\ sum_stats_step int_of_string t dp = Raise KeyError)
  \/ (~ missing_field dp
      /\ exists t', sum_stats_step int_of_string t dp = Ret t').
Proof.
  intros Hdp. unfold sum_stats_step.
  assert (Hin : forall k, k ∈ summary_fields ->
                  lacks_field dp k /\ int_field int_of_string dp k
                                     = Raise KeyError
                  \/ ~ lacks_field dp k
                     /\ exists n, int_field int_of_string dp k = Ret n).
  { intros k Hk. destruct (Hdp k Hk) as [H|(s & n & F & P)].
    - left. split; [done|]. by apply int_field_missing.
    - right. split.
      + intros (d & -> & H). unfold field_is in F. cbn in F.
        by rewrite H in F.
      + exists n. by rewrite (int_field_string _ _ _ _ F), P. }
  destruct (Hin "Bounces"%string) as [[L1 ->]|[L1 [n1 ->]]];
    [by repeat constructor| |].
  { left. split; [|done]. eexists. split; [|done]. by repeat constructor. }
  destruct (Hin "Complaints"%string) as [[L2 ->]|[L2 [n2 ->]]];
    [by repeat constructor| |].
  { left. split; [|done]. eexists. split; [|done]. by repeat constructor. }
  destruct (Hin "DeliveryAttempts"%string) as [[L3 ->]|[L3 [n3 ->]]];
    [by repeat constructor| |].
  { left. split; [|done]. eexists. split; [|done]. by repeat constructor. }
  destruct (Hin "Rejects"%string) as [[L4 ->]|[L4 [n4 ->]]];
    [by repeat constructor| |].
  { left. split; [|done]. eexists. split; [|done]. by repeat constructor. }
  right. split; [|by eexists].
  intros (k & Hk & L). unfold summary_fields in Hk.
  repeat (apply elem_of_cons in Hk as [->|Hk]; [done|]).
  by apply elem_of_nil in Hk.
Qed.

Lemma sum_stats_loop_missing t stats_data :
  Forall (readable_or_missing int_of_string) stats_data ->
  Exists missing_field stats_data ->
  sum_stats_loop int_of_string t stats_data = Raise KeyError.
Proof.
  intros Hall. revert t.
  induction Hall as [|dp rest Hdp _ IH]; intros t Hbad.
  - by apply Exists_nil in Hbad.
  - cbn [sum_stats_loop].
    destruct (sum_stats_step_missing t dp Hdp) as [[_ ->]|[Hgood [t' ->]]];
      [done|].
    rewrite outcome_bind_ret. apply IH.
    apply Exists_cons in Hbad as [?|?]; [contradiction|done].
Qed.

(** X9.  When every field of every datapoint is missing or a string
    that [int] reads, and a field is missing in some datapoint,
    [sum_stats] raises [KeyError] and returns no summary. *)
Theorem sum_stats_missing_field (stats_data : list pyval) :
  Forall (readable_or_missing int_of_string) stats_data ->
  Exists missing_field stats_data ->
  sum_stats int_of_string stats_data = Raise KeyError.
Proof.
  intros Hall Hbad. unfold sum_stats.
  by rewrite (sum_stats_loop_missing _ _ Hall Hbad).
Qed.
End SummaryMore.

(** *** The read-only helpers on samples *)

Lemma emails_parse_order_independent_witness :
  emails_parse (PDict emails_example) = emails_parse (PDict emails_shuffled)
  /\ exists sorted, emails_parse (PDict emails_example) = Ret sorted.
Proof.
  apply (emails_parse_order_independent _ _
           ["b@x"; "a@x"; "b@x"]%string ["b@x"; "b@x"; "a@x"]%string).
  - eexists _, _, _. split_and!; reflexivity.
  - eexists _, _, _. split_and!; reflexivity.
  - apply perm_skip, perm_swap.
Defined.

Lemma sum_stats_order_independent_witness :
  sum_stats int_of_string [summed "2" "1" "5" "0"; summed "1" "0" "12" "3"]
  = Ret (summary_dict (Totals 3 1 17 3)).
Proof.
  apply (sum_stats_order_independent int_of_string
           [summed "1" "0" "12" "3"; summed "2" "1" "5" "0"]).
  - apply perm_swap.
  - vm_compute. reflexivity.
Defined.

Lemma summed_reads_as :
  reads_as int_of_string (summed "1" "0" "12" "3") (Totals 1 0 12 3)
  /\ reads_as int_of_string (summed "2" "1" "5" "0") (Totals 2 1 5 0).
Proof.
  split; eexists _, _, _, _; split_and!; vm_compute; reflexivity.
Defined.

Lemma sum_stats_totals_witness :
  sum_stats int_of_string [summed "1" "0" "12" "3"; summed "2" "1" "5" "0"]
  = Ret (summary_of [Totals 1 0 12 3; Totals 2 1 5 0]).
Proof.
  apply (sum_stats_totals int_of_string _
           [Totals 1 0 12 3; Totals 2 1 5 0]).
  repeat constructor; apply summed_reads_as.
Defined.

Lemma summed_readable b c d r :
  (exists n, int_of_string b = Some n) ->
  (exists n, int_of_string c = Some n) ->
  (exists n, int_of_string d = Some n) ->
  (exists n, int_of_string r = Some n) ->
  readable_or_missing int_of_string (summed b c d r).
Proof.
  intros [n1 P1] [n2 P2] [n3 P3] [n4 P4] k Hk. unfold summary_fields in Hk.
  right.
  repeat (apply elem_of_cons in Hk as [->|Hk];
          [eexists _, _; split; [reflexivity|eassumption]|]).
  by apply elem_of_nil in Hk.
Defined.

Lemma summed_short_readable :
  readable_or_missing int_of_string (summed_short "1" "0" "12")
  /\ missing_field (summed_short "1" "0" "12").
Proof.
  split.
  - intros k Hk. unfold summary_fields in Hk.
    repeat (apply elem_of_cons in Hk as [->|Hk];
            [first [right; eexists _, _; split; vm_compute; reflexivity
                   |left; eexists; split; vm_compute; reflexivity]|]).
    by apply elem_of_nil in Hk.
  - exists "Rejects"%string. split; [by repeat constructor|].
    eexists. split; vm_compute; reflexivity.
Defined.

Lemma sum_stats_missing_field_witness :
  sum_stats int_of_string [summed "1" "0" "12" "3"; summed_short "1" "0" "12"]
  = Raise KeyError.
Proof.
  apply (sum_stats_missing_field int_of_string).
  - constructor; [|constructor; [apply summed_short_readable|constructor]].
    apply summed_readable; eexists; vm_compute; reflexivity.
  - apply Exists_cons_tl, Exists_cons_hd, summed_short_readable.
Defined.

(** ** More on the statistics normalizer *)

(** *** Only timestamps are assigned *)

Lemma same_but_timestamp_refl o : same_but_timestamp o o.
Proof. by destruct o. Qed.

Lemma same_but_timestamp_trans o1 o2 o3 :
  same_but_timestamp o1 o2 -> same_but_timestamp o2 o3 ->
  same_but_timestamp o1 o3.
Proof.
  destruct o1, o2, o3; simpl; try done.
  - intros H1 H2 k Hk. by rewrite H2, H1.
  - congruence.
Qed.

Lemma same_but_timestamp_all_refl (h : heap) : Forall2 same_but_timestamp h h.
Proof. apply Forall_Forall2_diag, Forall_true, same_but_timestamp_refl. Qed.

Lemma same_but_timestamp_all_trans (h1 h2 h3 : heap) :
  Forall2 same_but_timestamp h1 h2 -> Forall2 same_but_timestamp h2 h3 ->
  Forall2 same_but_timestamp h1 h3.
Proof.
  intros H12. revert h3.
  induction H12 as [|o1 o2 h1 h2 Ho _ IH]; intros h3 H23.
  - by apply Forall2_nil_inv_l in H23 as ->.
  - apply Forall2_cons_inv_l in H23 as (o3 & h3' & Ho' & H23 & ->).
    constructor; [by eapply same_but_timestamp_trans|by apply IH].
Qed.

Lemma setitem_timestamp_only (h : heap) (x v : val) :
  Forall2 same_but_timestamp h (setitem x "Timestamp" v h).2.
Proof.
  unfold setitem. destruct x as [a|l]; [apply same_but_timestamp_all_refl|].
  destruct (h !! l) as [[d|vs]|] eqn:E; try apply same_but_timestamp_all_refl.
  simpl. rewrite <- (list_insert_id h l (ODict d)) at 1 by done.
  apply Forall2_insert; [apply same_but_timestamp_all_refl|].
  intros k Hk. by rewrite lookup_insert_ne.
Qed.

Section TimestampsOnly.
Variable strptime : string -> option Z.
Variable TIME_ZONE : string.
Implicit Types (h : heap) (x v dp : val) (tz : tzinfo) (s : string).

Lemma localize_timestamp_only tz dp h :
  Forall2 same_but_timestamp h (localize_timestamp strptime tz dp h).2.
Proof.
  unfold localize_timestamp, mbind, st_bind, lift.
  pose proof (getitem_state dp "Timestamp" h) as Hs.
  destruct (getitem dp "Timestamp" h) as [[ts|e] h1]; simpl in Hs; subst h1;
    [|apply same_but_timestamp_all_refl].
  destruct (py_strptime strptime ts) as [d1|e];
    [|apply same_but_timestamp_all_refl].
  destruct (utc_localize d1) as [d2|e]; [|apply same_but_timestamp_all_refl].
  destruct (astimezone d2 tz) as [d3|e]; [|apply same_but_timestamp_all_refl].
  destruct (normalize tz d3) as [d4|e]; [|apply same_but_timestamp_all_refl].
  apply setitem_timestamp_only.
Qed.

Lemma stats_loop_timestamps_only current_tz dps datapoints h :
  Forall2 same_but_timestamp h
    (stats_loop strptime current_tz dps datapoints h).2.
Proof.
  revert datapoints h. induction dps as [|dp rest IH]; intros datapoints h.
  - apply same_but_timestamp_all_refl.
  - cbn [stats_loop]. unfold mbind, st_bind. destruct current_tz as [tz|].
    + pose proof (localize_timestamp_only tz dp h) as H1.
      destruct (localize_timestamp strptime tz dp h) as [[[]|e] h1];
        simpl in H1; [|done].
      eapply same_but_timestamp_all_trans; [exact H1|apply IH].
    + simpl. apply IH.
Qed.

Lemma stats_to_list_same_but_timestamps h stats_dict result localize :
  statistics_result h stats_dict result ->
  Forall2 same_but_timestamp (h ++ (shift_obj (length h) <$> h))
    (stats_to_list strptime TIME_ZONE stats_dict localize h).2.
Proof.
  intros Hres.
  destruct (current_timezone TIME_ZONE localize) as [current_tz|e] eqn:Htz.
  - rewrite (stats_to_list_result strptime TIME_ZONE h stats_dict result
               localize current_tz Hres Htz).
    set (h1 := h ++ (shift_obj (length h) <$> h)).
    apply st_bind_state; [rewrite getitem_state;
                          apply same_but_timestamp_all_refl|].
    intros sdp. rewrite getitem_state.
    apply st_bind_state; [rewrite iter_state;
                          apply same_but_timestamp_all_refl|].
    intros dps. rewrite iter_state.
    apply st_bind_state; [apply stats_loop_timestamps_only|].
    intros datapoints. rewrite sort_by_timestamp_state.
    apply stats_loop_timestamps_only.
  - rewrite (stats_to_list_no_zone strptime TIME_ZONE h stats_dict result
               localize e Hres Htz).
    apply same_but_timestamp_all_refl.
Qed.

(** X10.  For a response with the two envelope keys, and whether the
    call returns or raises: the store after [stats_to_list] is the store
    before it followed by the copy, but for what the dicts of the copy
    have under "Timestamp".  No object is added besides the copy, no list
    changes, and every other key of every dict, the four counters among
    them, has the value it had. *)
Theorem stats_to_list_timestamps_only h stats_dict result localize :
  statistics_result h stats_dict result ->
  Forall2 same_but_timestamp (h ++ (shift_obj (length h) <$> h))
    (stats_to_list strptime TIME_ZONE stats_dict localize h).2.
Proof. apply stats_to_list_same_but_timestamps. Qed.

(** *** The datapoints returned are new objects *)

Lemma decorate_ret_dicts h h' (xs : list val) keyed :
  decorate xs h = (Ret keyed, h') ->
  Forall (fun x => exists d, is_dict h x d) xs.
Proof.
  intros (-> & Hsnd & Hall)%decorate_ret. rewrite <- Hsnd.
  apply Forall_fmap. eapply Forall_impl; [exact Hall|].
  intros [k x]. simpl. unfold timestamp_of. destruct x as [a|l]; [done|].
  destruct (h !! l) as [[d|vs]|] eqn:E; try done. intros _.
  exists d, l. done.
Qed.

(** X11.  Whatever the arguments and the store are: every datapoint
    that [stats_to_list] returns is a dict that the call has created.
    None of them is an object of the caller. *)
Theorem stats_to_list_fresh h stats_dict localize datapoints h' :
  stats_to_list strptime TIME_ZONE stats_dict localize h
  = (Ret datapoints, h') ->
  Forall (fresh_dict (length h) h') datapoints.
Proof.
  unfold stats_to_list.
  intros (response & h1 & E0 & Hrun)%st_bind_ret_inv.
  pose proof (getitem_state stats_dict "GetSendStatisticsResponse" h) as Hs.
  rewrite E0 in Hs. simpl in Hs. subst h1.
  apply st_bind_ret_inv in Hrun as (result & h1 & E1 & Hrun).
  pose proof (getitem_state response "GetSendStatisticsResult" h) as Hs.
  rewrite E1 in Hs. simpl in Hs. subst h1.
  apply st_bind_ret_inv in Hrun as (result' & h1 & E2 & Hrun).
  unfold deepcopy in E2. injection E2 as <- <-.
  set (n := length h) in *. set (h1 := h ++ (shift_obj n <$> h)) in *.
  assert (closed_behind n h1) as Hc by apply deepcopy_closed.
  apply st_bind_ret_inv in Hrun as (current_tz & h2 & E3 & Hrun).
  unfold lift in E3. injection E3 as E3 <-.
  apply st_bind_ret_inv in Hrun as (sdp & h2 & E4 & Hrun).
  pose proof (getitem_state (shift_val n result) "SendDataPoints" h1) as Hs.
  rewrite E4 in Hs. simpl in Hs. subst h2.
  assert (behind n sdp) as Hsdp
    by (eapply getitem_behind; [exact Hc|apply behind_shift|exact E4]).
  apply st_bind_ret_inv in Hrun as (dps & h2 & E5 & Hrun).
  pose proof (iter_state sdp h1) as Hs.
  rewrite E5 in Hs. simpl in Hs. subst h2.
  assert (Forall (behind n) dps) as Hdps by (by eapply iter_behind).
  apply st_bind_ret_inv in Hrun as (dl & h2 & E6 & Hrun).
  pose proof (stats_loop_ret _ _ _ _ _ _ _ E6) as Hdl. cbn in Hdl. subst dl.
  pose proof Hrun as Hsort.
  apply sort_by_timestamp_ret in Hsort as (-> & Hperm & _).
  unfold sort_by_timestamp in Hrun.
  apply st_bind_ret_inv in Hrun as (keyed & h3 & E7 & _).
  apply decorate_ret_dicts in E7.
  rewrite Hperm. rewrite Forall_forall in E7, Hdps |- *.
  intros x Hx. destruct (E7 x Hx) as (d & l & -> & Hl).
  exists l, d. split; [done|]. split; [|done]. apply (Hdps _ Hx).
Qed.

(** *** Errors before the loop *)

(** X12.  When [pytz] does not know [settings.TIME_ZONE],
    [stats_to_list] raises [UnknownTimeZoneError] for every response with
    the two envelope keys, whether or not the result has datapoints and
    whatever they are: the zone is looked up after the copy is made and
    before "SendDataPoints" is read. *)
Theorem stats_to_list_unknown_zone h stats_dict result m :
  statistics_result h stats_dict result ->
  timezone m TIME_ZONE = None ->
  stats_to_list strptime TIME_ZONE stats_dict (Some m) h
  = (Raise UnknownTimeZoneError, h ++ (shift_obj (length h) <$> h)).
Proof.
  intros Hres Hm. apply (stats_to_list_no_zone _ _ _ _ result); [done|].
  unfold current_timezone. by rewrite Hm.
Qed.

(** X13.  When the response is a dict without
    "GetSendStatisticsResponse", or the dict under that key has no
    "GetSendStatisticsResult", [stats_to_list] raises [KeyError] and the
    store is as it was: no copy has been made. *)
Theorem stats_to_list_no_envelope h stats_dict d0 localize :
  is_dict h stats_dict d0 ->
  (d0 !! "GetSendStatisticsResponse" = None ->
   stats_to_list strptime TIME_ZONE stats_dict localize h
   = (Raise KeyError, h))
  /\ (forall response d1,
        d0 !! "GetSendStatisticsResponse" = Some response ->
        is_dict h response d1 ->
        d1 !! "GetSendStatisticsResult" = None ->
        stats_to_list strptime TIME_ZONE stats_dict localize h
        = (Raise KeyError, h)).
Proof.
  intros H0. unfold stats_to_list. split.
  - intros K0. apply st_bind_raise.
    by rewrite (getitem_dict _ _ _ _ H0), K0.
  - intros response d1 K0 H1 K1.
    rewrite (st_bind_ret _ _ h response h);
      [|by rewrite (getitem_dict _ _ _ _ H0), K0].
    apply st_bind_raise. by rewrite (getitem_dict _ _ _ _ H1), K1.
Qed.
End TimestampsOnly.

(** *** The sort is stable *)

Lemma filter_none {A} (P : A -> Prop) `{!forall x, Decision (P x)}
    (l : list A) :
  Forall (fun x => ~ P x) l -> filter P l = [].
Proof.
  induction 1 as [|x l Hx _ IH]; [done|].
  by rewrite filter_cons_False.
Qed.

Section SortStable.
Context {A : Type} (lt : A -> A -> outcome bool).
Hypothesis lt_asym : forall x y, lt x y = Ret true -> lt y x = Ret false.
Hypothesis lt_trans :
  forall x y z, lt y x = Ret false -> lt z y = Ret false -> lt z x = Ret false.

(** A class of elements that the order does not tell apart. *)
Context (P : A -> Prop) `{!forall x, Decision (P x)}.
Hypothesis P_tied : forall x y, P x -> P y -> lt x y <> Ret true.
Hypothesis P_alike : forall x z y, P x -> P z -> lt x y = lt z y.

Lemma py_insert_filter (x : A) (l r : list A) :
  StronglySorted (fun a b => lt b a = Ret false) l ->
  py_insert lt x l = Ret r ->
  filter P r = filter P l ++ filter P [x].
Proof.
  intros Hs. revert r. induction Hs as [|y l Hs IH Hy]; intros r;
    cbn [py_insert].
  - by intros [= <-].
  - destruct (lt x y) as [[]|e] eqn:Hxy; cbn -[filter]; [| |done].
    + intros [= <-]. destruct (decide (P x)) as [Hx|Hx].
      * rewrite (filter_cons_True P x (y :: l)) by done.
        assert (filter P (y :: l) = []) as ->.
        { apply (filter_none P). constructor.
          - intros Py. by apply (P_tied x y).
          - eapply Forall_impl; [exact Hy|]. intros z Hz Pz. cbv beta in Hz.
            rewrite (P_alike z x y Pz Hx) in Hz. congruence. }
        by rewrite (filter_cons_True P x []) by done.
      * rewrite (filter_cons_False P x (y :: l)) by done.
        rewrite (filter_cons_False P x []) by done.
        by rewrite app_nil_r.
    + destruct (py_insert lt x l) as [r'|e] eqn:E; cbn -[filter]; [|done].
      intros [= <-]. rewrite !(filter_cons P y), (IH r' eq_refl).
      by destruct (decide (P y)).
Qed.

Lemma py_sort_from_filter (acc l r : list A) :
  StronglySorted (fun a b => lt b a = Ret false) acc ->
  py_sort_from lt acc l = Ret r ->
  filter P r = filter P acc ++ filter P l.
Proof.
  revert acc r. induction l as [|x l IH]; intros acc r Hacc;
    cbn [py_sort_from].
  - intros [= <-]. by rewrite app_nil_r.
  - destruct (py_insert lt x acc) as [acc'|e] eqn:E; cbn -[filter]; [|done].
    intros Hr. rewrite (IH acc' r); [|by eapply py_insert_sorted|done].
    rewrite (py_insert_filter _ _ _ Hacc E), <- app_assoc.
    f_equal. rewrite (filter_cons P x l), (filter_cons P x []).
    by destruct (decide (P x)).
Qed.

Lemma py_sort_stable (l r : list A) :
  py_sort lt l = Ret r -> filter P r = filter P l.
Proof. apply py_sort_from_filter. constructor. Qed.
End SortStable.

Lemma atom_lt_irrefl (a : atom) : atom_lt a a <> Ret true.
Proof. intros H. pose proof (atom_lt_asym _ _ H). congruence. Qed.

Lemma filter_keyed (h : heap) (v : val) (keyed : list (val * val)) :
  Forall (fun p => timestamp_of h p.2 = Some p.1) keyed ->
  filter (fun x => timestamp_of h x = Some v) keyed.*2
  = (filter (fun p => p.1 = v) keyed).*2.
Proof.
  induction 1 as [|p keyed Hp _ IH]; [done|].
  rewrite fmap_cons, !filter_cons, IH.
  destruct (decide (timestamp_of h p.2 = Some v)) as [H1|H1],
           (decide (p.1 = v)) as [H2|H2]; try done; congruence.
Qed.

Lemma sort_by_timestamp_stable (h h' : heap) (xs sorted : list val) (v : val) :
  sort_by_timestamp xs h = (Ret sorted, h') ->
  filter (fun x => timestamp_of h x = Some v) sorted
  = filter (fun x => timestamp_of h x = Some v) xs.
Proof.
  unfold sort_by_timestamp.
  intros (keyed & h1 & Hd & Hrest)%st_bind_ret_inv.
  apply decorate_ret in Hd as (-> & Hsnd & Hall).
  apply st_bind_ret_inv in Hrest as (r & h2 & Hs & Hret).
  unfold lift in Hs. injection Hs as Hs <-.
  cbv [mret st_ret] in Hret. injection Hret as Hr Hh. subst sorted h'.
  destruct (py_sort_returns key_lt key_lt_asym key_lt_not_above_trans _ _ Hs)
    as [Hperm _].
  rewrite <- Hsnd, !filter_keyed; [|done|by rewrite Hperm]. f_equal.
  apply (py_sort_stable key_lt key_lt_asym key_lt_not_above_trans
           (fun p => p.1 = v)); [| |done].
  - intros p q Hp Hq. unfold key_lt. rewrite Hp, Hq.
    destruct v as [a|l]; [|done]. apply atom_lt_irrefl.
  - intros p q y Hp Hq. unfold key_lt. by rewrite Hp, Hq.
Qed.

Section Stable.
Variable strptime : string -> option Z.
Variable TIME_ZONE : string.

(** X14.  The sort of [stats_to_list] is stable: among the datapoints
    that it returns, those that have the same value under "Timestamp"
    are in the order in which the response lists them. *)
Theorem stats_to_list_stable h stats_dict items localize datapoints h' v :
  send_statistics h stats_dict items ->
  stats_to_list strptime TIME_ZONE stats_dict localize h
  = (Ret datapoints, h') ->
  filter (fun x => timestamp_of h' x = Some v) datapoints
  = filter (fun x => timestamp_of h' x = Some v)
      (shift_val (length h) <$> items).
Proof.
  intros Hshape Hrun.
  destruct (stats_to_list_ret strptime TIME_ZONE h stats_dict items localize
              datapoints h' Hshape Hrun) as (current_tz & h1 & _ & _ & Hsort).
  pose proof Hsort as Hh. apply sort_by_timestamp_ret in Hh as (-> & _).
  by apply (sort_by_timestamp_stable h1 h1 _ _ v Hsort).
Qed.
End Stable.

(** *** A datapoint that the response lists twice *)

Section ListedTwice.
Variable strptime : string -> option Z.
Variable TIME_ZONE : string.
Implicit Types (h : heap) (x v dp : val) (tz : tzinfo) (s : string).

Lemma localize_timestamp_converted tz x dt h :
  timestamp_of h x = Some (VDate dt) ->
  localize_timestamp strptime tz x h = (Raise TypeError, h).
Proof.
  intros Hx. unfold localize_timestamp.
  by rewrite (st_bind_ret _ _ _ _ _ (getitem_timestamp _ _ _ Hx)).
Qed.

Lemma stats_loop_listed_twice tz dps datapoints h (seen : list val) :
  (forall x, x ∈ seen -> exists dt, timestamp_of h x = Some (VDate dt)) ->
  (forall x, x ∈ dps -> x ∉ seen ->
             exists s, timestamp_of h x = Some (VStr s)
                       /\ well_formed strptime tz s) ->
  ~ NoDup dps \/ (exists x, x ∈ dps /\ x ∈ seen) ->
  exists h',
    stats_loop strptime (Some tz) dps datapoints h = (Raise TypeError, h').
Proof.
  revert datapoints h seen.
  induction dps as [|dp rest IH]; intros datapoints h seen Hseen Hnew Hbad.
  - destruct Hbad as [Hbad|(x & Hx & _)]; [destruct Hbad; constructor|].
    by apply elem_of_nil in Hx.
  - cbn [stats_loop]. destruct (decide (dp ∈ seen)) as [Hin|Hnotin].
    + destruct (Hseen dp Hin) as [dt Hdt]. exists h.
      by rewrite (st_bind_raise _ _ _ _ _
                    (localize_timestamp_converted tz dp dt h Hdt)).
    + destruct (Hnew dp) as (s & Hs & u & Hu & Hrep); [by left|done|].
      destruct (localize_timestamp_ok strptime tz dp s u h Hs Hu Hrep)
        as (h1 & E1 & Hdp1 & Hfr1).
      destruct (IH (datapoints ++ [dp]) h1 (dp :: seen)) as (h' & E).
      * intros x [->|Hx]%elem_of_cons; [by eexists|].
        rewrite Hfr1; [by apply Hseen|]. intros ->. contradiction.
      * intros x Hx Hx'. apply not_elem_of_cons in Hx' as [Hne Hx'].
        rewrite (Hfr1 x Hne). apply Hnew; [by right|done].
      * destruct (decide (dp ∈ rest)) as [Hdup|Hnodup].
        { right. exists dp. split; [done|by left]. }
        destruct Hbad as [Hbad|(x & Hx & Hx')].
        { left. intros Hnd. apply Hbad. by constructor. }
        right. exists x. apply elem_of_cons in Hx as [->|Hx]; [done|].
        split; [done|by right].
      * exists h'. by rewrite (st_bind_ret _ _ _ _ _ E1).
Qed.

(** X15.  The conversion is done in place, on the copy, and the copy
    keeps the sharing of the response.  So with a zone, a response that
    lists one dict twice makes [stats_to_list] raise [TypeError], also
    when every timestamp is well formed: the second visit finds the
    datetime that the first one has stored. *)
Theorem stats_to_list_listed_twice h stats_dict items tss localize tz :
  send_statistics h stats_dict items ->
  timestamps h items tss ->
  current_timezone TIME_ZONE localize = Ret (Some tz) ->
  Forall (well_formed strptime tz) tss ->
  ~ NoDup items ->
  exists h',
    stats_to_list strptime TIME_ZONE stats_dict localize h
    = (Raise TypeError, h').
Proof.
  intros Hshape Hts Htz Hwf Hdup.
  destruct (stats_loop_listed_twice tz (shift_val (length h) <$> items) []
              (h ++ (shift_obj (length h) <$> h)) []) as (h' & E).
  - intros x Hx. by apply elem_of_nil in Hx.
  - intros x Hx _. apply timestamps_twin in Hts. unfold timestamps in Hts.
    apply list_elem_of_lookup in Hx as [i Hi].
    destruct (Forall2_lookup_l _ _ _ _ _ Hts Hi) as (s & Hs & Hxs).
    exists s. split; [done|]. rewrite Forall_forall in Hwf. apply Hwf.
    by eapply list_elem_of_lookup_2.
  - left. intros Hnd. apply Hdup.
    by apply NoDup_fmap_1 in Hnd.
  - exists h'.
    rewrite (stats_to_list_loop strptime TIME_ZONE h stats_dict items localize
               (Some tz)) by done.
    by apply st_bind_raise.
Qed.
End ListedTwice.

(** *** A datapoint without a timestamp *)

Lemma no_timestamp_twin (h : heap) (x : val) :
  no_timestamp h x ->
  no_timestamp (h ++ (shift_obj (length h) <$> h)) (shift_val (length h) x).
Proof.
  intros (d & Hd & Hk). exists (shift_val (length h) <$> d).
  split; [by apply is_dict_twin|]. by rewrite lookup_fmap, Hk.
Qed.

Lemma getitem_missing_timestamp (h : heap) (x : val) :
  no_timestamp h x -> getitem x "Timestamp" h = (Raise KeyError, h).
Proof. intros (d & Hd & Hk). by apply (getitem_no_timestamp h x d). Qed.

Lemma decorate_missing (h : heap) (xs : list val) :
  Forall (fun x => no_timestamp h x \/ exists v, timestamp_of h x = Some v)
         xs ->
  Exists (no_timestamp h) xs ->
  decorate xs h = (Raise KeyError, h).
Proof.
  induction 1 as [|x xs Hx _ IH]; intros Hbad.
  - by apply Exists_nil in Hbad.
  - cbn [decorate]. destruct Hx as [Hx|[v Hv]].
    + by rewrite (st_bind_raise _ _ _ _ _ (getitem_missing_timestamp _ _ Hx)).
    + rewrite (st_bind_ret _ _ _ _ _ (getitem_timestamp _ _ _ Hv)).
      apply st_bind_raise, IH.
      apply Exists_cons in Hbad as [(d & (l & -> & Hl) & Hk)|Hbad]; [|done].
      unfold timestamp_of in Hv. rewrite Hl in Hv. congruence.
Qed.

Lemma setitem_other (h : heap) (x v : val) (k : string) (l : nat) :
  x <> VRef l -> (setitem x k v h).2 !! l = h !! l.
Proof.
  intros Hne. unfold setitem. destruct x as [a|l']; [done|].
  destruct (h !! l') as [[d|vs]|]; try done. simpl.
  apply list_lookup_insert_ne. congruence.
Qed.

Section MissingTimestamp.
Variable strptime : string -> option Z.
Variable TIME_ZONE : string.
Implicit Types (h : heap) (x v dp : val) (tz : tzinfo) (s : string).

Lemma localize_timestamp_other tz dp h l :
  dp <> VRef l -> (localize_timestamp strptime tz dp h).2 !! l = h !! l.
Proof.
  intros Hne. unfold localize_timestamp, mbind, st_bind, lift.
  pose proof (getitem_state dp "Timestamp" h) as Hs.
  destruct (getitem dp "Timestamp" h) as [[ts|e] h1]; simpl in Hs; subst h1;
    [|done].
  destruct (py_strptime strptime ts) as [d1|e]; [|done].
  destruct (utc_localize d1) as [d2|e]; [|done].
  destruct (astimezone d2 tz) as [d3|e]; [|done].
  destruct (normalize tz d3) as [d4|e]; [|done].
  by apply setitem_other.
Qed.

Lemma no_timestamp_other tz dp h x :
  x <> dp -> no_timestamp h x ->
  no_timestamp (localize_timestamp strptime tz dp h).2 x.
Proof.
  intros Hne (d & (l & -> & Hl) & Hk). exists d. split; [|done].
  exists l. split; [done|]. by rewrite localize_timestamp_other.
Qed.

Lemma stats_loop_missing tz dps datapoints h :
  NoDup dps ->
  Forall (fun x => no_timestamp h x
                   \/ exists s, timestamp_of h x = Some (VStr s)
                                /\ well_formed strptime tz s) dps ->
  Exists (no_timestamp h) dps ->
  exists h',
    stats_loop strptime (Some tz) dps datapoints h = (Raise KeyError, h').
Proof.
  revert datapoints h.
  induction dps as [|dp rest IH]; intros datapoints h Hnd Hall Hbad.
  - by apply Exists_nil in Hbad.
  - apply NoDup_cons in Hnd as [Hnotin Hnd].
    apply Forall_cons in Hall as [Hdp Hall]. cbn [stats_loop].
    destruct Hdp as [Hdp|(s & Hs & u & Hu & Hrep)].
    + exists h. apply st_bind_raise. unfold localize_timestamp.
      apply st_bind_raise. by apply getitem_missing_timestamp.
    + destruct (localize_timestamp_ok strptime tz dp s u h Hs Hu Hrep)
        as (h1 & E1 & Hdp1 & Hfr1).
      assert (forall x, x ∈ rest -> x <> dp) as Hne
        by (intros x Hx ->; contradiction).
      assert (h1 = (localize_timestamp strptime tz dp h).2) as Hh1
        by (by rewrite E1).
      destruct (IH (datapoints ++ [dp]) h1) as (h' & E); [done| |  |].
      * rewrite Forall_forall in Hall |- *. intros x Hx.
        destruct (Hall x Hx) as [Hno|(s' & Hs' & Hwf)].
        -- left. rewrite Hh1. apply no_timestamp_other; [by apply Hne|done].
        -- right. exists s'. rewrite (Hfr1 x (Hne x Hx)). done.
      * apply Exists_cons in Hbad as [(d & (l & -> & Hl) & Hk)|Hbad].
        { unfold timestamp_of in Hs. rewrite Hl in Hs. congruence. }
        rewrite Exists_exists in Hbad |- *.
        destruct Hbad as (x & Hx & Hno). exists x. split; [done|].
        rewrite Hh1. apply no_timestamp_other; [by apply Hne|done].
      * exists h'. by rewrite (st_bind_ret _ _ _ _ _ E1).
Qed.

(** X16.  A datapoint without "Timestamp" makes [stats_to_list] raise
    [KeyError]: without a zone, when the sort reads its keys, whatever the
    timestamps of the other datapoints are; with a zone, in the loop, when
    the datapoints are distinct dicts and the timestamps that there are
    are well formed. *)
Theorem stats_to_list_missing_timestamp h stats_dict items localize :
  send_statistics h stats_dict items ->
  Exists (no_timestamp h) items ->
  (localize = None ->
   Forall (fun x => no_timestamp h x \/ exists v, timestamp_of h x = Some v)
          items ->
   stats_to_list strptime TIME_ZONE stats_dict localize h
   = (Raise KeyError, h ++ (shift_obj (length h) <$> h)))
  /\ (forall tz,
        current_timezone TIME_ZONE localize = Ret (Some tz) ->
        NoDup items ->
        Forall (fun x => no_timestamp h x
                         \/ exists s, timestamp_of h x = Some (VStr s)
                                      /\ well_formed strptime tz s) items ->
        exists h',
          stats_to_list strptime TIME_ZONE stats_dict localize h
          = (Raise KeyError, h')).
Proof.
  intros Hshape Hbad.
  assert (Exists (no_timestamp (h ++ (shift_obj (length h) <$> h)))
            (shift_val (length h) <$> items)) as Hbad'.
  { rewrite Exists_exists in Hbad |- *. destruct Hbad as (x & Hx & Hno).
    exists (shift_val (length h) x).
    split; [by apply list_elem_of_fmap_2|by apply no_timestamp_twin]. }
  split.
  - intros -> Hall.
    rewrite (stats_to_list_loop strptime TIME_ZONE h stats_dict items None
               None) by done.
    rewrite (st_bind_ret _ _ _ _ _ (stats_loop_plain strptime _ [] _)).
    unfold sort_by_timestamp. apply st_bind_raise, decorate_missing; [|done].
    apply Forall_fmap. eapply Forall_impl; [exact Hall|].
    intros x [Hno|[v Hv]]; simpl.
    + left. by apply no_timestamp_twin.
    + right. eexists. by apply timestamp_of_twin.
  - intros tz Htz Hnd Hall.
    destruct (stats_loop_missing tz (shift_val (length h) <$> items) []
                (h ++ (shift_obj (length h) <$> h))) as (h' & E); [| |done|].
    + apply NoDup_fmap_2; [apply shift_val_inj|done].
    + apply Forall_fmap. eapply Forall_impl; [exact Hall|].
      intros x [Hno|(s & Hs & Hwf)]; simpl.
      * left. by apply no_timestamp_twin.
      * right. exists s. split; [|done].
        by apply (timestamp_of_twin h x (VStr s)).
    + exists h'.
      rewrite (stats_to_list_loop strptime TIME_ZONE h stats_dict items
                 localize (Some tz)) by done.
      by apply st_bind_raise.
Qed.
End MissingTimestamp.

(** *** The normalizer on more samples *)

Lemma statistics_result_shape (datapoints : list obj) :
  statistics_result (statistics datapoints) (VRef 0) (VRef 2).
Proof.
  exists {["GetSendStatisticsResponse" := VRef 1]}, (VRef 1),
    {["GetSendStatisticsResult" := VRef 2]}.
  split; [by exists 0%nat|]. split; [reflexivity|].
  split; [by exists 1%nat|reflexivity].
Defined.

Lemma statistics_shape (datapoints : list obj) :
  send_statistics (statistics datapoints) (VRef 0)
    (VRef <$> seq 4 (length datapoints)).
Proof.
  exists (VRef 2), {["SendDataPoints" := VRef 3]}, (VRef 3).
  split; [apply statistics_result_shape|].
  split; [by exists 2%nat|]. split; [reflexivity|by exists 3%nat].
Defined.

Lemma stats_to_list_timestamps_only_witness :
  Forall2 same_but_timestamp
    (three_points ++ (shift_obj (length three_points) <$> three_points))
    (stats_to_list strptime "Etc/GMT-1" (VRef 0) (Some pytz) three_points).2.
Proof.
  apply (stats_to_list_timestamps_only strptime "Etc/GMT-1" three_points
           (VRef 0) (VRef 2) (Some pytz)).
  apply statistics_result_shape.
Defined.

Lemma stats_to_list_fresh_witness :
  Forall
    (fresh_dict (length three_points)
       (stats_to_list strptime "Etc/GMT-1" (VRef 0) (Some pytz)
          three_points).2)
    [VRef 12; VRef 13; VRef 11].
Proof.
  apply (stats_to_list_fresh strptime "Etc/GMT-1" three_points (VRef 0)
           (Some pytz)).
  vm_compute. reflexivity.
Defined.

Lemma stats_to_list_unknown_zone_witness :
  stats_to_list strptime "Mars/Olympus" (VRef 0) (Some pytz) three_points
  = (Raise UnknownTimeZoneError,
     three_points ++ (shift_obj (length three_points) <$> three_points)).
Proof.
  apply (stats_to_list_unknown_zone strptime "Mars/Olympus" three_points
           (VRef 0) (VRef 2) pytz).
  - apply statistics_result_shape.
  - reflexivity.
Defined.

Lemma stats_to_list_no_envelope_witness :
  stats_to_list strptime "UTC" (VRef 0) (Some pytz) no_response
  = (Raise KeyError, no_response)
  /\ stats_to_list strptime "UTC" (VRef 0) None no_result
     = (Raise KeyError, no_result).
Proof.
  split.
  - apply (proj1 (stats_to_list_no_envelope strptime "UTC" no_response
                    (VRef 0) ∅ (Some pytz)
                    ltac:(by exists 0%nat))).
    reflexivity.
  - apply (proj2 (stats_to_list_no_envelope strptime "UTC" no_result
                    (VRef 0) {["GetSendStatisticsResponse" := VRef 1]} None
                    ltac:(by exists 0%nat))
             (VRef 1) ∅); [reflexivity|by exists 1%nat|reflexivity].
Defined.

Example stats_to_list_tied_points :
  (stats_to_list strptime "Etc/GMT-1" (VRef 0) (Some pytz) tied_points).1
  = Ret [VRef 12; VRef 11; VRef 13]
  /\ strptime "2012-05-01T10:00:00Z" = Some 63471463200.
Proof. vm_compute. split; reflexivity. Qed.

Lemma stats_to_list_stable_witness :
  filter
    (fun x =>
       timestamp_of
         (stats_to_list strptime "Etc/GMT-1" (VRef 0) (Some pytz)
            tied_points).2 x
       = Some (VDate (local_time (fixed_zone 3600) 63471463200)))
    [VRef 12; VRef 11; VRef 13]
  = filter
      (fun x =>
         timestamp_of
           (stats_to_list strptime "Etc/GMT-1" (VRef 0) (Some pytz)
              tied_points).2 x
         = Some (VDate (local_time (fixed_zone 3600) 63471463200)))
      (shift_val (length tied_points) <$> [VRef 4; VRef 5; VRef 6]).
Proof.
  apply (stats_to_list_stable strptime "Etc/GMT-1" tied_points (VRef 0)
           [VRef 4; VRef 5; VRef 6] (Some pytz)).
  - apply (statistics_shape
             [datapoint "2012-05-01T10:00:00Z" "1" "0" "12" "0";
              datapoint "2012-04-30T09:45:00Z" "0" "0" "7" "1";
              datapoint "2012-05-01T10:00:00Z" "2" "1" "30" "0"]).
  - vm_compute. reflexivity.
Defined.

Lemma listed_twice_shape :
  send_statistics listed_twice (VRef 0) [VRef 4; VRef 4].
Proof.
  exists (VRef 2), {["SendDataPoints" := VRef 3]}, (VRef 3).
  split; [|split; [by exists 2%nat|split; [reflexivity|by exists 3%nat]]].
  exists {["GetSendStatisticsResponse" := VRef 1]}, (VRef 1),
    {["GetSendStatisticsResult" := VRef 2]}.
  split; [by exists 0%nat|]. split; [reflexivity|].
  split; [by exists 1%nat|reflexivity].
Defined.

Lemma stats_to_list_listed_twice_witness :
  exists h',
    stats_to_list strptime "Etc/GMT-1" (VRef 0) (Some pytz) listed_twice
    = (Raise TypeError, h').
Proof.
  apply (stats_to_list_listed_twice strptime "Etc/GMT-1" listed_twice
           (VRef 0) [VRef 4; VRef 4]
           ["2012-05-01T10:00:00Z"; "2012-05-01T10:00:00Z"]%string
           (Some pytz) (fixed_zone 3600)).
  - apply listed_twice_shape.
  - repeat constructor.
  - reflexivity.
  - repeat constructor; eexists; (split; [vm_compute; reflexivity|]);
      split; vm_compute; reflexivity.
  - intros [Hnotin _]%NoDup_cons. apply Hnotin. by left.
Defined.

Example stats_to_list_listed_twice_plain :
  (stats_to_list strptime "UTC" (VRef 0) None listed_twice).1
  = Ret [VRef 9; VRef 9].
Proof. vm_compute. reflexivity. Qed.

Lemma unstamped_point_missing :
  Exists (no_timestamp unstamped_point) [VRef 4; VRef 5].
Proof.
  apply Exists_cons_tl, Exists_cons_hd. eexists. split; [by exists 5%nat|].
  reflexivity.
Defined.

Lemma stats_to_list_missing_timestamp_witness :
  stats_to_list strptime "UTC" (VRef 0) None unstamped_point
  = (Raise KeyError,
     unstamped_point ++ (shift_obj (length unstamped_point)
                           <$> unstamped_point))
  /\ exists h',
       stats_to_list strptime "Etc/GMT-1" (VRef 0) (Some pytz) unstamped_point
       = (Raise KeyError, h').
Proof.
  split.
  - apply (proj1 (stats_to_list_missing_timestamp strptime "UTC"
                    unstamped_point (VRef 0) [VRef 4; VRef 5] None
                    (statistics_shape _) unstamped_point_missing));
      [reflexivity|].
    constructor; [right; by eexists|].
    constructor; [left|constructor].
    eexists. split; [by exists 5%nat|reflexivity].
  - apply (proj2 (stats_to_list_missing_timestamp strptime "Etc/GMT-1"
                    unstamped_point (VRef 0) [VRef 4; VRef 5] (Some pytz)
                    (statistics_shape _) unstamped_point_missing)
             (fixed_zone 3600)); [reflexivity| |].
    + apply (bool_decide_unpack (NoDup [VRef 4; VRef 5])).
      vm_compute. exact I.
    + constructor.
      * right. eexists. split; [reflexivity|].
        eexists; (split; [vm_compute; reflexivity|]);
          split; vm_compute; reflexivity.
      * constructor; [left|constructor].
        eexists. split; [by exists 5%nat|reflexivity].
Defined.

(** ** The dashboard view *)

Section DashboardFacts.
Context {float : Type}.
Variable py_float : pyval -> outcome float.
Variable float_sub : float -> float -> float.
Variable int_of_string : string -> option Z.
Variable strptime : string -> option Z.
Variable TIME_ZONE : string.
Variable pytz : option pytz_module.

Lemma dashboard_view_cached env request w p :
  cached_view env = Some p ->
  dashboard_view py_float float_sub int_of_string strptime TIME_ZONE pytz
    env request w
  = (Ret p, World (store w) (calls w ++ [cache_get cache_key])).
Proof.
  intros H. unfold dashboard_view. rewrite H. reflexivity.
Qed.

Lemma dashboard_view_miss env request w out w' :
  cached_view env = None ->
  dashboard_view py_float float_sub int_of_string strptime TIME_ZONE pytz
    env request w = (out, w') ->
  take (length (calls w) + 4) (calls w')
  = calls w ++ [cache_get cache_key; get_send_quota;
                  list_verified_email_addresses; get_send_statistics]
  /\ match out with
     | Ret p =>
         exists extra_context,
           p = Rendered "django_ses/send_stats.html" extra_context request
           /\ drop (length (calls w) + 4) (calls w')
              = [render_to_response "django_ses/send_stats.html"
                   extra_context;
                 cache_set cache_key p 900]
     | Raise _ => drop (length (calls w) + 4) (calls w') = []
     end.
Proof.
  intros H. unfold dashboard_view. rewrite H.
  unfold mbind at 1 2 3 4, st_bind at 1 2 3 4, ask at 1 2 3 4.
  cbn [store calls]. rewrite <- !app_assoc. cbn [app].
  set (tr := calls w ++ _).
  assert (forall l, take (length (calls w) + 4) (tr ++ l) = tr
                    /\ drop (length (calls w) + 4) (tr ++ l) = l) as Htr.
  { intros l. assert (length tr = (length (calls w) + 4)%nat) as <-.
    { unfold tr. rewrite length_app. reflexivity. }
    by rewrite take_app_length, drop_app_length. }
  pose proof (Htr []) as Hnil. rewrite app_nil_r in Hnil.
  unfold mbind at 1, st_bind at 1, lift at 1.
  destruct (quota_parse (quota_dict env)) as [quota|e];
    [|by intros [= <- <-]].
  unfold mbind at 1, st_bind at 1, lift at 1.
  destruct (emails_parse (verified_emails_dict env)) as [emails|e];
    [|by intros [= <- <-]].
  unfold mbind at 1, st_bind at 1, on_store at 1. cbn [store calls].
  destruct (stats_to_list strptime TIME_ZONE (stats env) pytz (store w))
    as [[ordered_data|e] h']; [|by intros [= <- <-]].
  unfold mbind at 1, st_bind at 1, reading at 1. cbn [store calls].
  destruct (snapshots h' ordered_data) as [stats_data|e];
    [|by intros [= <- <-]].
  unfold mbind at 1, st_bind at 1, lift at 1.
  destruct (sum_stats int_of_string stats_data) as [summary|e];
    [|by intros [= <- <-]].
  unfold mbind at 1, st_bind at 1, lift at 1.
  destruct (py_getitem quota "Max24HourSend") as [q24|e];
    [|by intros [= <- <-]].
  unfold mbind at 1, st_bind at 1, lift at 1.
  destruct (py_getitem quota "SentLast24Hours") as [s24|e];
    [|by intros [= <- <-]].
  unfold mbind at 1, st_bind at 1, lift at 1. rewrite outcome_bind_ret.
  destruct (py_float q24) as [f1|e]; [|by intros [= <- <-]].
  unfold mbind at 1, st_bind at 1, lift at 1. rewrite outcome_bind_ret.
  destruct (py_float s24) as [f2|e]; [|by intros [= <- <-]].
  unfold mbind at 1, st_bind at 1, lift at 1.
  destruct (py_getitem quota "MaxSendRate") as [rate|e];
    [|by intros [= <- <-]].
  unfold mbind, st_bind, ask, mret, st_ret. cbn [store calls].
  intros [= <- <-]. cbn [calls]. rewrite <- app_assoc.
  destruct (Htr [render_to_response "django_ses/send_stats.html"
                   (ExtraContext "SES Statistics" ordered_data q24 s24
                      (float_sub f1 f2) rate emails summary
                      (gs_access_key_id env)
                      match pytz with Some _ => true | None => false end);
                 cache_set cache_key
                   (Rendered "django_ses/send_stats.html"
                      (ExtraContext "SES Statistics" ordered_data q24 s24
                         (float_sub f1 f2) rate emails summary
                         (gs_access_key_id env)
                         match pytz with Some _ => true | None => false end)
                      request) (60 * 15)]) as [Ht Hd].
  split; [exact Ht|]. eexists. split; [reflexivity|exact Hd].
Qed.

Lemma dashboard_view_ret env request w p w' :
  cached_view env = None ->
  dashboard_view py_float float_sub int_of_string strptime TIME_ZONE pytz
    env request w = (Ret p, w') ->
  exists quota emails ordered_data stats_data summary q24 s24 f1 f2 rate,
    quota_parse (quota_dict env) = Ret quota
    /\ emails_parse (verified_emails_dict env) = Ret emails
    /\ stats_to_list strptime TIME_ZONE (stats env) pytz (store w)
       = (Ret ordered_data, store w')
    /\ snapshots (store w') ordered_data = Ret stats_data
    /\ sum_stats int_of_string stats_data = Ret summary
    /\ py_getitem quota "Max24HourSend" = Ret q24
    /\ py_getitem quota "SentLast24Hours" = Ret s24
    /\ py_float q24 = Ret f1
    /\ py_float s24 = Ret f2
    /\ py_getitem quota "MaxSendRate" = Ret rate
    /\ p = Rendered "django_ses/send_stats.html"
             (ExtraContext "SES Statistics" ordered_data q24 s24
                (float_sub f1 f2) rate emails summary
                (gs_access_key_id env)
                match pytz with Some _ => true | None => false end)
             request.
Proof.
  intros H. unfold dashboard_view. rewrite H.
  unfold mbind at 1 2 3 4, st_bind at 1 2 3 4, ask at 1 2 3 4.
  cbn [store calls].
  unfold mbind at 1, st_bind at 1, lift at 1.
  destruct (quota_parse (quota_dict env)) as [quota|e]; [|done].
  unfold mbind at 1, st_bind at 1, lift at 1.
  destruct (emails_parse (verified_emails_dict env)) as [emails|e]; [|done].
  unfold mbind at 1, st_bind at 1, on_store at 1. cbn [store calls].
  destruct (stats_to_list strptime TIME_ZONE (stats env) pytz (store w))
    as [[ordered_data|e] h']; [|done].
  unfold mbind at 1, st_bind at 1, reading at 1. cbn [store calls].
  destruct (snapshots h' ordered_data) as [stats_data|e] eqn:Hsnap; [|done].
  unfold mbind at 1, st_bind at 1, lift at 1.
  destruct (sum_stats int_of_string stats_data) as [summary|e] eqn:Hsum;
    [|done].
  unfold mbind at 1, st_bind at 1, lift at 1.
  destruct (py_getitem quota "Max24HourSend") as [q24|e] eqn:H24; [|done].
  unfold mbind at 1, st_bind at 1, lift at 1.
  destruct (py_getitem quota "SentLast24Hours") as [s24|e] eqn:Hs24; [|done].
  unfold mbind at 1, st_bind at 1, lift at 1. rewrite outcome_bind_ret.
  destruct (py_float q24) as [f1|e] eqn:Hf1; [|done].
  unfold mbind at 1, st_bind at 1, lift at 1. rewrite outcome_bind_ret.
  destruct (py_float s24) as [f2|e] eqn:Hf2; [|done].
  unfold mbind at 1, st_bind at 1, lift at 1.
  destruct (py_getitem quota "MaxSendRate") as [rate|e] eqn:Hrate; [|done].
  unfold mbind, st_bind, ask, mret, st_ret. cbn [store calls].
  intros [= <- <-]. cbn [store].
  exists quota, emails, ordered_data, stats_data, summary, q24, s24, f1, f2,
    rate.
  by split_and!.
Qed.

Lemma dashboard_view_returns env request w quota emails ordered_data h'
    stats_data summary q24 s24 f1 f2 rate :
  cached_view env = None ->
  quota_parse (quota_dict env) = Ret quota ->
  emails_parse (verified_emails_dict env) = Ret emails ->
  stats_to_list strptime TIME_ZONE (stats env) pytz (store w)
  = (Ret ordered_data, h') ->
  snapshots h' ordered_data = Ret stats_data ->
  sum_stats int_of_string stats_data = Ret summary ->
  py_getitem quota "Max24HourSend" = Ret q24 ->
  py_getitem quota "SentLast24Hours" = Ret s24 ->
  py_float q24 = Ret f1 ->
  py_float s24 = Ret f2 ->
  py_getitem quota "MaxSendRate" = Ret rate ->
  exists w',
    dashboard_view py_float float_sub int_of_string strptime TIME_ZONE pytz
      env request w
    = (Ret (Rendered "django_ses/send_stats.html"
              (ExtraContext "SES Statistics" ordered_data q24 s24
                 (float_sub f1 f2) rate emails summary
                 (gs_access_key_id env)
                 match pytz with Some _ => true | None => false end)
              request), w')
    /\ store w' = h'.
Proof.
  intros H Hq He Hs Hsnap Hsum H24 Hs24 Hf1 Hf2 Hrate.
  unfold dashboard_view. rewrite H.
  unfold mbind at 1 2 3 4, st_bind at 1 2 3 4, ask at 1 2 3 4.
  cbn [store calls].
  unfold mbind at 1, st_bind at 1, lift at 1. rewrite Hq.
  unfold mbind at 1, st_bind at 1, lift at 1. rewrite He.
  unfold mbind at 1, st_bind at 1, on_store at 1. cbn [store calls].
  rewrite Hs.
  unfold mbind at 1, st_bind at 1, reading at 1. cbn [store calls].
  rewrite Hsnap.
  unfold mbind at 1, st_bind at 1, lift at 1. rewrite Hsum.
  unfold mbind at 1, st_bind at 1, lift at 1. rewrite H24.
  unfold mbind at 1, st_bind at 1, lift at 1. rewrite Hs24.
  unfold mbind at 1, st_bind at 1, lift at 1. rewrite outcome_bind_ret.
  rewrite Hf1.
  unfold mbind at 1, st_bind at 1, lift at 1. rewrite outcome_bind_ret.
  rewrite Hf2.
  unfold mbind at 1, st_bind at 1, lift at 1. rewrite Hrate.
  unfold mbind, st_bind, ask, mret, st_ret. cbn [store calls].
  eexists. split; reflexivity.
Qed.

(** *** What the summary reads in the store *)

Lemma snapshots_perm (h : heap) (xs ys : list val) (ts : list pyval) :
  xs ≡ₚ ys -> snapshots h xs = Ret ts ->
  exists ts', snapshots h ys = Ret ts' /\ ts ≡ₚ ts'.
Proof.
  intros Hp. revert ts.
  induction Hp as [|x xs ys _ IH|x y xs|xs ys zs _ IH1 _ IH2]; intros ts.
  - intros [= <-]. by exists [].
  - cbn [snapshots]. destruct (snapshot h x) as [t|]; [|done].
    rewrite !outcome_bind_ret.
    destruct (snapshots h xs) as [ts0|] eqn:E; [|done].
    rewrite outcome_bind_ret. intros [= <-].
    destruct (IH ts0 eq_refl) as (ts' & -> & Hperm).
    rewrite outcome_bind_ret. eexists. split; [reflexivity|].
    by constructor.
  - cbn [snapshots]. destruct (snapshot h y) as [ty|]; [|done].
    rewrite !outcome_bind_ret. destruct (snapshot h x) as [tx|]; [|done].
    rewrite !outcome_bind_ret. destruct (snapshots h xs) as [ts0|]; [|done].
    rewrite !outcome_bind_ret. intros [= <-].
    eexists. split; [reflexivity|]. apply perm_swap.
  - intros H. destruct (IH1 ts H) as (ts1 & H1 & Hp1).
    destruct (IH2 ts1 H1) as (ts2 & H2 & Hp2).
    exists ts2. split; [done|]. by etrans.
Qed.

Lemma snapshot_counters (h h' : heap) (x : val) (row : totals) :
  counters int_of_string h x row ->
  Forall2 same_but_timestamp (h ++ (shift_obj (length h) <$> h)) h' ->
  exists t, snapshot h' (shift_val (length h) x) = Ret t
            /\ reads_as int_of_string t row.
Proof.
  intros (dp & b & c & d & r & (l & -> & Hl) & Hb & Pb & Hc & Pc & Hd & Pd
          & Hr & Pr) Hsame.
  pose proof (lookup_twin h l _ Hl) as Htwin.
  destruct (Forall2_lookup_l _ _ _ _ _ Hsame Htwin) as (o' & Ho' & Hrel).
  destruct o' as [dp'|vs]; [|done]. simpl in Hrel.
  cbn [shift_val snapshot]. rewrite Ho'. eexists. split; [reflexivity|].
  assert (forall k s, k <> "Timestamp"%string -> dp !! k = Some (VStr s) ->
                      field_is (PDict (snapshot_field <$> dp')) k s) as Hf.
  { intros k s Hk Hs. unfold field_is. cbn [py_getitem].
    by rewrite lookup_fmap, (Hrel k Hk), lookup_fmap, Hs. }
  exists b, c, d, r. split_and!; try done; by apply Hf.
Qed.

Lemma snapshots_counters (h h' : heap) (items : list val)
    (rows : list totals) :
  Forall2 (counters int_of_string h) items rows ->
  Forall2 same_but_timestamp (h ++ (shift_obj (length h) <$> h)) h' ->
  exists ts, snapshots h' (shift_val (length h) <$> items) = Ret ts
             /\ Forall2 (reads_as int_of_string) ts rows.
Proof.
  intros Hall Hsame. induction Hall as [|x row items rows Hx _ IH].
  - by exists [].
  - destruct (snapshot_counters h h' x row Hx Hsame) as (t & Ht & Hread).
    destruct IH as (ts & Hts & Hreads).
    exists (t :: ts). rewrite fmap_cons. cbn [snapshots].
    rewrite Ht, outcome_bind_ret, Hts, outcome_bind_ret.
    split; [done|by constructor].
Qed.

Lemma sum_stats_counters (ts ts' : list pyval) (rows : list totals) :
  Forall2 (reads_as int_of_string) ts rows -> ts ≡ₚ ts' ->
  sum_stats int_of_string ts' = Ret (summary_of rows).
Proof.
  intros Hall Hperm. unfold sum_stats.
  rewrite (sum_stats_loop_perm int_of_string _ _ _ _ Hperm
             (sum_stats_loop_reads int_of_string totals_zero _ _ Hall)).
  reflexivity.
Qed.

Lemma dashboard_reads (h h' : heap) (stats_dict : val)
    (items ordered_data : list val) (rows : list totals) :
  send_statistics h stats_dict items ->
  Forall2 (counters int_of_string h) items rows ->
  stats_to_list strptime TIME_ZONE stats_dict pytz h
  = (Ret ordered_data, h') ->
  exists stats_data,
    snapshots h' ordered_data = Ret stats_data
    /\ sum_stats int_of_string stats_data = Ret (summary_of rows)
    /\ ordered_data ≡ₚ shift_val (length h) <$> items
    /\ StronglySorted (ascending h') ordered_data.
Proof.
  intros Hshape Hrows Hrun.
  pose proof Hshape as (result & _ & _ & Hres & _).
  pose proof (stats_to_list_same_but_timestamps strptime TIME_ZONE h
                stats_dict result pytz Hres) as Hsame.
  rewrite Hrun in Hsame. cbn [snd] in Hsame.
  destruct (stats_to_list_ret strptime TIME_ZONE h stats_dict items pytz
              ordered_data h' Hshape Hrun)
    as (current_tz & h1 & _ & _ & Hsort).
  apply sort_by_timestamp_ret in Hsort as (-> & Hperm & Hsorted).
  destruct (snapshots_counters h h1 items rows Hrows Hsame)
    as (ts & Hts & Hreads).
  destruct (snapshots_perm h1 _ ordered_data ts (symmetry Hperm) Hts)
    as (ts' & Hts' & Hperm').
  exists ts'. split; [done|]. split; [|done].
  by apply (sum_stats_counters ts).
Qed.

(** X17.  For a user who is no superuser, [dashboard] raises
    [PermissionDenied] and asks nothing of the cache or of the API.  For
    a superuser, when the cache holds a page, [dashboard] returns that
    page after the one [cache.get]: the API is not called, the store is
    left alone, and the page is returned whatever request it was
    rendered for. *)
Theorem dashboard_guard_and_cache env request w :
  (is_superuser request = false ->
   dashboard py_float float_sub int_of_string strptime TIME_ZONE pytz
     env request w
   = PermissionDenied)
  /\ (forall p,
        is_superuser request = true ->
        cached_view env = Some p ->
        dashboard py_float float_sub int_of_string strptime TIME_ZONE pytz
          env request w
        = Allowed (Ret p,
                   World (store w) (calls w ++ [cache_get cache_key]))).
Proof.
  unfold dashboard, superuser_only. split.
  - by intros ->.
  - intros p -> Hp. cbn [negb]. f_equal. by apply dashboard_view_cached.
Qed.

(** X18.  When the cache holds no page, a superuser's request asks
    [cache.get] and the three calls of the API, in this order.  If the
    view then returns a page, the page is rendered for this request, and
    [render_to_response] and one [cache.set] of this page under the key
    of [cache.get], for 900 seconds, are all it has asked besides.  If it
    raises, it has rendered and cached nothing. *)
Theorem dashboard_caches_what_it_returns env request w out w' :
  cached_view env = None ->
  dashboard py_float float_sub int_of_string strptime TIME_ZONE pytz
    env request w
  = Allowed (out, w') ->
  take (length (calls w) + 4) (calls w')
  = calls w ++ [cache_get cache_key; get_send_quota;
                list_verified_email_addresses; get_send_statistics]
  /\ match out with
     | Ret p =>
         exists extra_context,
           p = Rendered "django_ses/send_stats.html" extra_context request
           /\ drop (length (calls w) + 4) (calls w')
              = [render_to_response "django_ses/send_stats.html"
                   extra_context;
                 cache_set cache_key p 900]
     | Raise _ => drop (length (calls w) + 4) (calls w') = []
     end.
Proof.
  intros Hmiss. unfold dashboard, superuser_only.
  destruct (is_superuser request); [|done]. cbn [negb]. intros [= Hrun].
  by apply (dashboard_view_miss env request).
Qed.

(** X19.  When the cache holds no page and the API answers a
    send-statistics response whose datapoints have counters that [int]
    reads: every page that [dashboard] returns shows, as "summary", the
    field-wise sums of these counters and, as "datapoints", the copies
    of the datapoints in ascending order of their timestamps.  And it
    does return a page for a superuser when the quota has its three
    entries, [float] reads the two that are subtracted, the verified
    addresses are strings and the timestamps are as [stats_to_list]
    needs them. *)
Theorem dashboard_summary env request w items rows :
  cached_view env = None ->
  send_statistics (store w) (stats env) items ->
  Forall2 (counters int_of_string (store w)) items rows ->
  (forall p w',
      dashboard py_float float_sub int_of_string strptime TIME_ZONE pytz
        env request w
      = Allowed (Ret p, w') ->
      exists extra_context,
        p = Rendered "django_ses/send_stats.html" extra_context request
        /\ c_summary extra_context = summary_of rows
        /\ c_datapoints extra_context
           ≡ₚ shift_val (length (store w)) <$> items
        /\ StronglySorted (ascending (store w'))
             (c_datapoints extra_context))
  /\ (forall quota q24 s24 rate f1 f2 emails tss current_tz,
        is_superuser request = true ->
        send_quota (quota_dict env) quota ->
        quota !! "Max24HourSend" = Some q24 ->
        quota !! "SentLast24Hours" = Some s24 ->
        quota !! "MaxSendRate" = Some rate ->
        py_float q24 = Ret f1 ->
        py_float s24 = Ret f2 ->
        verified_addresses (verified_emails_dict env) emails ->
        timestamps (store w) items tss ->
        current_timezone TIME_ZONE pytz = Ret current_tz ->
        (forall tz, current_tz = Some tz ->
                    NoDup items /\ Forall (well_formed strptime tz) tss) ->
        exists p w',
          dashboard py_float float_sub int_of_string strptime TIME_ZONE pytz env
            request w
          = Allowed (Ret p, w')).
Proof.
  intros Hmiss Hshape Hrows. split.
  - intros p w'. unfold dashboard, superuser_only.
    destruct (is_superuser request); [|done]. cbn [negb]. intros [= Hrun].
    destruct (dashboard_view_ret env request w p w' Hmiss Hrun)
      as (quota & emails & ordered_data & stats_data & summary & q24 & s24
          & f1 & f2 & rate & _ & _ & Hstats & Hsnap & Hsum & _ & _ & _ & _
          & _ & ->).
    destruct (dashboard_reads _ _ _ _ _ _ Hshape Hrows Hstats)
      as (ts & Hts & Hsum' & Hperm & Hsorted).
    eexists. split; [reflexivity|]. cbn [c_summary c_datapoints].
    split_and!; [|done..]. congruence.
  - intros quota q24 s24 rate f1 f2 emails tss current_tz Hsuper
      (d0 & d1 & Hq & Hd0 & Hd1) H24 Hs24 Hrate Hf1 Hf2 Hemails Hts Htz Hok.
    assert (exists ordered_data h',
               stats_to_list strptime TIME_ZONE (stats env) pytz (store w)
               = (Ret ordered_data, h')) as (ordered_data & h' & Hstats).
    { destruct current_tz as [tz|].
      - destruct (Hok tz eq_refl) as [Hnd Hwf].
        destruct (stats_to_list_localized strptime TIME_ZONE (store w)
                    (stats env) items tss pytz tz)
          as (datapoints & h' & E & _); try done. by exists datapoints, h'.
      - destruct pytz as [m|]; [|clear Htz].
        { unfold current_timezone in Htz.
          by destruct (timezone m TIME_ZONE). }
        destruct (stats_to_list_plain strptime TIME_ZONE (store w)
                    (stats env) items tss)
          as (datapoints & E & _); try done. by eexists _, _. }
    destruct (dashboard_reads _ _ _ _ _ _ Hshape Hrows Hstats)
      as (ts & Hts' & Hsum & _).
    destruct (dashboard_view_returns env request w (PDict quota)
                (PStr <$> isort String.ltb emails) ordered_data h' ts
                (summary_of rows) q24 s24 f1 f2 rate)
      as (w' & Hrun & _); try done.
    + unfold quota_parse. rewrite Hq. cbn. rewrite Hd0. cbn. by rewrite Hd1.
    + by apply emails_parse_addresses.
    + cbn. by rewrite H24.
    + cbn. by rewrite Hs24.
    + cbn. by rewrite Hrate.
    + eexists _, w'. unfold dashboard, superuser_only. rewrite Hsuper.
      cbn [negb]. by rewrite Hrun.
Qed.
End DashboardFacts.

(** *** The dashboard on samples *)

Example dashboard_sample_summary :
  exists extra_context w',
    dashboard whole_float Z.sub int_of_string strptime "Etc/GMT-1" (Some pytz)
      sample_answers superuser (World three_points [])
    = Allowed (Ret (Rendered "django_ses/send_stats.html" extra_context
                      superuser), w')
    /\ c_summary extra_context = summary_dict (Totals 3 1 49 1)
    /\ c_datapoints extra_context = [VRef 12; VRef 13; VRef 11]
    /\ c_verified_emails extra_context = [PStr "a@x"; PStr "b@x"; PStr "b@x"]
    /\ c_local_time extra_context = true.
Proof. eexists _, _. split; [vm_compute; reflexivity|]. by split_and!. Qed.

Lemma dashboard_caches_what_it_returns_witness :
  (exists p w',
     dashboard whole_float Z.sub int_of_string strptime "Etc/GMT-1" (Some pytz)
       sample_answers superuser (World three_points [])
     = Allowed (Ret p, w')
     /\ take (length (@nil (@call Z)) + 4) (calls w')
        = [] ++ [cache_get cache_key; get_send_quota;
                 list_verified_email_addresses; get_send_statistics]
     /\ exists extra_context,
          p = Rendered "django_ses/send_stats.html" extra_context superuser
          /\ drop (length (@nil (@call Z)) + 4) (calls w')
             = [render_to_response "django_ses/send_stats.html"
                  extra_context;
                cache_set cache_key p 900])
  /\ (exists e w',
        dashboard whole_float Z.sub int_of_string strptime
          "Etc/GMT-1" (Some pytz)
          broken_answers superuser (World three_points [])
        = Allowed (Raise e, w')
        /\ take (length (@nil (@call Z)) + 4) (calls w')
           = [] ++ [cache_get cache_key; get_send_quota;
                    list_verified_email_addresses; get_send_statistics]
        /\ drop (length (@nil (@call Z)) + 4) (calls w') = []).
Proof.
  split.
  - eexists _, _. split; [vm_compute; reflexivity|].
    apply (dashboard_caches_what_it_returns whole_float Z.sub int_of_string
             strptime "Etc/GMT-1" (Some pytz) sample_answers superuser
             (World three_points []) (Ret _));
      [reflexivity|vm_compute; reflexivity].
  - eexists _, _. split; [vm_compute; reflexivity|].
    apply (dashboard_caches_what_it_returns whole_float Z.sub int_of_string
             strptime "Etc/GMT-1" (Some pytz) broken_answers superuser
             (World three_points []) (Raise KeyError));
      [reflexivity|vm_compute; reflexivity].
Defined.

Lemma three_points_counters :
  Forall2 (counters int_of_string three_points) [VRef 4; VRef 5; VRef 6]
    three_rows.
Proof.
  repeat constructor;
    (eexists _, _, _, _, _; split; [by eexists|]);
    split_and!; vm_compute; reflexivity.
Defined.

Lemma dashboard_summary_witness :
  (exists p w' extra_context,
     dashboard whole_float Z.sub int_of_string strptime "Etc/GMT-1" (Some pytz)
       sample_answers superuser (World three_points [])
     = Allowed (Ret p, w')
     /\ p = Rendered "django_ses/send_stats.html" extra_context superuser
     /\ c_summary extra_context = summary_of three_rows
     /\ c_datapoints extra_context
        ≡ₚ shift_val (length three_points) <$> [VRef 4; VRef 5; VRef 6]
     /\ StronglySorted (ascending (store w')) (c_datapoints extra_context))
  /\ exists p w',
       dashboard whole_float Z.sub int_of_string strptime
         "Etc/GMT-1" (Some pytz)
         sample_answers superuser (World three_points [])
       = Allowed (Ret p, w').
Proof.
  pose proof (dashboard_summary whole_float Z.sub int_of_string strptime
                "Etc/GMT-1" (Some pytz) sample_answers superuser
                (World three_points []) [VRef 4; VRef 5; VRef 6] three_rows
                eq_refl three_points_shape three_points_counters)
    as [Hreturned Hreturns].
  split.
  - eexists _, _.
    assert (dashboard whole_float Z.sub int_of_string strptime "Etc/GMT-1"
              (Some pytz) sample_answers superuser (World three_points [])
            = Allowed (Ret _, _)) as Hrun by (vm_compute; reflexivity).
    destruct (Hreturned _ _ Hrun) as (extra_context & Hp & Hrest).
    exists extra_context. split; [exact Hrun|]. split; [exact Hp|exact Hrest].
  - apply (Hreturns quota_whole (PStr "200") (PStr "12") (PStr "1")
             200 12
             ["b@x"; "a@x"; "b@x"]%string three_timestamps
             (Some (fixed_zone 3600)));
      try reflexivity.
    + eexists _, _. split_and!; reflexivity.
    + eexists _, _, _. split_and!; reflexivity.
    + apply three_points_timestamps.
    + intros tz [= <-].
      split; [apply three_points_distinct|apply three_points_well_formed].
Defined.
